(** * Apillon go-sdk: request executor and upload orchestration

    A shallow embedding of packages [requests] (requests.go) and [storage]
    (its error type and error codes, and the upload functions), with the
    properties of the retry loop, of the credential and of the
    three-phase upload.

    Go functions that talk to the network or sleep are state transformers
    over [State]; a Go return pair [(T, error)] is a [result T]; the Go
    standard library and the remote servers are one [World] record. *)

From Stdlib Require Import String Ascii List ZArith Lia Bool DecimalString.
Import ListNotations.

Local Open Scope string_scope.
Local Open Scope list_scope.
Local Open Scope Z_scope.

Notation "a +++ b" := (String.append a b) (at level 60, right associativity).

(** [s] without its first [n] characters: what is left of a reader over
    [s] once [n] bytes have been read from it. *)
Fixpoint string_drop (n : nat) (s : string) : string :=
  match n, s with
  | O, _ => s
  | S n', String _ s' => string_drop n' s'
  | S _, EmptyString => EmptyString
  end.

(** fmt's [%d] verb. *)
Definition string_of_Z (z : Z) : string := NilZero.string_of_int (Z.to_int z).

(** ** Errors *)

(** requests.go: [type APIError struct { Status int; Message string }]. *)
Record APIError := mkAPIError { Status : Z; Message : string }.

(** The two errors of package context. *)
Inductive ctx_error := Canceled | DeadlineExceeded.

(** Go [error] values, by the way the code builds them. *)
Inductive error : Type :=
| ENil                                         (* the nil error *)
| ELib (msg : string)                          (* an error of net/http, net/url, io or encoding/json *)
| ECtx (c : ctx_error)                         (* what client.Do returns for a done context: its ctx.Err() *)
| EMsg (msg : string)                          (* fmt.Errorf without %w *)
| EWrap (prefix : string) (cause : error)      (* fmt.Errorf("<prefix>%w", cause) *)
| EAPI (e : APIError)                          (* *APIError *)
| EStorage (Code : Z) (Msg : string) (Err_ : error).  (* *StorageError{Code, Message, Err} *)

Inductive result (A : Type) : Type :=
| Ok (a : A)
| Err (e : error).
Arguments Ok {A} a.
Arguments Err {A} e.

Definition is_ok {A} (r : result A) : bool :=
  match r with Ok _ => true | Err _ => false end.

(** ** HTTP values *)

Record Request := mkRequest {
  req_method : string;
  req_url : string;
  req_header : list (string * string);   (* in the order of the Header.Set calls *)
  req_body : option string;              (* what the io.Reader still holds when the
                                            request is built; None: a nil io.Reader *)
  req_timeout : Z                        (* Timeout of the http.Client that sends it; 0 = none *)
}.

Record Response := mkResponse {
  StatusCode : Z;
  Body : string;                 (* the bytes io.ReadAll returns *)
  ReadErr : option error         (* the error io.ReadAll returns, if any *)
}.

(** What [client.Do] returns. *)
Inductive Outcome :=
| DoErr (e : error)
| DoResp (r : Response).

(** Observable effects, in program order. *)
Inductive Event :=
| EvDo (req : Request)      (* a call of client.Do *)
| EvSleep (d : Z).          (* time.Sleep(d), d in nanoseconds *)

(** A [context.Context]: the instant (on the clock of [State]) from
    which [ctx.Done()] is closed, and the error [ctx.Err()] then reports. *)
Record Context := mkContext {
  ctx_done_at : option Z;
  ctx_err : ctx_error
}.

Definition context_Background : Context :=
  {| ctx_done_at := None; ctx_err := Canceled |}.

Definition ctx_done (ctx : Context) (now : Z) : bool :=
  match ctx_done_at ctx with
  | Some t => t <=? now
  | None => false
  end.

(** ** Types of package storage *)

(** Modelled from the spec: the declarations of [FileMetadata],
    [WholeFile], [ProcessAPIResponse] and [startUploadRequest] are in a
    file of the repository that is not at hand; the fields are those the
    upload code reads (fileName, contentType, path; metadata and content;
    data.sessionUuid and data.files[].url). *)
Record FileMetadata := mkFileMetadata {
  FileName : string;
  ContentType : string;
  Path : string
}.

Record WholeFile := mkWholeFile {
  Metadata : FileMetadata;
  Content : string
}.

Record FileItem := mkFileItem { URL : string }.

Record ProcessData := mkProcessData {
  SessionUUID : string;
  Files : list FileItem
}.

Record ProcessAPIResponse := mkProcessAPIResponse { Data : ProcessData }.

(** ** The world outside the repository *)

Record World := mkWorld {
  (* url.Parse(s): the parsed URL, kept as its String() form *)
  url_Parse : string -> result string;
  (* q := base.Query(); q.Set(k, v) for each param; base.RawQuery = q.Encode(); base.String() *)
  url_with_query : string -> list (string * string) -> string;
  (* http.NewRequestWithContext(ctx, method, url, body): its error, if any *)
  http_NewRequest : string -> string -> option error;
  (* json.Unmarshal(body, &apiErr) *)
  json_Unmarshal_APIError : string -> result APIError;
  (* json.Unmarshal([]byte(res), &apiResp) *)
  json_Unmarshal_ProcessAPIResponse : string -> result ProcessAPIResponse;
  (* json.Marshal(startUploadRequest{Files: files}) *)
  json_Marshal_startUploadRequest : list FileMetadata -> result string;
  (* the answer to the n-th client.Do call of the run (n counted from 0)
     when its context is not done at the time of the call *)
  round_trip : nat -> Request -> Outcome;
  (* how many bytes of its body that call reads from the io.Reader before
     it returns: none when it fails before anything is sent, all of them
     once the request has been written *)
  body_read : nat -> Request -> nat
}.

(** ** Program state *)

(** The clock advances in [time.Sleep] only: a call of client.Do is
    placed at the instant it is made, and what its duration brings about
    (a timeout, a cancellation under way) is part of the world's answer. *)
Record State := mkState {
  apiKey : string;              (* requests.go: var apiKey string *)
  env_APILLON_API_KEY : string; (* os.Getenv("APILLON_API_KEY") *)
  clock : Z;                    (* nanoseconds *)
  trace : list Event
}.

Definition St (A : Type) : Type := State -> A * State.

Definition ret {A} (a : A) : St A := fun s => (a, s).

Definition bind {A B} (m : St A) (k : A -> St B) : St B :=
  fun s => let (a, s') := m s in k a s'.

Notation "'let*' x ':=' m 'in' k" := (bind m (fun x => k))
  (at level 10, x name, m at level 100, k at level 200).
Notation "m ';;' k" := (bind m (fun _ => k))
  (at level 100, k at level 200, right associativity).

Definition get_state : St State := fun s => (s, s).

(** [s] after the events [evs], with the clock at [now]. *)
Definition advance (s : State) (now : Z) (evs : list Event) : State :=
  {| apiKey := apiKey s; env_APILLON_API_KEY := env_APILLON_API_KEY s;
     clock := now; trace := trace s ++ evs |}.

Definition log (e : Event) : St unit :=
  fun s => (tt, advance s (clock s) [e]).

(** The requests handed to client.Do, in order. *)
Fixpoint do_calls (tr : list Event) : list Request :=
  match tr with
  | [] => []
  | EvDo r :: tr' => r :: do_calls tr'
  | EvSleep _ :: tr' => do_calls tr'
  end.

(** The durations slept, in order. *)
Fixpoint sleeps (tr : list Event) : list Z :=
  match tr with
  | [] => []
  | EvDo _ :: tr' => sleeps tr'
  | EvSleep d :: tr' => d :: sleeps tr'
  end.

(** [time.Sleep(d)]: returns at once when d <= 0. *)
Definition time_Sleep (d : Z) : St unit :=
  fun s => (tt, advance s (clock s + Z.max 0 d) [EvSleep d]).

Definition second : Z := 1000000000.

Section Runtime.

Variable w : World.

(** [client.Do(req)] for a request made with context [ctx]: net/http
    fails at once with the context's error when the context is done,
    and otherwise performs the round trip. *)
Definition client_Do (ctx : Context) (req : Request) : St Outcome :=
  let* s := get_state in
  log (EvDo req) ;;
  if ctx_done ctx (clock s) then ret (DoErr (ECtx (ctx_err ctx)))
  else ret (round_trip w (length (do_calls (trace s))) req).

(** What the io.Reader of [req] still holds after the [n]-th call of the
    run, made with [req] at instant [now]: a call on a done context
    returns before it reads anything. *)
Definition reader_rest (ctx : Context) (now : Z) (n : nat) (req : Request) : option string :=
  if ctx_done ctx now then req_body req
  else option_map (string_drop (body_read w n req)) (req_body req).

End Runtime.

(** ** Package requests (requests.go) *)

Module requests.

Definition baseURL : string := "https://api.apillon.io".
Definition maxRetries : Z := 3.
Definition retryDelay : Z := second.
Definition timeoutGet : Z := 30 * second.
Definition timeoutPost : Z := 60 * second.

(** [func (e *APIError) Error() string]. *)
Definition APIError_Error (e : APIError) : string :=
  "API error (status " +++ string_of_Z (Status e) +++ "): " +++ Message e.

(** [func SetAPIKey(key string)]. *)
Definition SetAPIKey (key : string) : St unit :=
  fun s => (tt, {| apiKey := key; env_APILLON_API_KEY := env_APILLON_API_KEY s;
                   clock := clock s; trace := trace s |}).

(** [func getAPIKey() string]. *)
Definition getAPIKey : St string :=
  fun s => if negb (apiKey s =? "")%string then (apiKey s, s)
           else (env_APILLON_API_KEY s, s).

Section WithWorld.

Variable w : World.

(** [func buildURL(path string, params map[string]string) (string, error)]. *)
Definition buildURL (path : string) (params : list (string * string)) : result string :=
  match url_Parse w (baseURL +++ path) with
  | Err e => Err (EWrap "invalid base URL: " e)
  | Ok base =>
      if (0 <? length params)%nat then Ok (url_with_query w base params)
      else Ok base
  end.

(** The request of one attempt of doRequest: NewRequestWithContext, the
    two Header.Set calls and the client's Timeout. *)
Definition api_request (method url : string) (body : option string) (timeout : Z)
    (key : string) : Request :=
  {| req_method := method;
     req_url := url;
     req_header :=
       ("Authorization", "Basic " +++ key)
       :: (if (method =? "POST")%string
           then [("Content-Type", "application/json")] else []);
     req_body := body;
     req_timeout := timeout |}.

(** The [for attempt := 0; attempt < maxRetries; attempt++] loop of
    doRequest and the return after it; [remaining] is
    [maxRetries - attempt]. [body] is the one io.Reader of the call: each
    attempt builds its request from what the attempts before it have
    left unread. *)
Fixpoint doRequest_loop (remaining : nat) (attempt : Z) (lastErr : error)
    (ctx : Context) (method url : string) (body : option string) (timeout : Z)
    : St (result string) :=
  match remaining with
  | O =>
      ret (Err (EWrap ("request failed after " +++ string_of_Z maxRetries +++ " attempts: ")
                      lastErr))
  | S remaining' =>
      match http_NewRequest w method url with
      | Some e => ret (Err (EWrap "failed to create request: " e))
      | None =>
          let* key := getAPIKey in
          let req := api_request method url body timeout key in
          let* before := get_state in
          let* out := client_Do w ctx req in
          match out with
          | DoErr e =>
              let rest :=
                reader_rest w ctx (clock before) (length (do_calls (trace before))) req in
              time_Sleep (retryDelay * (attempt + 1)) ;;
              doRequest_loop remaining' (attempt + 1) e ctx method url rest timeout
          | DoResp resp =>
              match ReadErr resp with
              | Some e => ret (Err (EWrap "failed to read response body: " e))
              | None =>
                  if 400 <=? StatusCode resp then
                    match json_Unmarshal_APIError w (Body resp) with
                    | Err _ =>
                        ret (Err (EMsg ("HTTP error " +++ string_of_Z (StatusCode resp)
                                        +++ ": " +++ Body resp)))
                    | Ok apiErr => ret (Err (EAPI apiErr))
                    end
                  else ret (Ok (Body resp))
              end
          end
      end
  end.

(** [func doRequest(ctx, method, path, body, params, timeout) (string, error)]. *)
Definition doRequest (ctx : Context) (method path : string) (body : option string)
    (params : list (string * string)) (timeout : Z) : St (result string) :=
  match buildURL path params with
  | Err e => ret (Err e)
  | Ok url => doRequest_loop (Z.to_nat maxRetries) 0 ENil ctx method url body timeout
  end.

Definition GetReq (ctx : Context) (path : string) (params : list (string * string))
    : St (result string) :=
  doRequest ctx "GET" path None params timeoutGet.

Definition PostReq (ctx : Context) (path : string) (body : option string)
    : St (result string) :=
  doRequest ctx "POST" path body [] timeoutPost.

Definition DeleteReq (ctx : Context) (path : string) : St (result string) :=
  doRequest ctx "DELETE" path None [] timeoutGet.

End WithWorld.

End requests.

(** ** Package storage (StorageError and the upload functions) *)

Module storage.

(** Error codes. *)
Definition ErrCodeDirectoryNotFound : Z := 40406003.
Definition ErrCodeDirectoryDeleting : Z := 40006007.
Definition ErrCodeInvalidInput : Z := 40000001.

Definition defaultContentType : string := "text/plain".
Definition urlReadyDelay : Z := 2 * second.

(** The loop of StartUploadFilesToBucket over [files], from index [i]:
    a missing content type is defaulted, a missing name is an error. *)
Fixpoint ensure_content_types (i : Z) (files : list FileMetadata)
    : result (list FileMetadata) :=
  match files with
  | [] => Ok []
  | f :: files' =>
      let f' := if (ContentType f =? "")%string
                then {| FileName := FileName f; ContentType := defaultContentType;
                        Path := Path f |}
                else f in
      if (FileName f' =? "")%string then
        Err (EStorage ErrCodeInvalidInput
               ("file at index " +++ string_of_Z i +++ " has no name") ENil)
      else
        match ensure_content_types (i + 1) files' with
        | Err e => Err e
        | Ok rest => Ok (f' :: rest)
        end
  end.

(** The first loop of UploadFileProcess: [onlyMetadata[i] = file.Metadata]
    for each file, unless one has no content or no name. *)
Fixpoint extract_metadata (files : list WholeFile) : result (list FileMetadata) :=
  match files with
  | [] => Ok []
  | file :: files' =>
      if ((Content file =? "") || (FileName (Metadata file) =? ""))%string then
        Err (EStorage ErrCodeInvalidInput
               ("file content or metadata is empty for file " +++ FileName (Metadata file))
               ENil)
      else
        match extract_metadata files' with
        | Err e => Err e
        | Ok rest => Ok (Metadata file :: rest)
        end
  end.

(** The loop of UploadFileProcess over [apiResp.Data.Files]: the
    non-empty URLs, in response order. *)
Fixpoint extract_urls (items : list FileItem) : list string :=
  match items with
  | [] => []
  | fileItem :: items' =>
      if negb (URL fileItem =? "")%string then URL fileItem :: extract_urls items'
      else extract_urls items'
  end.

(** The request of UploadFiles: a PUT of the raw content, no header set,
    sent by a client without Timeout. *)
Definition put_request (signedURL rawFile : string) : Request :=
  {| req_method := "PUT"; req_url := signedURL; req_header := [];
     req_body := Some rawFile; req_timeout := 0 |}.

Section WithWorld.

Variable w : World.

(** [func StartUploadFilesToBucket(ctx, bucketUuid, files) (string, error)]. *)
Definition StartUploadFilesToBucket (ctx : Context) (bucketUuid : string)
    (files : list FileMetadata) : St (result string) :=
  if (bucketUuid =? "")%string then
    ret (Err (EStorage ErrCodeInvalidInput "bucket UUID cannot be empty" ENil))
  else if (length files =? 0)%nat then
    ret (Err (EStorage ErrCodeInvalidInput "no files provided for upload" ENil))
  else
    match ensure_content_types 0 files with
    | Err e => ret (Err e)
    | Ok files' =>
        match json_Marshal_startUploadRequest w files' with
        | Err e => ret (Err (EStorage 500 "failed to marshal upload files request" e))
        | Ok bodyBytes =>
            let path := "/storage/buckets/" +++ bucketUuid +++ "/upload" in
            let* r := requests.PostReq w ctx path (Some bodyBytes) in
            match r with
            | Err e => ret (Err (EStorage 500 "failed to start upload session" e))
            | Ok res => ret (Ok res)
            end
        end
    end.

(** [func UploadFiles(ctx, signedURL, rawFile string) error]. *)
Definition UploadFiles (ctx : Context) (signedURL rawFile : string) : St (result unit) :=
  if (signedURL =? "")%string then
    ret (Err (EStorage ErrCodeInvalidInput "signed URL cannot be empty" ENil))
  else if (rawFile =? "")%string then
    ret (Err (EStorage ErrCodeInvalidInput "file content cannot be empty" ENil))
  else
    match http_NewRequest w "PUT" signedURL with
    | Some e => ret (Err (EStorage 500 "failed to create upload request" e))
    | None =>
        let* out := client_Do w ctx (put_request signedURL rawFile) in
        match out with
        | DoErr e => ret (Err (EStorage 500 "failed to upload file" e))
        | DoResp resp =>
            if (StatusCode resp <? 200) || (300 <=? StatusCode resp) then
              ret (Err (EStorage (StatusCode resp) ("upload failed: " +++ Body resp) ENil))
            else ret (Ok tt)
        end
    end.

(** [func EndSession(ctx, bucketUuid, sessionId string) (string, error)]. *)
Definition EndSession (ctx : Context) (bucketUuid sessionId : string)
    : St (result string) :=
  if ((bucketUuid =? "") || (sessionId =? ""))%string then
    ret (Err (EStorage ErrCodeInvalidInput "bucket UUID and session ID cannot be empty" ENil))
  else
    let path := "/storage/buckets/" +++ bucketUuid +++ "/upload/" +++ sessionId +++ "/end" in
    let* r := requests.PostReq w ctx path None in
    match r with
    | Err e => ret (Err (EStorage 500 "failed to end upload session" e))
    | Ok res => ret (Ok res)
    end.

(** Step 2 of UploadFileProcess: [for i, file := range files], from
    index [i]; [urls[i]] is in range there, after the length checks. *)
Fixpoint upload_loop (ctx : Context) (urls : list string) (i : nat)
    (files : list WholeFile) : St (result unit) :=
  match files with
  | [] => ret (Ok tt)
  | file :: files' =>
      let* r := UploadFiles ctx (nth i urls "") (Content file) in
      match r with
      | Err e =>
          ret (Err (EWrap ("failed to upload file " +++ FileName (Metadata file) +++ ": ") e))
      | Ok _ => upload_loop ctx urls (S i) files'
      end
  end.

(** [func UploadFileProcess(ctx, bucketUuid, files) (string, error)]. *)
Definition UploadFileProcess (ctx : Context) (bucketUuid : string)
    (files : list WholeFile) : St (result string) :=
  if (bucketUuid =? "")%string then
    ret (Err (EStorage ErrCodeInvalidInput "bucket UUID cannot be empty" ENil))
  else if (length files =? 0)%nat then
    ret (Err (EStorage ErrCodeInvalidInput "no files provided for upload" ENil))
  else
    match extract_metadata files with
    | Err e => ret (Err e)
    | Ok onlyMetadata =>
        let* r := StartUploadFilesToBucket ctx bucketUuid onlyMetadata in
        match r with
        | Err e => ret (Err (EWrap "failed to start upload session: " e))
        | Ok res =>
            match json_Unmarshal_ProcessAPIResponse w res with
            | Err e =>
                ret (Err (EStorage 500 "failed to unmarshal process upload response" e))
            | Ok apiResp =>
                let urls := extract_urls (Files (Data apiResp)) in
                if (length urls =? 0)%nat then
                  ret (Err (EStorage 500 "no signed URLs found in process upload response"
                              ENil))
                else if (length urls <? length files)%nat then
                  ret (Err (EStorage 500
                              ("not enough signed URLs provided. Expected "
                               +++ string_of_Z (Z.of_nat (length files)) +++ ", got "
                               +++ string_of_Z (Z.of_nat (length urls))) ENil))
                else
                  time_Sleep urlReadyDelay ;;
                  let* r := upload_loop ctx urls 0 files in
                  match r with
                  | Err e => ret (Err e)
                  | Ok _ =>
                      let* r := EndSession ctx bucketUuid (SessionUUID (Data apiResp)) in
                      match r with
                      | Err e => ret (Err (EWrap "failed to end upload session: " e))
                      | Ok res => ret (Ok res)
                      end
                  end
            end
        end
    end.

End WithWorld.

(** *** The bucket, file, directory and IPFS wrappers

    The response types are declared in a file that is not at hand: each
    is a parameter, with json.Unmarshal into it, and with the fields the
    wrappers read ([Status] of the delete-directory response, [Data.Link]
    of the IPFS link response) as projections. *)

Section Wrappers.

Variable w : World.

Variable ListFilesResponse : Type.
Variable json_Unmarshal_ListFilesResponse : string -> result ListFilesResponse.

Variable FileDetails : Type.
Variable json_Unmarshal_FileDetails : string -> result FileDetails.

Variable DeleteDirectoryResponse : Type.
Variable DeleteDirectoryResponse_zero : DeleteDirectoryResponse.
Variable DeleteDirectoryResponse_Status : DeleteDirectoryResponse -> Z.
Variable json_Unmarshal_DeleteDirectoryResponse : string -> result DeleteDirectoryResponse.

Variable IPFSLinkResponse : Type.
Variable IPFSLinkResponse_Data_Link : IPFSLinkResponse -> string.
Variable json_Unmarshal_IPFSLinkResponse : string -> result IPFSLinkResponse.

Variable IPFSClusterInfoResponse : Type.
Variable json_Unmarshal_IPFSClusterInfoResponse : string -> result IPFSClusterInfoResponse.

Variable ListBucketsResponse : Type.
Variable json_Unmarshal_ListBucketsResponse : string -> result ListBucketsResponse.

(** json.Marshal(CreateBucketRequest{Name: name, Description: description}). *)
Variable json_Marshal_CreateBucketRequest : string -> string -> result string.

(** [func GetBucketContent(ctx, bucketUuid string) (string, error)]. *)
Definition GetBucketContent (ctx : Context) (bucketUuid : string) : St (result string) :=
  if (bucketUuid =? "")%string then
    ret (Err (EStorage ErrCodeInvalidInput "bucket UUID cannot be empty" ENil))
  else
    let path := "/storage/buckets/" +++ bucketUuid +++ "/content" in
    let* r := requests.GetReq w ctx path [] in
    match r with
    | Err e =>
        ret (Err (EStorage 500 ("failed to get bucket content for bucket " +++ bucketUuid) e))
    | Ok res => ret (Ok res)
    end.

(** [func ListFilesInBucket(ctx, bucketUuid string) (ListFilesResponse, error)]. *)
Definition ListFilesInBucket (ctx : Context) (bucketUuid : string)
    : St (result ListFilesResponse) :=
  if (bucketUuid =? "")%string then
    ret (Err (EStorage ErrCodeInvalidInput "bucket UUID cannot be empty" ENil))
  else
    let path := "/storage/buckets/" +++ bucketUuid +++ "/files" in
    let* r := requests.GetReq w ctx path [] in
    match r with
    | Err e =>
        ret (Err (EStorage 500 ("failed to list files in bucket " +++ bucketUuid) e))
    | Ok res =>
        match json_Unmarshal_ListFilesResponse res with
        | Err e =>
            ret (Err (EStorage 500
                        ("failed to unmarshal list files response for bucket " +++ bucketUuid)
                        e))
        | Ok fileList => ret (Ok fileList)
        end
    end.

(** [func GetFileDetails(ctx, bucketUuid, fileUuid string) (FileDetails, error)]. *)
Definition GetFileDetails (ctx : Context) (bucketUuid fileUuid : string)
    : St (result FileDetails) :=
  if ((bucketUuid =? "") || (fileUuid =? ""))%string then
    ret (Err (EStorage ErrCodeInvalidInput "bucket UUID and file UUID cannot be empty" ENil))
  else
    let path := "/storage/buckets/" +++ bucketUuid +++ "/files/" +++ fileUuid in
    let* r := requests.GetReq w ctx path [] in
    match r with
    | Err e =>
        ret (Err (EStorage 500
                    ("failed to get file details for file " +++ fileUuid
                     +++ " in bucket " +++ bucketUuid) e))
    | Ok res =>
        match json_Unmarshal_FileDetails res with
        | Err e =>
            ret (Err (EStorage 500
                        ("failed to unmarshal get file details response for file "
                         +++ fileUuid +++ " in bucket " +++ bucketUuid) e))
        | Ok fileDetails => ret (Ok fileDetails)
        end
    end.

(** [func DeleteFile(ctx, bucketUuid, fileUuid string) (string, error)]. *)
Definition DeleteFile (ctx : Context) (bucketUuid fileUuid : string) : St (result string) :=
  if ((bucketUuid =? "") || (fileUuid =? ""))%string then
    ret (Err (EStorage ErrCodeInvalidInput "bucket UUID and file UUID cannot be empty" ENil))
  else
    let path := "/storage/buckets/" +++ bucketUuid +++ "/files/" +++ fileUuid in
    let* r := requests.DeleteReq w ctx path in
    match r with
    | Err e =>
        ret (Err (EStorage 500
                    ("failed to delete file " +++ fileUuid +++ " in bucket " +++ bucketUuid)
                    e))
    | Ok res => ret (Ok res)
    end.

(** [func DeleteDirectory(ctx, bucketUuid, directoryUuid string)
    (DeleteDirectoryResponse, error)]: the one wrapper that can return a
    response together with an error, so both are returned; [ENil] is the
    nil error. *)
Definition DeleteDirectory (ctx : Context) (bucketUuid directoryUuid : string)
    : St (DeleteDirectoryResponse * error) :=
  if ((bucketUuid =? "") || (directoryUuid =? ""))%string then
    ret (DeleteDirectoryResponse_zero,
         EStorage ErrCodeInvalidInput "bucket UUID and directory UUID cannot be empty" ENil)
  else
    let path := "/storage/buckets/" +++ bucketUuid +++ "/directories/" +++ directoryUuid in
    let* r := requests.DeleteReq w ctx path in
    match r with
    | Err e =>
        ret (DeleteDirectoryResponse_zero,
             EStorage 500
               ("failed to delete directory " +++ directoryUuid
                +++ " in bucket " +++ bucketUuid) e)
    | Ok res =>
        match json_Unmarshal_DeleteDirectoryResponse res with
        | Err e =>
            ret (DeleteDirectoryResponse_zero,
                 EStorage 500
                   ("failed to unmarshal delete directory response for directory "
                    +++ directoryUuid +++ " in bucket " +++ bucketUuid) e)
        | Ok resp =>
            if DeleteDirectoryResponse_Status resp =? ErrCodeDirectoryNotFound then
              ret (resp, EStorage ErrCodeDirectoryNotFound "directory does not exist" ENil)
            else if DeleteDirectoryResponse_Status resp =? ErrCodeDirectoryDeleting then
              ret (resp, EStorage ErrCodeDirectoryDeleting
                           "directory is already marked for deletion" ENil)
            else ret (resp, ENil)
        end
    end.

(** [func GetOrGenerateIPFSLink(ctx, cid string) (string, error)]. *)
Definition GetOrGenerateIPFSLink (ctx : Context) (cid : string) : St (result string) :=
  if (cid =? "")%string then
    ret (Err (EStorage ErrCodeInvalidInput "CID cannot be empty" ENil))
  else
    let path := "/storage/link-on-ipfs/" +++ cid in
    let* r := requests.GetReq w ctx path [] in
    match r with
    | Err e => ret (Err (EStorage 500 ("failed to get IPFS link for CID " +++ cid) e))
    | Ok res =>
        match json_Unmarshal_IPFSLinkResponse res with
        | Err e =>
            ret (Err (EStorage 500
                        ("failed to unmarshal get IPFS link response for CID " +++ cid) e))
        | Ok ipfsLinkResponse =>
            if (IPFSLinkResponse_Data_Link ipfsLinkResponse =? "")%string then
              ret (Err (EStorage 404 ("no IPFS link found for CID " +++ cid) ENil))
            else ret (Ok (IPFSLinkResponse_Data_Link ipfsLinkResponse))
        end
    end.

(** [func GetIPFSClusterInfo(ctx) (IPFSClusterInfoResponse, error)]. *)
Definition GetIPFSClusterInfo (ctx : Context) : St (result IPFSClusterInfoResponse) :=
  let path := "/storage/ipfs-cluster-info" in
  let* r := requests.GetReq w ctx path [] in
  match r with
  | Err e => ret (Err (EStorage 500 "failed to get IPFS cluster info" e))
  | Ok res =>
      match json_Unmarshal_IPFSClusterInfoResponse res with
      | Err e => ret (Err (EStorage 500 "failed to unmarshal IPFS cluster info response" e))
      | Ok infoResp => ret (Ok infoResp)
      end
  end.

(** management.go: [func CreateBucket(ctx, name, description string) error]. *)
Definition CreateBucket (ctx : Context) (name description : string) : St (result unit) :=
  if (name =? "")%string then
    ret (Err (EStorage ErrCodeInvalidInput "bucket name cannot be empty" ENil))
  else
    match json_Marshal_CreateBucketRequest name description with
    | Err e => ret (Err (EStorage 500 "failed to marshal create bucket request" e))
    | Ok bodyBytes =>
        let* r := requests.PostReq w ctx "/storage/buckets" (Some bodyBytes) in
        match r with
        | Err e => ret (Err (EStorage 500 "failed to create bucket" e))
        | Ok _ => ret (Ok tt)
        end
    end.

(** management.go: [func GetBucket(ctx, name string) (ListBucketsResponse, error)]. *)
Definition GetBucket (ctx : Context) (name : string) : St (result ListBucketsResponse) :=
  let params := if negb (name =? "")%string then [("name", name)] else [] in
  let* r := requests.GetReq w ctx "/storage/buckets/" params in
  match r with
  | Err e => ret (Err (EStorage 500 "failed to get bucket" e))
  | Ok res =>
      match json_Unmarshal_ListBucketsResponse res with
      | Err e => ret (Err (EStorage 500 "failed to unmarshal bucket list response" e))
      | Ok bucketList => ret (Ok bucketList)
      end
  end.

End Wrappers.

End storage.

(** ** Vocabulary of the properties *)

(** What [client.Do] answers in state [s]. *)
Definition do_outcome (w : World) (ctx : Context) (s : State) (req : Request) : Outcome :=
  if ctx_done ctx (clock s) then DoErr (ECtx (ctx_err ctx))
  else round_trip w (length (do_calls (trace s))) req.

(** What the reader of [req] still holds after the call made with it in
    state [s]. *)
Definition reader_after (w : World) (ctx : Context) (s : State) (req : Request)
    : option string :=
  reader_rest w ctx (clock s) (length (do_calls (trace s))) req.

(** [b] is what is left of the reader [body] after some of it was read. *)
Definition reader_left (b body : option string) : Prop :=
  match b, body with
  | None, None => True
  | Some x, Some y => exists n, x = string_drop n y
  | _, _ => False
  end.

(** [r] can be an attempt of a doRequest with these arguments: the
    request built from them and the credential [key], its body being
    what is left of [body]. *)
Definition attempt_of (method url : string) (body : option string) (timeout : Z)
    (key : string) (r : Request) : Prop :=
  exists b, reader_left b body /\ r = requests.api_request method url b timeout key.

(** The credential a request made in state [s] carries. *)
Definition credential (s : State) : string := fst (requests.getAPIKey s).

(** The value of a request's Authorization header, if it has one. *)
Fixpoint header_get (k : string) (h : list (string * string)) : option string :=
  match h with
  | [] => None
  | (k', v) :: h' => if (k' =? k)%string then Some v else header_get k h'
  end.

Definition authorization (req : Request) : option string :=
  header_get "Authorization" (req_header req).

(** The message of the error returned when the attempts are used up. *)
Definition exhausted_prefix : string := "request failed after 3 attempts: ".

Definition is_retry_exhausted {A} (r : result A) : bool :=
  match r with
  | Err (EWrap p _) => (p =? exhausted_prefix)%string
  | _ => false
  end.

(** The events of [k] consecutive failed attempts of doRequest, the
    first of them being attempt number [attempt] (from 0), and the time
    they take. *)
Fixpoint retry_events (req : Request) (k : nat) (attempt : Z) : list Event :=
  match k with
  | O => []
  | S k' =>
      EvDo req :: EvSleep (requests.retryDelay * (attempt + 1))
      :: retry_events req k' (attempt + 1)
  end.

Fixpoint retry_time (k : nat) (attempt : Z) : Z :=
  match k with
  | O => 0
  | S k' => Z.max 0 (requests.retryDelay * (attempt + 1)) + retry_time k' (attempt + 1)
  end.

(** Events with the clock at which each starts, when the first starts
    at [now]. *)
Fixpoint timed (now : Z) (tr : list Event) : list (Z * Event) :=
  match tr with
  | [] => []
  | EvDo r :: tr' => (now, EvDo r) :: timed now tr'
  | EvSleep d :: tr' => (now, EvSleep d) :: timed (now + Z.max 0 d) tr'
  end.

(** Instant [c] falls in this sleep. *)
Definition fires_in_delay (c : Z) (te : Z * Event) : bool :=
  match te with
  | (t, EvSleep d) => (t <? c) && (c <=? t + d)
  | _ => false
  end.

(** This client.Do call is made at or after instant [c]. *)
Definition issued_from (c : Z) (te : Z * Event) : bool :=
  match te with
  | (t, EvDo _) => c <=? t
  | _ => false
  end.

(** The reading of the retry loop in which a cancellation during a
    delay preempts: when the context's signal fires during a sleep of a
    run of doRequest, no attempt is issued from then on and the error is
    not the retry-exhausted one. *)
Definition cancel_preempts (w : World) (ctx : Context) (method path : string)
    (body : option string) (params : list (string * string)) (timeout : Z)
    (s : State) : Prop :=
  let run := requests.doRequest w ctx method path body params timeout s in
  let evs := timed (clock s) (skipn (length (trace s)) (trace (snd run))) in
  forall c, ctx_done_at ctx = Some c ->
    existsb (fires_in_delay c) evs = true ->
    existsb (issued_from c) evs = false /\ is_retry_exhausted (fst run) = false.

(** The reading of the retry loop in which a response with status >= 400
    to the first attempt is retried exactly when its body does not
    decode as an error envelope. *)
Definition retry_iff_undecodable (w : World) (ctx : Context) (method path : string)
    (body : option string) (params : list (string * string)) (timeout : Z)
    (s : State) : Prop :=
  let run := requests.doRequest w ctx method path body params timeout s in
  forall url resp,
    requests.buildURL w path params = Ok url ->
    do_outcome w ctx s (requests.api_request method url body timeout (credential s))
      = DoResp resp ->
    ReadErr resp = None ->
    400 <= StatusCode resp ->
    ((length (do_calls (trace s)) + 1 < length (do_calls (trace (snd run))))%nat
     <-> is_ok (json_Unmarshal_APIError w (Body resp)) = false).

(** [os.Setenv("APILLON_API_KEY", value)], by the program that uses the
    package. *)
Definition os_Setenv (value : string) : St unit :=
  fun s => (tt, {| apiKey := apiKey s; env_APILLON_API_KEY := value;
                   clock := clock s; trace := trace s |}).

(** A request through one of the three exported verbs. *)
Inductive api_call :=
| CallGet (path : string) (params : list (string * string))
| CallPost (path : string) (body : option string)
| CallDelete (path : string).

Definition run_call (w : World) (ctx : Context) (c : api_call) : St (result string) :=
  match c with
  | CallGet path params => requests.GetReq w ctx path params
  | CallPost path body => requests.PostReq w ctx path body
  | CallDelete path => requests.DeleteReq w ctx path
  end.

(** What a program does that bears on the credential. *)
Inductive key_op :=
| OpSetAPIKey (key : string)
| OpSetenv (value : string)
| OpCall (c : api_call).

Fixpoint run_ops (w : World) (ctx : Context) (ops : list key_op) : St unit :=
  match ops with
  | [] => ret tt
  | OpSetAPIKey key :: ops' => requests.SetAPIKey key ;; run_ops w ctx ops'
  | OpSetenv value :: ops' => os_Setenv value ;; run_ops w ctx ops'
  | OpCall c :: ops' => run_call w ctx c ;; run_ops w ctx ops'
  end.

(** The Authorization headers of the requests a program sends. *)
Definition credentials_seen (w : World) (ctx : Context) (ops : list key_op) (s : State)
    : list (option string) :=
  map authorization (do_calls (trace (snd (run_ops w ctx ops s)))).

(** The reading in which the credential is set once: all requests of a
    program carry one and the same credential. *)
Definition credential_set_once (w : World) (ctx : Context) (ops : list key_op)
    (s : State) : Prop :=
  forall a b, In a (credentials_seen w ctx ops s) ->
              In b (credentials_seen w ctx ops s) -> a = b.

(** A file UploadFileProcess accepts: content and name present. *)
Definition valid_file (f : WholeFile) : bool :=
  negb (Content f =? "")%string && negb (FileName (Metadata f) =? "")%string.

(** UploadFileProcess, called in state [s] with arguments that pass its
    checks, has obtained the session-start response [apiResp] and is in
    state [s1]. *)
Definition session_started (w : World) (ctx : Context) (bucketUuid : string)
    (files : list WholeFile) (s s1 : State) (apiResp : ProcessAPIResponse) : Prop :=
  (bucketUuid =? "")%string = false
  /\ files <> []
  /\ forallb valid_file files = true
  /\ exists res,
       storage.StartUploadFilesToBucket w ctx bucketUuid (map Metadata files) s = (Ok res, s1)
       /\ json_Unmarshal_ProcessAPIResponse w res = Ok apiResp.

(** A call of the session-start request of [bucketUuid]. *)
Definition session_start_call (w : World) (bucketUuid : string) (r : Request) : Prop :=
  req_method r = "POST"
  /\ requests.buildURL w ("/storage/buckets/" +++ bucketUuid +++ "/upload") []
     = Ok (req_url r).

(** The PUT of [content] to [url], made at instant [now] as the [n]-th
    call of the run, can be built and is answered with a 2xx status. *)
Definition upload_accepted (w : World) (ctx : Context) (now : Z) (n : nat)
    (url content : string) : bool :=
  match http_NewRequest w "PUT" url with
  | Some _ => false
  | None =>
      negb (ctx_done ctx now)
      && match round_trip w n (storage.put_request url content) with
         | DoResp r => (200 <=? StatusCode r) && (StatusCode r <? 300)
         | DoErr _ => false
         end
  end.

(** The same for consecutive uploads, the first being the [n]-th call. *)
Fixpoint uploads_accepted (w : World) (ctx : Context) (now : Z) (n : nat)
    (pairs : list (string * WholeFile)) : bool :=
  match pairs with
  | [] => true
  | (url, file) :: pairs' =>
      upload_accepted w ctx now n url (Content file)
      && uploads_accepted w ctx now (S n) pairs'
  end.

(** The PUT requests of files paired with URLs. *)
Definition upload_requests (pairs : list (string * WholeFile)) : list Request :=
  map (fun p => storage.put_request (fst p) (Content (snd p))) pairs.

(** The events of one UploadFiles call with non-empty arguments: its
    PUT, unless the request cannot be built. *)
Definition upload_events (w : World) (url content : string) : list Event :=
  match http_NewRequest w "PUT" url with
  | Some _ => []
  | None => [EvDo (storage.put_request url content)]
  end.

(** A file's metadata as StartUploadFilesToBucket sends it: a missing
    content type replaced by the default one. *)
Definition with_default_content_type (f : FileMetadata) : FileMetadata :=
  if (ContentType f =? "")%string
  then {| FileName := FileName f; ContentType := storage.defaultContentType;
          Path := Path f |}
  else f.

(** A file's metadata has a name. *)
Definition named (m : FileMetadata) : bool := negb (FileName m =? "")%string.

(** A POST that carries the credential [key]; a PUT without any header. *)
Definition api_post (key : string) (r : Request) : Prop :=
  req_method r = "POST" /\ authorization r = Some ("Basic " +++ key).

Definition bare_put (r : Request) : Prop :=
  req_method r = "PUT" /\ req_header r = [].

Definition process_call (key : string) (r : Request) : Prop :=
  api_post key r \/ bare_put r.

(** From [s] to [s'] at most 3 calls were made and nothing else was
    changed but the clock; every call has the method [verb] and carries
    the credential of [s]. *)
Definition one_request (verb : string) (s s' : State) : Prop :=
  exists t evs,
    s' = advance s t evs
    /\ (length (do_calls evs) <= 3)%nat
    /\ Forall (fun r => req_method r = verb
                        /\ authorization r = Some ("Basic " +++ credential s))
         (do_calls evs).

(** ** Concrete worlds

    Library functions and servers for the examples below. The library
    functions are tables: they agree with net/url, net/http and
    encoding/json on the strings the examples use. *)

Module Scenarios.

Definition dq : string := String (ascii_of_nat 34) EmptyString.
Definition quoted (s : string) : string := dq +++ s +++ dq.

(** The error envelope [{"status":404,"message":"x"}]. *)
Definition body_404 : string :=
  "{" +++ quoted "status" +++ ":404," +++ quoted "message" +++ ":" +++ quoted "x" +++ "}".

(** JSON text of a session-start response with the given URL entries. *)
Fixpoint json_files (urls : list string) : string :=
  match urls with
  | [] => ""
  | [u] => "{" +++ quoted "url" +++ ":" +++ quoted u +++ "}"
  | u :: rest => "{" +++ quoted "url" +++ ":" +++ quoted u +++ "}," +++ json_files rest
  end.

Definition json_process (session : string) (urls : list string) : string :=
  "{" +++ quoted "data" +++ ":{" +++ quoted "sessionUuid" +++ ":" +++ quoted session
  +++ "," +++ quoted "files" +++ ":[" +++ json_files urls +++ "]}}".

(** JSON text of a session-start request for the given files. *)
Definition json_metadata (f : FileMetadata) : string :=
  "{" +++ quoted "fileName" +++ ":" +++ quoted (FileName f) +++ ","
  +++ quoted "contentType" +++ ":" +++ quoted (ContentType f)
  +++ (if (Path f =? "")%string then "" else "," +++ quoted "path" +++ ":" +++ quoted (Path f))
  +++ "}".

Fixpoint json_metadata_list (files : list FileMetadata) : string :=
  match files with
  | [] => ""
  | [f] => json_metadata f
  | f :: rest => json_metadata f +++ "," +++ json_metadata_list rest
  end.

Definition sample_Marshal (files : list FileMetadata) : result string :=
  Ok ("{" +++ quoted "files" +++ ":[" +++ json_metadata_list files +++ "]}").

Definition json_process_request (files : list FileMetadata) : string :=
  "{" +++ quoted "files" +++ ":[" +++ json_metadata_list files +++ "]}".

Definition process_response (session : string) (urls : list string) : ProcessAPIResponse :=
  {| Data := {| SessionUUID := session; Files := map mkFileItem urls |} |}.

(** Session-start responses of the examples: one URL for two files
    asked, and four entries (the first one empty) for two files. *)
Definition short_response : string := json_process "sess-1" ["https://s3/u0"].
Definition surplus_response : string :=
  json_process "sess-1" [""; "https://s3/u1"; "https://s3/u2"; "https://s3/u3"].
Definition three_response : string :=
  json_process "sess-1" ["https://s3/u0"; "https://s3/u1"; "https://s3/u2"].

Definition sample_Unmarshal_APIError (body : string) : result APIError :=
  if (body =? body_404)%string then Ok {| Status := 404; Message := "x" |}
  else if (body =? "{}")%string then Ok {| Status := 0; Message := "" |}
  else Err (ELib "invalid character").

Definition sample_Unmarshal_Process (res : string) : result ProcessAPIResponse :=
  if (res =? short_response)%string then Ok (process_response "sess-1" ["https://s3/u0"])
  else if (res =? surplus_response)%string then
    Ok (process_response "sess-1" [""; "https://s3/u1"; "https://s3/u2"; "https://s3/u3"])
  else if (res =? three_response)%string then
    Ok (process_response "sess-1" ["https://s3/u0"; "https://s3/u1"; "https://s3/u2"])
  else Err (ELib "unexpected end of JSON input").

(** The sample library with the given servers. No call reads its body
    before it fails: the failures of these worlds are refused
    connections. *)
Definition world_of (servers : nat -> Request -> Outcome) : World :=
  {| url_Parse := fun u => Ok u;
     url_with_query := fun base _ => base;
     http_NewRequest := fun _ _ => None;
     json_Unmarshal_APIError := sample_Unmarshal_APIError;
     json_Unmarshal_ProcessAPIResponse := sample_Unmarshal_Process;
     json_Marshal_startUploadRequest := sample_Marshal;
     round_trip := servers;
     body_read := fun _ _ => 0%nat |}.

(** A world whose [n]-th client.Do call is answered by the [n]-th entry
    of [script], and by [default] after the script's end. *)
Definition scripted (script : list Outcome) (default : Outcome) : World :=
  world_of (fun n _ => nth n script default).

Definition refused : Outcome := DoErr (ELib "connection refused").
Definition respond (status : Z) (body : string) : Outcome :=
  DoResp {| StatusCode := status; Body := body; ReadErr := None |}.

(** No server reachable. *)
Definition w_down : World := world_of (fun _ _ => refused).

(** A gateway that answers every call with a plain-text 502. *)
Definition w_gateway : World := world_of (fun _ _ => respond 502 "Bad Gateway").

(** A server that answers the first call with the 404 envelope. *)
Definition w_not_found : World := scripted [respond 404 body_404] refused.

Definition s0 : State :=
  {| apiKey := "key-1"; env_APILLON_API_KEY := ""; clock := 0; trace := [] |}.

(** A context canceled half a second after the start. *)
Definition ctx_half_second : Context :=
  {| ctx_done_at := Some 500000000; ctx_err := Canceled |}.

Definition file_a : WholeFile :=
  {| Metadata := {| FileName := "a.txt"; ContentType := "text/plain"; Path := "" |};
     Content := "alpha" |}.
Definition file_b : WholeFile :=
  {| Metadata := {| FileName := "b.txt"; ContentType := ""; Path := "" |};
     Content := "beta" |}.
Definition file_c : WholeFile :=
  {| Metadata := {| FileName := "c.txt"; ContentType := "text/plain"; Path := "" |};
     Content := "gamma" |}.

(** Session start answers with one URL. *)
Definition w_short : World := scripted [respond 200 short_response] (respond 200 "{}").

(** Session start answers with an empty entry and three URLs; every
    later call answers 200. *)
Definition w_surplus : World := scripted [respond 200 surplus_response] (respond 200 "{}").

(** Session start answers with three URLs; the first upload is accepted,
    the second is refused with a 403. *)
Definition w_second_fails : World :=
  scripted [respond 200 three_response; respond 200 ""; respond 403 "denied"]
           (respond 200 "{}").

(** Two refused connections, then a 200. *)
Definition w_recovers : World := scripted [refused; refused; respond 200 "pong"] refused.

(** A 200 whose body cannot be read to the end. *)
Definition w_broken_body : World :=
  world_of (fun _ _ =>
    DoResp {| StatusCode := 200; Body := "po"; ReadErr := Some (ELib "unexpected EOF") |}).

(** The sample library, except that url.Parse rejects the bucket
    content URL of the bucket id [%zz] (an invalid escape), and that no
    request can be built for the URL [http://[::1]. *)
Definition w_strict : World :=
  {| url_Parse := fun u =>
       if (u =? "https://api.apillon.io/storage/buckets/%zz/content")%string
       then Err (ELib "invalid URL escape") else Ok u;
     url_with_query := fun base _ => base;
     http_NewRequest := fun _ u =>
       if (u =? "http://[::1")%string then Some (ELib "missing ']' in host") else None;
     json_Unmarshal_APIError := sample_Unmarshal_APIError;
     json_Unmarshal_ProcessAPIResponse := sample_Unmarshal_Process;
     json_Marshal_startUploadRequest := sample_Marshal;
     round_trip := fun _ _ => respond 200 "{}";
     body_read := fun _ _ => 0%nat |}.

(** Sample decoding of delete-directory responses, kept as their
    status, and of IPFS link responses, kept as their link. *)
Definition dir_body (status : string) : string := "{" +++ quoted "status" +++ ":" +++ status +++ "}".

Definition sample_Unmarshal_DeleteDirectory (res : string) : result Z :=
  if (res =? dir_body "40406003")%string then Ok 40406003
  else if (res =? dir_body "40006007")%string then Ok 40006007
  else if (res =? dir_body "200")%string then Ok 200
  else Err (ELib "invalid character").

Definition link_body (link : string) : string :=
  "{" +++ quoted "data" +++ ":{" +++ quoted "link" +++ ":" +++ quoted link +++ "}}".

Definition sample_Unmarshal_IPFSLink (res : string) : result string :=
  if (res =? link_body "https://ipfs.example/ipfs/cid-1")%string
  then Ok "https://ipfs.example/ipfs/cid-1"
  else if (res =? link_body "")%string then Ok ""
  else Err (ELib "invalid character").

(** The error envelope [{"status":40406003,"message":"gone"}] and a
    server that answers every call with it under HTTP status 404. *)
Definition body_dir_gone : string :=
  "{" +++ quoted "status" +++ ":40406003," +++ quoted "message" +++ ":" +++ quoted "gone"
  +++ "}".

Definition w_dir_gone_http : World :=
  {| url_Parse := fun u => Ok u;
     url_with_query := fun base _ => base;
     http_NewRequest := fun _ _ => None;
     json_Unmarshal_APIError := fun body =>
       if (body =? body_dir_gone)%string
       then Ok {| Status := 40406003; Message := "gone" |}
       else sample_Unmarshal_APIError body;
     json_Unmarshal_ProcessAPIResponse := sample_Unmarshal_Process;
     json_Marshal_startUploadRequest := sample_Marshal;
     round_trip := fun _ _ => respond 404 body_dir_gone;
     body_read := fun _ _ => 0%nat |}.

(** A server that answers 200 with a body that reports the directory
    as not found, and one that answers with an IPFS link. *)
Definition w_dir_gone_body : World := world_of (fun _ _ => respond 200 (dir_body "40406003")).
Definition w_link : World :=
  world_of (fun _ _ => respond 200 (link_body "https://ipfs.example/ipfs/cid-1")).

(** A server that answers 200 with an empty link. *)
Definition w_no_link : World := world_of (fun _ _ => respond 200 (link_body "")).

(** The connection of the first call is reset after the whole body was
    sent; the second call is answered. *)
Definition w_reset_after_send : World :=
  {| url_Parse := fun u => Ok u;
     url_with_query := fun base _ => base;
     http_NewRequest := fun _ _ => None;
     json_Unmarshal_APIError := sample_Unmarshal_APIError;
     json_Unmarshal_ProcessAPIResponse := sample_Unmarshal_Process;
     json_Marshal_startUploadRequest := sample_Marshal;
     round_trip := fun n _ =>
       nth n [DoErr (ELib "connection reset by peer")] (respond 200 "{}");
     body_read := fun _ r =>
       match req_body r with
       | Some b => String.length b
       | None => 0%nat
       end |}.

(** Session start answers with two URLs and an empty session id. *)
Definition no_session_response : string :=
  json_process "" ["https://s3/u0"; "https://s3/u1"].

Definition w_no_session : World :=
  {| url_Parse := fun u => Ok u;
     url_with_query := fun base _ => base;
     http_NewRequest := fun _ _ => None;
     json_Unmarshal_APIError := sample_Unmarshal_APIError;
     json_Unmarshal_ProcessAPIResponse := fun res =>
       if (res =? no_session_response)%string
       then Ok (process_response "" ["https://s3/u0"; "https://s3/u1"])
       else sample_Unmarshal_Process res;
     json_Marshal_startUploadRequest := sample_Marshal;
     round_trip := fun n _ => nth n [respond 200 no_session_response] (respond 200 "{}");
     body_read := fun _ _ => 0%nat |}.

(** Session start is answered with a 200 whose body is not JSON. *)
Definition w_garbled : World := world_of (fun _ _ => respond 200 "<html>").

(** Sample json.Marshal of a create-bucket request, and sample decoding
    of a response of which nothing is read: the empty object decodes to
    the zero value. *)
Definition sample_Marshal_bucket (name description : string) : result string :=
  Ok ("{" +++ quoted "name" +++ ":" +++ quoted name
      +++ (if (description =? "")%string then ""
           else "," +++ quoted "description" +++ ":" +++ quoted description)
      +++ "}").

Definition sample_Unmarshal_unit (res : string) : result unit :=
  if (res =? "{}")%string then Ok tt else Err (ELib "invalid character").

End Scenarios.

(** * Properties *)

(** ** Sample runs *)

(** A decodable 404 on the first attempt: one call, the APIError. *)
Example run_not_found :
  requests.doRequest Scenarios.w_not_found context_Background "GET" "/x" None []
    requests.timeoutGet Scenarios.s0
  = (Err (EAPI {| Status := 404; Message := "x" |}),
     advance Scenarios.s0 0
       [EvDo (requests.api_request "GET" "https://api.apillon.io/x" None
                requests.timeoutGet "key-1")]).
Proof. reflexivity. Qed.

(** Two files, URLs for both, uploads accepted, session ended. *)
Example run_upload :
  let run := storage.UploadFileProcess Scenarios.w_surplus context_Background "b1"
               [Scenarios.file_a; Scenarios.file_b] Scenarios.s0 in
  fst run = Ok "{}"
  /\ map req_method (do_calls (trace (snd run))) = ["POST"; "PUT"; "PUT"; "POST"]
  /\ sleeps (trace (snd run)) = [storage.urlReadyDelay].
Proof. vm_compute. repeat split. Qed.

(** With the environment as only source, each request reads it anew. *)
Example run_environment :
  credentials_seen Scenarios.w_gateway context_Background
    [OpSetAPIKey ""; OpSetenv "env-1"; OpCall (CallGet "/x" []);
     OpSetenv "env-2"; OpCall (CallDelete "/x")]
    Scenarios.s0
  = [Some "Basic env-1"; Some "Basic env-2"].
Proof. reflexivity. Qed.

(** A POST whose first attempt fails after its body was sent: the
    second attempt goes out with what is left of the reader, nothing. *)
Example run_retried_post :
  let run := requests.PostReq Scenarios.w_reset_after_send context_Background "/x"
               (Some "{}") Scenarios.s0 in
  fst run = Ok "{}"
  /\ map req_body (do_calls (trace (snd run))) = [Some "{}"; Some ""].
Proof. vm_compute. split; reflexivity. Qed.

(** ** State bookkeeping *)

Lemma do_calls_app (a b : list Event) : do_calls (a ++ b) = do_calls a ++ do_calls b.
Proof.
  induction a as [|[r|d] a IH]; simpl; [reflexivity | now rewrite IH | exact IH].
Qed.

Lemma sleeps_app (a b : list Event) : sleeps (a ++ b) = sleeps a ++ sleeps b.
Proof.
  induction a as [|[r|d] a IH]; simpl; [reflexivity | exact IH | now rewrite IH].
Qed.

Lemma do_calls_map_EvDo (l : list Request) : do_calls (map EvDo l) = l.
Proof. induction l as [|r l IH]; simpl; [reflexivity | now rewrite IH]. Qed.

Lemma advance_advance s t1 e1 t2 e2 :
  advance (advance s t1 e1) t2 e2 = advance s t2 (e1 ++ e2).
Proof. unfold advance; simpl. now rewrite <- app_assoc. Qed.

Lemma advance_nil s : advance s (clock s) [] = s.
Proof. destruct s; unfold advance; simpl. now rewrite app_nil_r. Qed.

Lemma getAPIKey_eq s : requests.getAPIKey s = (credential s, s).
Proof.
  unfold credential, requests.getAPIKey.
  destruct (negb (apiKey s =? "")%string); reflexivity.
Qed.

Lemma credential_advance s t evs : credential (advance s t evs) = credential s.
Proof.
  unfold credential, requests.getAPIKey; simpl.
  destruct (negb (apiKey s =? "")%string); reflexivity.
Qed.

Lemma client_Do_eq w ctx req s :
  client_Do w ctx req s = (do_outcome w ctx s req, advance s (clock s) [EvDo req]).
Proof.
  unfold client_Do, do_outcome, bind, get_state, log, ret.
  destruct (ctx_done ctx (clock s)); reflexivity.
Qed.

(** ** What is left of the reader *)

Lemma string_drop_drop m : forall n x, string_drop m (string_drop n x) = string_drop (n + m) x.
Proof.
  intros n. induction n as [|n IH]; intros x; [reflexivity|].
  destruct x as [|c x]; cbn [string_drop Nat.add]; [now destruct m | apply IH].
Qed.

Lemma string_drop_all : forall n x, (String.length x <= n)%nat -> string_drop n x = "".
Proof.
  induction n as [|n IH]; intros [|c x] H; cbn in *; try reflexivity; try lia.
  apply IH. lia.
Qed.

Lemma reader_left_refl b : reader_left b b.
Proof. destruct b as [y|]; cbn; [now exists 0%nat | exact I]. Qed.

Lemma reader_left_trans a b c : reader_left a b -> reader_left b c -> reader_left a c.
Proof.
  destruct a as [x|], b as [y|], c as [z|]; cbn; try tauto.
  intros [m ->] [n ->]. exists (n + m)%nat. apply string_drop_drop.
Qed.

Lemma reader_left_None b : reader_left b None -> b = None.
Proof. destruct b; cbn; [tauto | reflexivity]. Qed.

Lemma reader_left_rest w ctx now n req : reader_left (reader_rest w ctx now n req) (req_body req).
Proof.
  unfold reader_rest. destruct (ctx_done ctx now); [apply reader_left_refl|].
  destruct (req_body req) as [y|]; cbn; [eexists; reflexivity | exact I].
Qed.

Lemma reader_rest_done w ctx now n req :
  ctx_done ctx now = true -> reader_rest w ctx now n req = req_body req.
Proof. unfold reader_rest. now intros ->. Qed.

Lemma attempt_of_self method url body timeout key :
  attempt_of method url body timeout key (requests.api_request method url body timeout key).
Proof. exists body. split; [apply reader_left_refl | reflexivity]. Qed.

Lemma attempt_of_left method url b body timeout key r :
  reader_left b body ->
  attempt_of method url b timeout key r -> attempt_of method url body timeout key r.
Proof.
  intros Hb (b' & Hb' & ->). exists b'. split; [|reflexivity].
  exact (reader_left_trans _ _ _ Hb' Hb).
Qed.

Lemma attempt_of_None method url timeout key r :
  attempt_of method url None timeout key r ->
  r = requests.api_request method url None timeout key.
Proof. intros (b & Hb & ->). now rewrite (reader_left_None b Hb). Qed.

Lemma authorization_attempt method url body timeout key r :
  attempt_of method url body timeout key r -> authorization r = Some ("Basic " +++ key).
Proof. intros (b & _ & ->). reflexivity. Qed.

(** ** The retry loop, one iteration at a time *)

Module requests_props.
Import requests.

Section Loop.

Variable w : World.
Variables (ctx : Context) (method url : string) (body : option string) (timeout : Z).
Hypothesis creatable : http_NewRequest w method url = None.

Let req (s : State) : Request := api_request method url body timeout (credential s).

Lemma req_advance s t evs : req (advance s t evs) = req s.
Proof. unfold req. now rewrite credential_advance. Qed.

(** A failed client.Do: sleep, then the next iteration, on what the
    call left of the reader. *)
Lemma loop_retry k attempt lastErr s e :
  do_outcome w ctx s (req s) = DoErr e ->
  doRequest_loop w (S k) attempt lastErr ctx method url body timeout s =
  doRequest_loop w k (attempt + 1) e ctx method url (reader_after w ctx s (req s)) timeout
    (advance s (clock s + Z.max 0 (retryDelay * (attempt + 1)))
       [EvDo (req s); EvSleep (retryDelay * (attempt + 1))]).
Proof.
  intros Hout. cbn [doRequest_loop]. rewrite creatable.
  unfold bind at 1. rewrite getAPIKey_eq.
  unfold bind at 1, get_state at 1.
  unfold bind at 1. rewrite client_Do_eq. fold (req s). rewrite Hout.
  unfold bind, time_Sleep. rewrite advance_advance. reflexivity.
Qed.

(** A response: the loop returns in this iteration. *)
Lemma loop_response k attempt lastErr s resp :
  do_outcome w ctx s (req s) = DoResp resp ->
  doRequest_loop w (S k) attempt lastErr ctx method url body timeout s =
  (match ReadErr resp with
   | Some e => Err (EWrap "failed to read response body: " e)
   | None =>
       if 400 <=? StatusCode resp then
         match json_Unmarshal_APIError w (Body resp) with
         | Err _ => Err (EMsg ("HTTP error " +++ string_of_Z (StatusCode resp)
                               +++ ": " +++ Body resp))
         | Ok apiErr => Err (EAPI apiErr)
         end
       else Ok (Body resp)
   end, advance s (clock s) [EvDo (req s)]).
Proof.
  intros Hout. cbn [doRequest_loop]. rewrite creatable.
  unfold bind at 1. rewrite getAPIKey_eq.
  unfold bind at 1, get_state at 1.
  unfold bind at 1. rewrite client_Do_eq. fold (req s). rewrite Hout.
  destruct (ReadErr resp); [reflexivity|].
  destruct (400 <=? StatusCode resp); [|reflexivity].
  destruct (json_Unmarshal_APIError w (Body resp)); reflexivity.
Qed.

(** Once the context is done every remaining attempt fails on it. *)
Lemma ctx_done_later t t' : t <= t' -> ctx_done ctx t = true -> ctx_done ctx t' = true.
Proof.
  unfold ctx_done. destruct (ctx_done_at ctx) as [c|]; [|discriminate].
  intros Hle H. apply Z.leb_le in H. apply Z.leb_le. lia.
Qed.

Lemma loop_ctx_done k : forall attempt lastErr s,
  ctx_done ctx (clock s) = true ->
  doRequest_loop w k attempt lastErr ctx method url body timeout s =
  (Err (EWrap exhausted_prefix
          match k with O => lastErr | S _ => ECtx (ctx_err ctx) end),
   advance s (clock s + retry_time k attempt) (retry_events (req s) k attempt)).
Proof.
  induction k as [|k IH]; intros attempt lastErr s Hdone.
  - cbn [doRequest_loop retry_time retry_events ret].
    rewrite Z.add_0_r, advance_nil. reflexivity.
  - rewrite (loop_retry k attempt lastErr s (ECtx (ctx_err ctx))).
    2:{ unfold do_outcome. now rewrite Hdone. }
    unfold reader_after. rewrite (reader_rest_done w ctx _ _ _ Hdone).
    change (req_body (req s)) with body.
    rewrite IH.
    2:{ cbn [clock advance]. apply (ctx_done_later (clock s)); [lia | exact Hdone]. }
    rewrite advance_advance, req_advance.
    cbn [clock advance retry_time retry_events app].
    rewrite Z.add_assoc.
    destruct k; reflexivity.
Qed.

End Loop.

Section TransportDown.

Variable w : World.
Variable cause : nat -> Request -> error.
Hypothesis down : forall n r, round_trip w n r = DoErr (cause n r).

Lemma outcome_down ctx s r :
  do_outcome w ctx s r =
  DoErr (if ctx_done ctx (clock s) then ECtx (ctx_err ctx)
         else cause (length (do_calls (trace s))) r).
Proof. unfold do_outcome. destruct (ctx_done ctx (clock s)); [reflexivity | apply down]. Qed.

(** The whole run of doRequest when no call gets a response. *)
Lemma doRequest_transport_down ctx method path body params timeout s url :
  buildURL w path params = Ok url ->
  http_NewRequest w method url = None ->
  let n := length (do_calls (trace s)) in
  let r1 := api_request method url body timeout (credential s) in
  let r2 := api_request method url (reader_rest w ctx (clock s) n r1) timeout
              (credential s) in
  let r3 := api_request method url (reader_rest w ctx (clock s + 1 * second) (n + 1) r2)
              timeout (credential s) in
  doRequest w ctx method path body params timeout s =
  (Err (EWrap exhausted_prefix
          (if ctx_done ctx (clock s + 3 * second) then ECtx (ctx_err ctx)
           else cause (n + 2)%nat r3)),
   advance s (clock s + 6 * second)
     [EvDo r1; EvSleep (1 * second); EvDo r2; EvSleep (2 * second);
      EvDo r3; EvSleep (3 * second)]).
Proof.
  intros Hurl Hnew n r1 r2 r3. unfold doRequest. rewrite Hurl.
  change (Z.to_nat maxRetries) with 3%nat.
  rewrite (loop_retry w ctx method url body timeout Hnew _ _ _ _ _ (outcome_down _ _ _)).
  fold r1. unfold reader_after. fold n.
  rewrite (loop_retry w ctx method url _ timeout Hnew _ _ _ _ _ (outcome_down _ _ _)).
  rewrite !credential_advance. unfold reader_after.
  cbn [clock trace advance]. rewrite do_calls_app, length_app. cbn [do_calls length]. fold n.
  change (Z.max 0 (retryDelay * (0 + 1))) with (1 * second). fold r2.
  rewrite (loop_retry w ctx method url _ timeout Hnew _ _ _ _ _ (outcome_down _ _ _)).
  rewrite !advance_advance, !credential_advance.
  cbn [clock trace advance]. rewrite !do_calls_app, !length_app. cbn [do_calls length app].
  fold n. fold r3.
  cbn [doRequest_loop ret].
  change (Z.max 0 (retryDelay * (0 + 1 + 1))) with (2 * second).
  change (Z.max 0 (retryDelay * (0 + 1 + 1 + 1))) with (3 * second).
  change (retryDelay * (0 + 1)) with (1 * second).
  change (retryDelay * (0 + 1 + 1)) with (2 * second).
  change (retryDelay * (0 + 1 + 1 + 1)) with (3 * second).
  change (string_of_Z maxRetries) with "3".
  change ("request failed after " +++ "3" +++ " attempts: ") with exhausted_prefix.
  replace (clock s + 1 * second + 2 * second) with (clock s + 3 * second) by lia.
  replace (clock s + 3 * second + 3 * second) with (clock s + 6 * second) by lia.
  replace (n + 1 + 1)%nat with (n + 2)%nat by lia.
  reflexivity.
Qed.

End TransportDown.

(** Whatever the world answers, doRequest only appends events, all its
    calls are attempts built from the arguments and the credential of
    the starting state, and the credential is left as it was. *)
Lemma loop_frame w ctx method url timeout k : forall body attempt lastErr s,
  exists t evs,
    snd (doRequest_loop w k attempt lastErr ctx method url body timeout s) = advance s t evs
    /\ Forall (attempt_of method url body timeout (credential s)) (do_calls evs).
Proof.
  induction k as [|k IH]; intros body attempt lastErr s.
  - exists (clock s), []. cbn. rewrite advance_nil. split; [reflexivity | constructor].
  - destruct (http_NewRequest w method url) as [e|] eqn:Hnew.
    + exists (clock s), []. cbn [doRequest_loop]. rewrite Hnew. cbn.
      rewrite advance_nil. split; [reflexivity | constructor].
    + destruct (do_outcome w ctx s (api_request method url body timeout (credential s)))
        as [e|resp] eqn:Hout.
      * rewrite (loop_retry w ctx method url body timeout Hnew k attempt lastErr s e Hout).
        destruct (IH (reader_after w ctx s (api_request method url body timeout (credential s)))
                    (attempt + 1) e
                    (advance s (clock s + Z.max 0 (retryDelay * (attempt + 1)))
                       [EvDo (api_request method url body timeout (credential s));
                        EvSleep (retryDelay * (attempt + 1))]))
          as (t & evs & Hs & Hall).
        rewrite Hs, advance_advance. rewrite credential_advance in Hall.
        eexists _, _. split; [reflexivity|].
        rewrite do_calls_app. apply Forall_app. split.
        { cbn. constructor; [apply attempt_of_self | constructor]. }
        eapply Forall_impl; [|exact Hall]. intros r.
        apply attempt_of_left. unfold reader_after.
        exact (reader_left_rest w ctx _ _ (api_request method url body timeout (credential s))).
      * rewrite (loop_response w ctx method url body timeout Hnew k attempt lastErr s resp Hout).
        eexists _, _. split; [reflexivity|]. cbn.
        constructor; [apply attempt_of_self | constructor].
Qed.

Lemma doRequest_frame w ctx method path body params timeout s :
  exists t evs,
    snd (doRequest w ctx method path body params timeout s) = advance s t evs
    /\ Forall (fun r => exists url, buildURL w path params = Ok url
                         /\ attempt_of method url body timeout (credential s) r)
         (do_calls evs).
Proof.
  unfold doRequest. destruct (buildURL w path params) as [url|e].
  - destruct (loop_frame w ctx method url timeout (Z.to_nat maxRetries) body 0 ENil s)
      as (t & evs & Hs & Hall).
    exists t, evs. split; [exact Hs|].
    eapply Forall_impl; [|exact Hall]. intros r Hr. now exists url.
  - exists (clock s), []. cbn. rewrite advance_nil. split; [reflexivity | constructor].
Qed.

Lemma do_calls_retry_events req k : forall attempt,
  do_calls (retry_events req k attempt) = repeat req k.
Proof. induction k as [|k IH]; intros attempt; cbn; [reflexivity | now rewrite IH]. Qed.

Lemma authorization_api_request method url body timeout key :
  authorization (api_request method url body timeout key) = Some ("Basic " +++ key).
Proof. reflexivity. Qed.

(** One request through any of the three verbs. *)
Lemma run_call_frame w ctx c s :
  exists t evs,
    snd (run_call w ctx c s) = advance s t evs
    /\ Forall (fun r => authorization r = Some ("Basic " +++ credential s)) (do_calls evs).
Proof.
  destruct c as [path params|path body|path]; cbn [run_call];
    unfold GetReq, PostReq, DeleteReq;
    match goal with
    | |- context [doRequest w ctx ?m ?p ?b ?ps ?to s] =>
        destruct (doRequest_frame w ctx m p b ps to s) as (t & evs & Hs & Hall)
    end;
    exists t, evs; (split; [exact Hs|]);
    (eapply Forall_impl; [|exact Hall]); intros r (url & _ & Hr);
    exact (authorization_attempt _ _ _ _ _ _ Hr).
Qed.

(** A run of requests with nothing else in between. *)
Lemma run_requests_frame w ctx calls : forall s,
  exists t evs,
    snd (run_ops w ctx (map OpCall calls) s) = advance s t evs
    /\ Forall (fun r => authorization r = Some ("Basic " +++ credential s)) (do_calls evs).
Proof.
  induction calls as [|c calls IH]; intros s.
  - exists (clock s), []. cbn. rewrite advance_nil. split; [reflexivity | constructor].
  - cbn [map run_ops]. unfold bind.
    destruct (run_call_frame w ctx c s) as (t & evs & Hs & Hall).
    destruct (run_call w ctx c s) as [res s1].
    cbn [snd] in Hs. subst s1.
    destruct (IH (advance s t evs)) as (t' & evs' & Hs' & Hall').
    rewrite Hs', advance_advance. rewrite credential_advance in Hall'.
    eexists _, _. split; [reflexivity|].
    rewrite do_calls_app. apply Forall_app. split; [exact Hall | exact Hall'].
Qed.

(** C4: against a transport that fails on every attempt, doRequest
    (once the URL and the request can be built) calls client.Do exactly
    3 times and returns one error: "request failed after 3 attempts: "
    wrapping the error of the third attempt. The three requests differ
    at most in their body, each being built from what the attempts
    before it left of the reader. *)
Theorem C4_retry_bound w cause ctx method path body params timeout s url :
  (forall n r, round_trip w n r = DoErr (cause n r)) ->
  buildURL w path params = Ok url ->
  http_NewRequest w method url = None ->
  let n := length (do_calls (trace s)) in
  let r1 := api_request method url body timeout (credential s) in
  let r2 := api_request method url (reader_rest w ctx (clock s) n r1) timeout
              (credential s) in
  let r3 := api_request method url (reader_rest w ctx (clock s + 1 * second) (n + 1) r2)
              timeout (credential s) in
  let run := doRequest w ctx method path body params timeout s in
  do_calls (trace (snd run)) = do_calls (trace s) ++ [r1; r2; r3]
  /\ fst run =
     Err (EWrap ("request failed after " +++ string_of_Z 3 +++ " attempts: ")
            (if ctx_done ctx (clock s + 3 * second) then ECtx (ctx_err ctx)
             else cause (n + 2)%nat r3)).
Proof.
  intros Hdown Hurl Hnew n r1 r2 r3 run. subst run.
  rewrite (doRequest_transport_down w cause Hdown ctx method path body params timeout s url
             Hurl Hnew).
  fold n. fold r1. fold r2. fold r3. cbn [fst snd trace advance]. split; [|reflexivity].
  rewrite do_calls_app. reflexivity.
Qed.

Lemma C4_retry_bound_witness :
  let req := api_request "GET" "https://api.apillon.io/x" None timeoutGet "key-1" in
  let run := doRequest Scenarios.w_down context_Background "GET" "/x" None [] timeoutGet
               Scenarios.s0 in
  do_calls (trace (snd run)) = [req; req; req]
  /\ fst run = Err (EWrap "request failed after 3 attempts: " (ELib "connection refused")).
Proof.
  exact (C4_retry_bound Scenarios.w_down (fun _ _ => ELib "connection refused")
           context_Background "GET" "/x" None [] timeoutGet Scenarios.s0
           "https://api.apillon.io/x" (fun _ _ => eq_refl) eq_refl eq_refl).
Defined.

(** C5: when all three attempts fail, doRequest sleeps 1s after the
    first, 2s after the second and also 3s after the third and last one,
    before it returns: the run takes 6 seconds and ends with a sleep. *)
Theorem C5_sleep_after_last_attempt :
  let run := doRequest Scenarios.w_down context_Background "GET" "/x" None [] timeoutGet
               Scenarios.s0 in
  length (do_calls (trace (snd run))) = 3%nat
  /\ sleeps (trace (snd run)) = [1 * second; 2 * second; 3 * second]
  /\ last (trace (snd run)) (EvSleep 0) = EvSleep (3 * second)
  /\ clock (snd run) = clock Scenarios.s0 + 6 * second.
Proof. vm_compute. repeat split. Qed.

(** C2, the reading of the claim refuted: a 502 whose body does not
    decode is not retried; doRequest returns after that one attempt. *)
Lemma C2_undecodable_not_retried :
  ~ retry_iff_undecodable Scenarios.w_gateway context_Background "GET" "/x" None []
      timeoutGet Scenarios.s0.
Proof.
  intros H.
  specialize (H "https://api.apillon.io/x"
                {| StatusCode := 502; Body := "Bad Gateway"; ReadErr := None |}
                eq_refl eq_refl eq_refl).
  destruct H as [_ H]; [cbn; lia|].
  specialize (H eq_refl). vm_compute in H. lia.
Qed.

(** C2 (amended): an attempt of doRequest that receives a response with
    status >= 400 is never retried, whether the body decodes or not: the
    loop returns in that attempt, with the decoded APIError when the body
    is an error envelope and with the error "HTTP error <status>: <body>"
    when it is not; no sleep and no further call follow. *)
Theorem C2_error_response_terminal w ctx method url body timeout k attempt lastErr s resp :
  http_NewRequest w method url = None ->
  let req := api_request method url body timeout (credential s) in
  do_outcome w ctx s req = DoResp resp ->
  ReadErr resp = None ->
  400 <= StatusCode resp ->
  doRequest_loop w (S k) attempt lastErr ctx method url body timeout s =
  (Err match json_Unmarshal_APIError w (Body resp) with
       | Ok apiErr => EAPI apiErr
       | Err _ => EMsg ("HTTP error " +++ string_of_Z (StatusCode resp)
                        +++ ": " +++ Body resp)
       end,
   advance s (clock s) [EvDo req]).
Proof.
  intros Hnew req Hout Hread Hstatus.
  rewrite (loop_response w ctx method url body timeout Hnew k attempt lastErr s resp Hout).
  rewrite Hread. apply Z.leb_le in Hstatus. rewrite Hstatus.
  destruct (json_Unmarshal_APIError w (Body resp)); reflexivity.
Qed.

Lemma C2_error_response_terminal_witness :
  doRequest Scenarios.w_gateway context_Background "GET" "/x" None [] timeoutGet Scenarios.s0
  = (Err (EMsg "HTTP error 502: Bad Gateway"),
     advance Scenarios.s0 0
       [EvDo (api_request "GET" "https://api.apillon.io/x" None timeoutGet "key-1")])
  /\ doRequest Scenarios.w_not_found context_Background "GET" "/x" None [] timeoutGet
       Scenarios.s0
  = (Err (EAPI {| Status := 404; Message := "x" |}),
     advance Scenarios.s0 0
       [EvDo (api_request "GET" "https://api.apillon.io/x" None timeoutGet "key-1")]).
Proof.
  split.
  - apply (C2_error_response_terminal Scenarios.w_gateway context_Background "GET"
             "https://api.apillon.io/x" None timeoutGet 2 0 ENil Scenarios.s0
             {| StatusCode := 502; Body := "Bad Gateway"; ReadErr := None |});
      [reflexivity | reflexivity | reflexivity | cbn; lia].
  - apply (C2_error_response_terminal Scenarios.w_not_found context_Background "GET"
             "https://api.apillon.io/x" None timeoutGet 2 0 ENil Scenarios.s0
             {| StatusCode := 404; Body := Scenarios.body_404; ReadErr := None |});
      [reflexivity | reflexivity | reflexivity | cbn; lia].
Defined.

(** Cancellation does not preempt: with the server down and the
    context canceled 0.5s into the first delay, doRequest sleeps on,
    issues attempts 2 and 3 and returns the retry-exhausted error. *)
Lemma cancel_does_not_preempt :
  ~ cancel_preempts Scenarios.w_down Scenarios.ctx_half_second "GET" "/x" None []
      timeoutGet Scenarios.s0.
Proof.
  intros H. specialize (H 500000000 eq_refl eq_refl).
  destruct H as [_ H]. vm_compute in H. discriminate H.
Qed.

(** C3: with the server down and the context canceled 0.5s after the
    start, that is during the first delay, doRequest does not abort. It
    sleeps the delay out, makes attempts 2 and 3 at 1s and at 3s, both
    after the cancellation, sleeps after each of them too, and only at 6s
    returns the retry-exhausted error, which wraps the context's error:
    no cancellation error comes before the next attempt. *)
Theorem C3_cancel_ignored_in_delay :
  let run := doRequest Scenarios.w_down Scenarios.ctx_half_second "GET" "/x" None []
               timeoutGet Scenarios.s0 in
  let evs := timed (clock Scenarios.s0) (trace (snd run)) in
  ctx_done_at Scenarios.ctx_half_second = Some 500000000
  /\ existsb (fires_in_delay 500000000) evs = true
  /\ map fst (filter (issued_from 500000000) evs) = [1 * second; 3 * second]
  /\ fst run = Err (EWrap "request failed after 3 attempts: " (ECtx Canceled))
  /\ is_retry_exhausted (fst run) = true
  /\ clock (snd run) = 6 * second.
Proof. vm_compute. repeat split. Qed.

(** The same in general: the retry loop does not watch the context
    while it sleeps. When an attempt that is not the last one
    fails and the context's signal fires during the delay that follows,
    the delay is slept in full, the next attempt is issued after it,
    every remaining attempt is issued and fails on the done context, and
    the loop returns the retry-exhausted error wrapping the context's
    error. *)
Lemma cancel_during_delay w ctx method url body timeout k attempt lastErr s c e :
  http_NewRequest w method url = None ->
  let req := api_request method url body timeout (credential s) in
  let req' := api_request method url (reader_after w ctx s req) timeout (credential s) in
  let d := retryDelay * (attempt + 1) in
  do_outcome w ctx s req = DoErr e ->
  ctx_done_at ctx = Some c ->
  clock s < c <= clock s + d ->
  let run := doRequest_loop w (S (S k)) attempt lastErr ctx method url body timeout s in
  fst run = Err (EWrap exhausted_prefix (ECtx (ctx_err ctx)))
  /\ do_calls (trace (snd run)) = do_calls (trace s) ++ req :: repeat req' (S k)
  /\ exists rest, trace (snd run) = trace s ++ EvDo req :: EvSleep d :: EvDo req' :: rest.
Proof.
  intros Hnew req req' d Hout Hc Hin run. subst run.
  rewrite (loop_retry w ctx method url body timeout Hnew (S k) attempt lastErr s e Hout).
  rewrite (loop_ctx_done w ctx method url _ timeout Hnew).
  2:{ cbn [clock advance]. unfold ctx_done. rewrite Hc. apply Z.leb_le. fold d. lia. }
  rewrite advance_advance, credential_advance. fold req. fold req'. fold d.
  cbn [fst snd trace advance retry_events app]. repeat split.
  - rewrite do_calls_app. cbn [do_calls]. rewrite do_calls_retry_events. reflexivity.
  - eexists. reflexivity.
Qed.

Lemma cancel_during_delay_witness :
  let req := api_request "GET" "https://api.apillon.io/x" None timeoutGet "key-1" in
  let run := doRequest Scenarios.w_down Scenarios.ctx_half_second "GET" "/x" None []
               timeoutGet Scenarios.s0 in
  fst run = Err (EWrap exhausted_prefix (ECtx Canceled))
  /\ do_calls (trace (snd run)) = [req; req; req]
  /\ exists rest, trace (snd run) = EvDo req :: EvSleep (1 * second) :: EvDo req :: rest.
Proof.
  apply (cancel_during_delay Scenarios.w_down Scenarios.ctx_half_second "GET"
           "https://api.apillon.io/x" None timeoutGet 1 0 ENil Scenarios.s0 500000000
           (ELib "connection refused"));
    [reflexivity | reflexivity | reflexivity | cbn; lia].
Defined.

(** C6, the reading of the claim refuted: a second SetAPIKey call
    replaces the credential; the two requests carry different ones. *)
Lemma C6_credential_replaced :
  ~ credential_set_once Scenarios.w_gateway context_Background
      [OpSetAPIKey "key-1"; OpCall (CallGet "/x" []);
       OpSetAPIKey "key-2"; OpCall (CallGet "/x" [])]
      Scenarios.s0.
Proof.
  intros H.
  specialize (H (Some "Basic key-1") (Some "Basic key-2")).
  assert (E : Some "Basic key-1" = Some "Basic key-2").
  { apply H; vm_compute; auto. }
  discriminate E.
Qed.

(** C6 (amended): the credential is not set once. SetAPIKey replaces it
    at every call, and while the key set is empty each use reads the
    environment variable anew. What is stable: the requests of any
    sequence of GetReq, PostReq and DeleteReq calls, with any paths,
    parameters and bodies, made with no SetAPIKey call and no change of
    the environment in between, leave key and environment as they are
    and all carry the same credential in their Authorization header,
    retries included: the key last set when it is not empty, the
    environment's value otherwise. *)
Theorem C6_credential_between_changes w ctx calls s :
  let s' := snd (run_ops w ctx (map OpCall calls) s) in
  apiKey s' = apiKey s
  /\ env_APILLON_API_KEY s' = env_APILLON_API_KEY s
  /\ credential s' = credential s
  /\ credential s = (if (apiKey s =? "")%string then env_APILLON_API_KEY s else apiKey s)
  /\ (exists sent,
        do_calls (trace s') = do_calls (trace s) ++ sent
        /\ Forall (fun r => authorization r = Some ("Basic " +++ credential s)) sent)
  /\ (forall key, credential (snd (SetAPIKey key s))
                  = if (key =? "")%string then env_APILLON_API_KEY s else key)
  /\ (forall value, credential (snd (os_Setenv value s))
                    = if (apiKey s =? "")%string then value else apiKey s).
Proof.
  intros s'. subst s'.
  destruct (run_requests_frame w ctx calls s) as (t & evs & Hs & Hall).
  rewrite Hs. repeat split.
  - apply credential_advance.
  - unfold credential, getAPIKey. destruct (apiKey s =? "")%string; reflexivity.
  - exists (do_calls evs). cbn [trace advance]. rewrite do_calls_app. now split.
  - intros key. unfold credential, getAPIKey, SetAPIKey; cbn.
    destruct (key =? "")%string; reflexivity.
  - intros value. unfold credential, getAPIKey, os_Setenv; cbn.
    destruct (apiKey s =? "")%string; reflexivity.
Qed.

Lemma C6_credential_between_changes_witness :
  let s' := snd (run_ops Scenarios.w_down context_Background
                   (map OpCall [CallGet "/x" [("a", "b")]; CallPost "/y" (Some "{}");
                                CallDelete "/z"])
                   Scenarios.s0) in
  apiKey s' = "key-1"
  /\ env_APILLON_API_KEY s' = ""
  /\ credential s' = "key-1"
  /\ "key-1" = "key-1"
  /\ (exists sent,
        do_calls (trace s') = [] ++ sent
        /\ Forall (fun r => authorization r = Some "Basic key-1") sent)
  /\ (forall key, credential (snd (SetAPIKey key Scenarios.s0))
                  = if (key =? "")%string then "" else key)
  /\ (forall value, credential (snd (os_Setenv value Scenarios.s0))
                    = if ("key-1" =? "")%string then value else "key-1").
Proof.
  exact (C6_credential_between_changes Scenarios.w_down context_Background
           [CallGet "/x" [("a", "b")]; CallPost "/y" (Some "{}"); CallDelete "/z"]
           Scenarios.s0).
Defined.

End requests_props.

(** ** The upload orchestration *)

Module storage_props.
Import storage.

Lemma eqb_empty_false (x : string) : (x =? "")%string = false <-> x <> "".
Proof. apply String.eqb_neq. Qed.

Section Upload.

Variable w : World.
Variable ctx : Context.

(** UploadFiles with both arguments present. *)
Lemma UploadFiles_eq signedURL rawFile s :
  signedURL <> "" -> rawFile <> "" ->
  UploadFiles w ctx signedURL rawFile s =
  match http_NewRequest w "PUT" signedURL with
  | Some e => (Err (EStorage 500 "failed to create upload request" e), s)
  | None =>
      (match do_outcome w ctx s (put_request signedURL rawFile) with
       | DoErr e => Err (EStorage 500 "failed to upload file" e)
       | DoResp resp =>
           if (StatusCode resp <? 200) || (300 <=? StatusCode resp)
           then Err (EStorage (StatusCode resp) ("upload failed: " +++ Body resp) ENil)
           else Ok tt
       end, advance s (clock s) [EvDo (put_request signedURL rawFile)])
  end.
Proof.
  intros Hu Hc. unfold UploadFiles.
  apply eqb_empty_false in Hu, Hc. rewrite Hu, Hc.
  destruct (http_NewRequest w "PUT" signedURL); [reflexivity|].
  unfold bind. rewrite client_Do_eq.
  destruct (do_outcome w ctx s (put_request signedURL rawFile)) as [e|resp]; [reflexivity|].
  destruct ((StatusCode resp <? 200) || (300 <=? StatusCode resp)); reflexivity.
Qed.

Lemma status_2xx z : (z <? 200) || (300 <=? z) = false <-> 200 <= z < 300.
Proof.
  rewrite orb_false_iff, Z.ltb_ge, Z.leb_gt. lia.
Qed.

Lemma UploadFiles_accepted signedURL rawFile s :
  signedURL <> "" -> rawFile <> "" ->
  upload_accepted w ctx (clock s) (length (do_calls (trace s))) signedURL rawFile = true ->
  UploadFiles w ctx signedURL rawFile s
  = (Ok tt, advance s (clock s) [EvDo (put_request signedURL rawFile)]).
Proof.
  intros Hu Hc Hacc. rewrite UploadFiles_eq by assumption.
  unfold upload_accepted in Hacc. unfold do_outcome.
  destruct (http_NewRequest w "PUT" signedURL); [discriminate|].
  apply andb_true_iff in Hacc. destruct Hacc as [Hctx Hresp].
  apply negb_true_iff in Hctx. rewrite Hctx.
  destruct (round_trip w _ _) as [e|resp]; [discriminate|].
  apply andb_true_iff in Hresp. destruct Hresp as [Hlo Hhi].
  apply Z.leb_le in Hlo. apply Z.ltb_lt in Hhi.
  rewrite (proj2 (status_2xx (StatusCode resp))) by lia. reflexivity.
Qed.

Lemma UploadFiles_rejected signedURL rawFile s :
  signedURL <> "" -> rawFile <> "" ->
  upload_accepted w ctx (clock s) (length (do_calls (trace s))) signedURL rawFile = false ->
  exists e, UploadFiles w ctx signedURL rawFile s
            = (Err e, advance s (clock s) (upload_events w signedURL rawFile)).
Proof.
  intros Hu Hc Hrej. rewrite UploadFiles_eq by assumption.
  unfold upload_accepted in Hrej. unfold do_outcome, upload_events.
  destruct (http_NewRequest w "PUT" signedURL) as [e|].
  { exists (EStorage 500 "failed to create upload request" e). now rewrite advance_nil. }
  destruct (ctx_done ctx (clock s)); [eexists; reflexivity|].
  destruct (round_trip w _ _) as [e|resp]; [eexists; reflexivity|].
  cbn [negb andb] in Hrej.
  destruct ((StatusCode resp <? 200) || (300 <=? StatusCode resp)) eqn:Hst;
    [eexists; reflexivity|].
  apply status_2xx in Hst.
  apply andb_false_iff in Hrej. rewrite Z.leb_gt, Z.ltb_ge in Hrej. lia.
Qed.

Lemma skipn_nth_cons (l : list string) : forall i,
  (i < length l)%nat -> skipn i l = nth i l "" :: skipn (S i) l.
Proof.
  induction l as [|x l IH]; intros [|i] Hi; cbn in *; try lia; [reflexivity|].
  apply IH. lia.
Qed.

Lemma extract_urls_nonempty items : Forall (fun u => u <> "") (extract_urls items).
Proof.
  induction items as [|it items IH]; cbn; [constructor|].
  destruct (URL it =? "")%string eqn:E; cbn; [exact IH|].
  constructor; [now apply eqb_empty_false | exact IH].
Qed.

Lemma valid_file_content f : valid_file f = true -> Content f <> "".
Proof.
  unfold valid_file. intros H. apply andb_true_iff in H. destruct H as [H _].
  apply negb_true_iff in H. now apply eqb_empty_false.
Qed.

Lemma extract_metadata_valid files :
  forallb valid_file files = true -> extract_metadata files = Ok (map Metadata files).
Proof.
  induction files as [|f files IH]; cbn; [reflexivity|].
  intros H. apply andb_true_iff in H. destruct H as [Hf Hrest].
  unfold valid_file in Hf. apply andb_true_iff in Hf. destruct Hf as [Hc Hn].
  apply negb_true_iff in Hc, Hn. rewrite Hc, Hn. cbn. now rewrite IH.
Qed.

Lemma extract_metadata_invalid files :
  forallb valid_file files = false ->
  exists msg, extract_metadata files = Err (EStorage ErrCodeInvalidInput msg ENil).
Proof.
  induction files as [|f files IH]; cbn; [discriminate|].
  intros H. unfold valid_file at 1 in H.
  destruct ((Content f =? "") || (FileName (Metadata f) =? ""))%string eqn:E.
  - eexists. reflexivity.
  - apply orb_false_iff in E. destruct E as [Ec En]. rewrite Ec, En in H. cbn in H.
    destruct (IH H) as [msg Hmsg]. rewrite Hmsg. now exists msg.
Qed.

(** The upload loop while every upload is accepted. *)
Lemma upload_loop_accepted urls : forall files i s,
  Forall (fun u => u <> "") urls ->
  forallb valid_file files = true ->
  (i + length files <= length urls)%nat ->
  uploads_accepted w ctx (clock s) (length (do_calls (trace s)))
    (combine (skipn i urls) files) = true ->
  upload_loop w ctx urls i files s
  = (Ok tt, advance s (clock s)
              (map EvDo (upload_requests (combine (skipn i urls) files)))).
Proof.
  induction files as [|f files IH]; intros i s Hurls Hvalid Hlen Hacc.
  - cbn [upload_loop ret]. rewrite combine_nil. cbn. now rewrite advance_nil.
  - cbn [length] in Hlen. cbn [forallb] in Hvalid.
    apply andb_true_iff in Hvalid. destruct Hvalid as [Hf Hvalid].
    rewrite (skipn_nth_cons urls i) in * by lia.
    cbn [combine uploads_accepted] in Hacc.
    apply andb_true_iff in Hacc. destruct Hacc as [Hhead Htail].
    cbn [upload_loop]. unfold bind at 1.
    rewrite UploadFiles_accepted; [| | now apply valid_file_content | exact Hhead].
    2:{ rewrite Forall_forall in Hurls. apply Hurls, nth_In. lia. }
    rewrite IH; [| exact Hurls | exact Hvalid | lia |].
    2:{ cbn [clock trace advance]. rewrite do_calls_app, length_app. cbn [do_calls length].
        rewrite Nat.add_1_r. exact Htail. }
    rewrite advance_advance. reflexivity.
Qed.

(** The upload loop up to its first rejected upload. *)
Lemma upload_loop_rejected urls pre fk post : forall i s,
  Forall (fun u => u <> "") urls ->
  forallb valid_file (pre ++ fk :: post) = true ->
  (i + length (pre ++ fk :: post) <= length urls)%nat ->
  uploads_accepted w ctx (clock s) (length (do_calls (trace s)))
    (combine (skipn i urls) pre) = true ->
  upload_accepted w ctx (clock s) (length (do_calls (trace s)) + length pre)
    (nth (i + length pre) urls "") (Content fk) = false ->
  exists e,
    upload_loop w ctx urls i (pre ++ fk :: post) s
    = (Err (EWrap ("failed to upload file " +++ FileName (Metadata fk) +++ ": ") e),
       advance s (clock s)
         (map EvDo (upload_requests (combine (skipn i urls) pre))
          ++ upload_events w (nth (i + length pre) urls "") (Content fk))).
Proof.
  induction pre as [|f pre IH]; intros i s Hurls Hvalid Hlen Hacc Hrej.
  - cbn [app length] in *. rewrite !Nat.add_0_r in Hrej. rewrite !Nat.add_0_r.
    cbn [forallb] in Hvalid. apply andb_true_iff in Hvalid. destruct Hvalid as [Hf _].
    destruct (UploadFiles_rejected (nth i urls "") (Content fk) s) as [e He];
      [| now apply valid_file_content | exact Hrej |].
    { rewrite Forall_forall in Hurls. apply Hurls, nth_In. lia. }
    exists e. cbn [upload_loop]. unfold bind. rewrite He.
    rewrite combine_nil. reflexivity.
  - cbn [app length] in *. cbn [forallb] in Hvalid.
    apply andb_true_iff in Hvalid. destruct Hvalid as [Hf Hvalid].
    rewrite (skipn_nth_cons urls i) in * by lia.
    cbn [combine uploads_accepted] in Hacc.
    apply andb_true_iff in Hacc. destruct Hacc as [Hhead Htail].
    destruct (IH (S i) (advance s (clock s) [EvDo (put_request (nth i urls "") (Content f))]))
      as [e He]; [exact Hurls | exact Hvalid | lia | |  |].
    { cbn [clock trace advance]. rewrite do_calls_app, length_app. cbn [do_calls length].
      rewrite Nat.add_1_r. exact Htail. }
    { cbn [clock trace advance]. rewrite do_calls_app, length_app. cbn [do_calls length].
      replace (length (do_calls (trace s)) + 1 + length pre)%nat
        with (length (do_calls (trace s)) + S (length pre))%nat by lia.
      replace (S i + length pre)%nat with (i + S (length pre))%nat by lia.
      exact Hrej. }
    exists e. cbn [upload_loop]. unfold bind at 1.
    rewrite UploadFiles_accepted; [| | now apply valid_file_content | exact Hhead].
    2:{ rewrite Forall_forall in Hurls. apply Hurls, nth_In. lia. }
    rewrite He, advance_advance.
    replace (S i + length pre)%nat with (i + S (length pre))%nat by lia.
    reflexivity.
Qed.

(** Session start only makes session-start calls. *)
Lemma StartUploadFilesToBucket_frame bucketUuid metas s :
  exists t evs,
    snd (StartUploadFilesToBucket w ctx bucketUuid metas s) = advance s t evs
    /\ Forall (session_start_call w bucketUuid) (do_calls evs).
Proof.
  assert (Hstay : exists t evs, s = advance s t evs
                  /\ Forall (session_start_call w bucketUuid) (do_calls evs)).
  { exists (clock s), []. rewrite advance_nil. split; [reflexivity | constructor]. }
  unfold StartUploadFilesToBucket.
  destruct (bucketUuid =? "")%string; [exact Hstay|].
  destruct (length metas =? 0)%nat; [exact Hstay|].
  destruct (ensure_content_types 0 metas) as [metas'|e]; [|exact Hstay].
  destruct (json_Marshal_startUploadRequest w metas') as [bodyBytes|e]; [|exact Hstay].
  unfold bind, requests.PostReq.
  destruct (requests_props.doRequest_frame w ctx "POST"
              ("/storage/buckets/" +++ bucketUuid +++ "/upload") (Some bodyBytes) []
              requests.timeoutPost s) as (t & evs & Hs & Hall).
  destruct (requests.doRequest w ctx "POST" _ (Some bodyBytes) [] requests.timeoutPost s)
    as [r s1].
  cbn [snd] in Hs. subst s1.
  exists t, evs. split; [destruct r; reflexivity|].
  eapply Forall_impl; [|exact Hall].
  intros r0 (url & Hurl & b & _ & ->). split; [reflexivity | exact Hurl].
Qed.

Section Started.

Variables (bucketUuid : string) (files : list WholeFile) (s s1 : State).
Variable apiResp : ProcessAPIResponse.
Hypothesis started : session_started w ctx bucketUuid files s s1 apiResp.

Let urls := extract_urls (Files (Data apiResp)).

Lemma files_positive : (0 < length files)%nat.
Proof.
  destruct started as (_ & Hne & _). destruct files; [contradiction | cbn; lia].
Qed.

(** UploadFileProcess from the session-start response on. *)
Lemma process_from_response :
  UploadFileProcess w ctx bucketUuid files s =
  if (length urls =? 0)%nat then
    (Err (EStorage 500 "no signed URLs found in process upload response" ENil), s1)
  else if (length urls <? length files)%nat then
    (Err (EStorage 500
            ("not enough signed URLs provided. Expected "
             +++ string_of_Z (Z.of_nat (length files)) +++ ", got "
             +++ string_of_Z (Z.of_nat (length urls))) ENil), s1)
  else
    let (r, s2) := upload_loop w ctx urls 0 files
                     (advance s1 (clock s1 + urlReadyDelay) [EvSleep urlReadyDelay]) in
    match r with
    | Err e => (Err e, s2)
    | Ok _ =>
        let (r', s3) := EndSession w ctx bucketUuid (SessionUUID (Data apiResp)) s2 in
        (match r' with
         | Err e => Err (EWrap "failed to end upload session: " e)
         | Ok res => Ok res
         end, s3)
    end.
Proof.
  pose proof files_positive as Hpos.
  destruct started as (Hb & Hne & Hvalid & res & Hstart & Hdecode).
  unfold UploadFileProcess. rewrite Hb.
  destruct (length files =? 0)%nat eqn:Hlen; [apply Nat.eqb_eq in Hlen; lia|].
  rewrite (extract_metadata_valid files Hvalid).
  unfold bind at 1. rewrite Hstart, Hdecode. fold urls.
  destruct (length urls =? 0)%nat; [reflexivity|].
  destruct (length urls <? length files)%nat; [reflexivity|].
  unfold bind, time_Sleep.
  change (Z.max 0 urlReadyDelay) with urlReadyDelay.
  destruct (upload_loop w ctx urls 0 files _) as [[u|e] s2]; [|reflexivity].
  destruct (EndSession w ctx bucketUuid (SessionUUID (Data apiResp)) s2) as [[r|e] s3];
    reflexivity.
Qed.

End Started.

End Upload.

Lemma extract_urls_filter items :
  extract_urls items = filter (fun u => negb (u =? "")%string) (map URL items).
Proof.
  induction items as [|it items IH]; cbn; [reflexivity|].
  destruct (negb (URL it =? "")%string); now rewrite IH.
Qed.

(** C1: when the session-start response yields fewer signed URLs than
    there are files, UploadFileProcess fails with a StorageError of code
    500 in the very state in which session start returned: the only
    calls of the run are session-start calls, none of them a PUT, and
    nothing follows them (no upload, no session end). *)
Theorem C1_url_shortfall w ctx bucketUuid files s s1 apiResp :
  let urls := extract_urls (Files (Data apiResp)) in
  session_started w ctx bucketUuid files s s1 apiResp ->
  (length urls < length files)%nat ->
  UploadFileProcess w ctx bucketUuid files s
  = (Err (EStorage 500
            (if (length urls =? 0)%nat
             then "no signed URLs found in process upload response"
             else "not enough signed URLs provided. Expected "
                  +++ string_of_Z (Z.of_nat (length files)) +++ ", got "
                  +++ string_of_Z (Z.of_nat (length urls))) ENil), s1)
  /\ exists t evs,
       s1 = advance s t evs
       /\ Forall (session_start_call w bucketUuid) (do_calls evs)
       /\ Forall (fun r => req_method r <> "PUT") (do_calls evs).
Proof.
  intros urls Hstarted Hshort. split.
  - rewrite (process_from_response w ctx bucketUuid files s s1 apiResp Hstarted).
    fold urls. destruct (length urls =? 0)%nat; [reflexivity|].
    apply Nat.ltb_lt in Hshort. rewrite Hshort. reflexivity.
  - destruct Hstarted as (_ & _ & _ & res & Hstart & _).
    destruct (StartUploadFilesToBucket_frame w ctx bucketUuid (map Metadata files) s)
      as (t & evs & Hs & Hall).
    rewrite Hstart in Hs. cbn [snd] in Hs.
    exists t, evs. repeat split; [exact Hs | exact Hall |].
    eapply Forall_impl; [|exact Hall]. intros r [Hm _]. rewrite Hm. discriminate.
Qed.

Lemma C1_url_shortfall_witness :
  let s1 := snd (StartUploadFilesToBucket Scenarios.w_short context_Background "b1"
                   (map Metadata [Scenarios.file_a; Scenarios.file_b]) Scenarios.s0) in
  UploadFileProcess Scenarios.w_short context_Background "b1"
    [Scenarios.file_a; Scenarios.file_b] Scenarios.s0
  = (Err (EStorage 500 "not enough signed URLs provided. Expected 2, got 1" ENil), s1)
  /\ exists t evs,
       s1 = advance Scenarios.s0 t evs
       /\ Forall (session_start_call Scenarios.w_short "b1") (do_calls evs)
       /\ Forall (fun r => req_method r <> "PUT") (do_calls evs).
Proof.
  apply (C1_url_shortfall Scenarios.w_short context_Background "b1"
           [Scenarios.file_a; Scenarios.file_b] Scenarios.s0 _
           (Scenarios.process_response "sess-1" ["https://s3/u0"])).
  - repeat split; [discriminate|]. exists Scenarios.short_response. split; reflexivity.
  - cbn. lia.
Defined.

(** C7: uploads are issued one after the other in the order of the
    files, the i-th file to the i-th URL. When the files before [fk] are
    accepted and the upload of [fk] fails, the run ends there with the
    error of that upload: after session start and the settling sleep its
    events are the PUTs of the files before [fk], in order, and the
    events of the upload of [fk] (its PUT); no file after [fk] is
    uploaded and no session-end call is made. *)
Theorem C7_stop_at_first_failure w ctx bucketUuid pre fk post s s1 apiResp :
  let files := pre ++ fk :: post in
  let urls := extract_urls (Files (Data apiResp)) in
  let now := clock s1 + urlReadyDelay in
  let n := length (do_calls (trace s1)) in
  let url_k := nth (length pre) urls "" in
  session_started w ctx bucketUuid files s s1 apiResp ->
  (length files <= length urls)%nat ->
  uploads_accepted w ctx now n (combine urls pre) = true ->
  upload_accepted w ctx now (n + length pre) url_k (Content fk) = false ->
  exists e,
    UploadFileProcess w ctx bucketUuid files s
    = (Err (EWrap ("failed to upload file " +++ FileName (Metadata fk) +++ ": ") e),
       advance s1 now
         (EvSleep urlReadyDelay
          :: map EvDo (upload_requests (combine urls pre))
          ++ upload_events w url_k (Content fk))).
Proof.
  intros files urls now n url_k Hstarted Hlen Hacc Hrej.
  pose proof (files_positive w ctx bucketUuid files s s1 apiResp Hstarted) as Hpos.
  rewrite (process_from_response w ctx bucketUuid files s s1 apiResp Hstarted).
  fold urls.
  destruct (length urls =? 0)%nat eqn:H0; [apply Nat.eqb_eq in H0; lia|].
  destruct (length urls <? length files)%nat eqn:H1; [apply Nat.ltb_lt in H1; lia|].
  destruct Hstarted as (_ & _ & Hvalid & _).
  destruct (upload_loop_rejected w ctx urls pre fk post 0
              (advance s1 (clock s1 + urlReadyDelay) [EvSleep urlReadyDelay]))
    as [e He].
  - apply extract_urls_nonempty.
  - exact Hvalid.
  - exact Hlen.
  - cbn [clock trace advance skipn]. rewrite do_calls_app, length_app. cbn [do_calls length].
    rewrite Nat.add_0_r. exact Hacc.
  - cbn [clock trace advance Nat.add]. rewrite do_calls_app, length_app. cbn [do_calls length].
    rewrite Nat.add_0_r. exact Hrej.
  - exists e. fold files in He. rewrite He, advance_advance. reflexivity.
Qed.

Lemma C7_stop_at_first_failure_witness :
  let s1 := snd (StartUploadFilesToBucket Scenarios.w_second_fails context_Background "b1"
                   (map Metadata [Scenarios.file_a; Scenarios.file_b; Scenarios.file_c])
                   Scenarios.s0) in
  exists e,
    UploadFileProcess Scenarios.w_second_fails context_Background "b1"
      [Scenarios.file_a; Scenarios.file_b; Scenarios.file_c] Scenarios.s0
    = (Err (EWrap "failed to upload file b.txt: " e),
       advance s1 (2 * second)
         [EvSleep urlReadyDelay;
          EvDo (put_request "https://s3/u0" "alpha");
          EvDo (put_request "https://s3/u1" "beta")]).
Proof.
  intros s1.
  apply (C7_stop_at_first_failure Scenarios.w_second_fails context_Background "b1"
           [Scenarios.file_a] Scenarios.file_b [Scenarios.file_c] Scenarios.s0 s1
           (Scenarios.process_response "sess-1"
              ["https://s3/u0"; "https://s3/u1"; "https://s3/u2"])).
  - repeat split; [discriminate|]. exists Scenarios.three_response. split; reflexivity.
  - cbn. lia.
  - reflexivity.
  - reflexivity.
Defined.

(** C8: with an empty bucket id, an empty file list, or a file without
    content or without name, UploadFileProcess returns a StorageError of
    code ErrCodeInvalidInput and leaves the state as it was: no call is
    made and nothing is slept. *)
Theorem C8_invalid_input w ctx bucketUuid files s :
  bucketUuid = "" \/ files = [] \/ forallb valid_file files = false ->
  exists msg,
    UploadFileProcess w ctx bucketUuid files s
    = (Err (EStorage ErrCodeInvalidInput msg ENil), s).
Proof.
  intros H. unfold UploadFileProcess.
  destruct (bucketUuid =? "")%string eqn:Hb; [eexists; reflexivity|].
  destruct (length files =? 0)%nat eqn:Hl; [eexists; reflexivity|].
  destruct H as [H | [H | H]].
  - subst bucketUuid. discriminate Hb.
  - subst files. discriminate Hl.
  - destruct (extract_metadata_invalid files H) as [msg Hmsg].
    rewrite Hmsg. now exists msg.
Qed.

Lemma C8_invalid_input_witness :
  exists msg,
    UploadFileProcess Scenarios.w_surplus context_Background "b1"
      [Scenarios.file_a; {| Metadata := Metadata Scenarios.file_b; Content := "" |}]
      Scenarios.s0
    = (Err (EStorage ErrCodeInvalidInput msg ENil), Scenarios.s0).
Proof.
  apply (C8_invalid_input Scenarios.w_surplus context_Background "b1"
           [Scenarios.file_a; {| Metadata := Metadata Scenarios.file_b; Content := "" |}]
           Scenarios.s0).
  right. right. reflexivity.
Defined.

(** C9: UploadFiles with a non-empty signed URL (from which the request
    can be built) and non-empty content makes exactly one client.Do call
    and nothing else: a PUT to the signed URL with the raw content as
    body and no Authorization header. It returns nil exactly when that
    call is answered with a status in [200, 300); a failed call and any
    other status are returned as errors, without another call. *)
Theorem C9_single_put w ctx signedURL rawFile s :
  signedURL <> "" -> rawFile <> "" ->
  http_NewRequest w "PUT" signedURL = None ->
  let req := put_request signedURL rawFile in
  let run := UploadFiles w ctx signedURL rawFile s in
  snd run = advance s (clock s) [EvDo req]
  /\ (req_method req = "PUT" /\ req_url req = signedURL
      /\ req_body req = Some rawFile /\ authorization req = None)
  /\ (fst run = Ok tt
      <-> exists resp, do_outcome w ctx s req = DoResp resp /\ 200 <= StatusCode resp < 300)
  /\ (forall e, do_outcome w ctx s req = DoErr e ->
                fst run = Err (EStorage 500 "failed to upload file" e))
  /\ (forall resp, do_outcome w ctx s req = DoResp resp ->
                   ~ 200 <= StatusCode resp < 300 ->
                   fst run = Err (EStorage (StatusCode resp)
                                    ("upload failed: " +++ Body resp) ENil)).
Proof.
  intros Hu Hc Hnew req run. subst run.
  rewrite (UploadFiles_eq w ctx signedURL rawFile s Hu Hc), Hnew. fold req.
  cbn [fst snd]. split; [reflexivity|]. split; [repeat split|].
  destruct (do_outcome w ctx s req) as [e|resp].
  - split; [|split].
    + split; [discriminate | intros (resp & [=] & _)].
    + intros e' [= <-]. reflexivity.
    + intros resp [=].
  - pose proof (status_2xx (StatusCode resp)) as H2xx.
    destruct ((StatusCode resp <? 200) || (300 <=? StatusCode resp)).
    + split; [|split].
      * split; [discriminate|]. intros (resp' & [= <-] & Hr).
        apply H2xx in Hr. discriminate Hr.
      * intros e [=].
      * intros resp' [= <-] _. reflexivity.
    + split; [|split].
      * split; [|reflexivity]. intros _. exists resp. split; [reflexivity|].
        now apply H2xx.
      * intros e [=].
      * intros resp' [= <-] Hn. exfalso. apply Hn. now apply H2xx.
Qed.

Lemma C9_single_put_witness :
  let req := put_request "https://s3/u0" "alpha" in
  let run := UploadFiles Scenarios.w_gateway context_Background "https://s3/u0" "alpha"
               Scenarios.s0 in
  snd run = advance Scenarios.s0 0 [EvDo req]
  /\ (req_method req = "PUT" /\ req_url req = "https://s3/u0"
      /\ req_body req = Some "alpha" /\ authorization req = None)
  /\ (fst run = Ok tt
      <-> exists resp, do_outcome Scenarios.w_gateway context_Background Scenarios.s0 req
                       = DoResp resp /\ 200 <= StatusCode resp < 300)
  /\ (forall e, do_outcome Scenarios.w_gateway context_Background Scenarios.s0 req = DoErr e ->
                fst run = Err (EStorage 500 "failed to upload file" e))
  /\ (forall resp, do_outcome Scenarios.w_gateway context_Background Scenarios.s0 req
                   = DoResp resp ->
                   ~ 200 <= StatusCode resp < 300 ->
                   fst run = Err (EStorage (StatusCode resp)
                                    ("upload failed: " +++ Body resp) ENil)).
Proof.
  apply (C9_single_put Scenarios.w_gateway context_Background "https://s3/u0" "alpha"
           Scenarios.s0); [discriminate | discriminate | reflexivity].
Defined.

(** C10: when the session-start response has at least as many non-empty
    URL entries as there are files, UploadFileProcess raises no error
    about the URLs: it keeps the non-empty URLs in response order, pairs
    the i-th file with the i-th of them, leaves the URLs beyond the last
    file unused, and, every upload being accepted, goes on to end the
    session and returns what EndSession returns. *)
Theorem C10_surplus_tolerated w ctx bucketUuid files s s1 apiResp :
  let urls := extract_urls (Files (Data apiResp)) in
  let now := clock s1 + urlReadyDelay in
  let s2 := advance s1 now
              (EvSleep urlReadyDelay :: map EvDo (upload_requests (combine urls files))) in
  let ending := EndSession w ctx bucketUuid (SessionUUID (Data apiResp)) s2 in
  session_started w ctx bucketUuid files s s1 apiResp ->
  (length files <= length urls)%nat ->
  uploads_accepted w ctx now (length (do_calls (trace s1))) (combine urls files) = true ->
  urls = filter (fun u => negb (u =? "")%string) (map URL (Files (Data apiResp)))
  /\ UploadFileProcess w ctx bucketUuid files s
     = (match fst ending with
        | Err e => Err (EWrap "failed to end upload session: " e)
        | Ok res => Ok res
        end, snd ending).
Proof.
  intros urls now s2 ending Hstarted Hlen Hacc.
  split; [apply extract_urls_filter|].
  pose proof (files_positive w ctx bucketUuid files s s1 apiResp Hstarted) as Hpos.
  rewrite (process_from_response w ctx bucketUuid files s s1 apiResp Hstarted).
  fold urls.
  destruct (length urls =? 0)%nat eqn:H0; [apply Nat.eqb_eq in H0; lia|].
  destruct (length urls <? length files)%nat eqn:H1; [apply Nat.ltb_lt in H1; lia|].
  destruct Hstarted as (_ & _ & Hvalid & _).
  rewrite (upload_loop_accepted w ctx urls files 0).
  - cbn [skipn]. rewrite advance_advance. cbn [clock advance app]. fold now. fold s2.
    fold ending. destruct ending as [[res|e] s3]; reflexivity.
  - apply extract_urls_nonempty.
  - exact Hvalid.
  - exact Hlen.
  - cbn [clock trace advance skipn]. rewrite do_calls_app, length_app. cbn [do_calls length].
    rewrite Nat.add_0_r. exact Hacc.
Qed.

Lemma C10_surplus_tolerated_witness :
  let s1 := snd (StartUploadFilesToBucket Scenarios.w_surplus context_Background "b1"
                   (map Metadata [Scenarios.file_a; Scenarios.file_b]) Scenarios.s0) in
  extract_urls (map mkFileItem [""; "https://s3/u1"; "https://s3/u2"; "https://s3/u3"])
  = filter (fun u => negb (u =? "")%string)
      [""; "https://s3/u1"; "https://s3/u2"; "https://s3/u3"]
  /\ UploadFileProcess Scenarios.w_surplus context_Background "b1"
       [Scenarios.file_a; Scenarios.file_b] Scenarios.s0
     = (Ok "{}",
        advance s1 (2 * second)
          [EvSleep urlReadyDelay;
           EvDo (put_request "https://s3/u1" "alpha");
           EvDo (put_request "https://s3/u2" "beta");
           EvDo (requests.api_request "POST"
                   "https://api.apillon.io/storage/buckets/b1/upload/sess-1/end"
                   None requests.timeoutPost "key-1")]).
Proof.
  intros s1.
  apply (C10_surplus_tolerated Scenarios.w_surplus context_Background "b1"
           [Scenarios.file_a; Scenarios.file_b] Scenarios.s0 s1
           (Scenarios.process_response "sess-1"
              [""; "https://s3/u1"; "https://s3/u2"; "https://s3/u3"])).
  - repeat split; [discriminate|]. exists Scenarios.surplus_response. split; reflexivity.
  - cbn. lia.
  - reflexivity.
Defined.

End storage_props.

(** ** More on the request executor *)

Module requests_more.
Import requests.

Lemma never_done ctx t : ctx_done_at ctx = None -> ctx_done ctx t = false.
Proof. unfold ctx_done. now intros ->. Qed.

Lemma Forall_eq_repeat {A} (x : A) l : Forall (fun r => r = x) l -> l = repeat x (length l).
Proof. induction 1 as [|r l -> _ IH]; cbn; [reflexivity | now rewrite <- IH]. Qed.

(** The shape of every run of the loop: some failed attempts, each with
    its sleep, then at most one more call; the first call sends the
    whole body, the later ones what is left of it. *)
Lemma loop_shape w ctx method url timeout k : forall body attempt lastErr s,
  exists j evs,
    (j <= k)%nat
    /\ snd (doRequest_loop w k attempt lastErr ctx method url body timeout s)
       = advance s (clock s + retry_time j attempt) evs
    /\ (forall r0, sleeps evs = sleeps (retry_events r0 j attempt))
    /\ (length (do_calls evs) <= k)%nat
    /\ Forall (attempt_of method url body timeout (credential s)) (do_calls evs)
    /\ (forall r, hd_error (do_calls evs) = Some r ->
          r = api_request method url body timeout (credential s))
    /\ (http_NewRequest w method url = None -> (0 < k)%nat ->
        exists evs', evs = EvDo (api_request method url body timeout (credential s)) :: evs').
Proof.
  induction k as [|k IH]; intros body attempt lastErr s.
  - exists 0%nat, []. cbn. rewrite Z.add_0_r, advance_nil.
    repeat split; try (constructor; fail); try discriminate; lia.
  - destruct (http_NewRequest w method url) as [e|] eqn:Hnew.
    + exists 0%nat, []. cbn [doRequest_loop]. rewrite Hnew. cbn.
      rewrite Z.add_0_r, advance_nil.
      repeat split; try (constructor; fail); try discriminate; lia.
    + destruct (do_outcome w ctx s (api_request method url body timeout (credential s)))
        as [e|resp] eqn:Hout.
      * rewrite (requests_props.loop_retry w ctx method url body timeout Hnew
                   k attempt lastErr s e Hout).
        destruct (IH (reader_after w ctx s (api_request method url body timeout (credential s)))
                    (attempt + 1) e
                    (advance s (clock s + Z.max 0 (retryDelay * (attempt + 1)))
                       [EvDo (api_request method url body timeout (credential s));
                        EvSleep (retryDelay * (attempt + 1))]))
          as (j & evs & Hj & Hs & Hsl & Hlen & Hall & _ & _).
        rewrite credential_advance in Hall.
        exists (S j).
        exists (EvDo (api_request method url body timeout (credential s))
                :: EvSleep (retryDelay * (attempt + 1)) :: evs).
        split; [lia|]. split.
        { rewrite Hs, advance_advance. cbn [clock advance retry_time app].
          rewrite Z.add_assoc. reflexivity. }
        split.
        { intros r0. cbn [sleeps retry_events]. f_equal. apply Hsl. }
        split.
        { cbn [do_calls length]. lia. }
        split.
        { cbn [do_calls]. constructor; [apply attempt_of_self|].
          eapply Forall_impl; [|exact Hall]. intros r.
          apply attempt_of_left. unfold reader_after.
          exact (reader_left_rest w ctx _ _
                   (api_request method url body timeout (credential s))). }
        split.
        { cbn [do_calls hd_error]. now intros r [= <-]. }
        intros _ _. eexists. reflexivity.
      * rewrite (requests_props.loop_response w ctx method url body timeout Hnew
                   k attempt lastErr s resp Hout).
        exists 0%nat, [EvDo (api_request method url body timeout (credential s))].
        split; [lia|]. split.
        { cbn. rewrite Z.add_0_r. reflexivity. }
        split; [reflexivity|]. split; [cbn; lia|]. split.
        { cbn. constructor; [apply attempt_of_self | constructor]. }
        split.
        { cbn. now intros r [= <-]. }
        intros _ _. eexists. reflexivity.
Qed.

(** The calls of one doRequest: at most 3, each an attempt built from
    its arguments and the credential at the start. *)
Lemma doRequest_frame_bounded w ctx method path body params timeout s :
  exists t evs,
    snd (doRequest w ctx method path body params timeout s) = advance s t evs
    /\ Forall (fun r => exists url, buildURL w path params = Ok url
                         /\ attempt_of method url body timeout (credential s) r)
         (do_calls evs)
    /\ (length (do_calls evs) <= 3)%nat.
Proof.
  unfold doRequest. destruct (buildURL w path params) as [url|e].
  - destruct (loop_shape w ctx method url timeout (Z.to_nat maxRetries) body 0 ENil s)
      as (j & evs & _ & Hs & _ & Hlen & Hall & _).
    change (Z.to_nat maxRetries) with 3%nat in *.
    eexists _, evs. split; [exact Hs|]. split; [|exact Hlen].
    eapply Forall_impl; [|exact Hall]. intros r Hr. now exists url.
  - exists (clock s), []. cbn. rewrite advance_nil.
    split; [reflexivity|]. split; [constructor | lia].
Qed.



(** X2: the sleeps of one doRequest are an initial part of 1s, 2s, 3s,
    nothing else moves the clock, and the whole run sleeps at most 6
    seconds. *)
Theorem doRequest_backoff_schedule w ctx method path body params timeout s :
  exists j evs,
    (j <= 3)%nat
    /\ snd (doRequest w ctx method path body params timeout s)
       = advance s (clock s + retry_time j 0) evs
    /\ sleeps evs = firstn j [1 * second; 2 * second; 3 * second]
    /\ retry_time j 0 = fold_right Z.add 0 (sleeps evs)
    /\ 0 <= retry_time j 0 <= 6 * second.
Proof.
  unfold doRequest. destruct (buildURL w path params) as [url|e].
  - destruct (loop_shape w ctx method url timeout (Z.to_nat maxRetries) body 0 ENil s)
      as (j & evs & Hj & Hs & Hsl & _).
    change (Z.to_nat maxRetries) with 3%nat in *.
    exists j, evs. split; [exact Hj|]. split; [exact Hs|].
    rewrite (Hsl (api_request method url body timeout (credential s))).
    destruct j as [|[|[|[|j]]]]; try lia; cbn; repeat split; try reflexivity; lia.
  - exists 0%nat, []. cbn. rewrite Z.add_0_r, advance_nil. repeat split; lia.
Qed.

(** An [Ok] of the loop is the body of the response to its last call. *)
Lemma loop_ok_inv w ctx method url timeout k : forall body attempt lastErr s res,
  fst (doRequest_loop w k attempt lastErr ctx method url body timeout s) = Ok res ->
  exists t evs req resp,
    snd (doRequest_loop w k attempt lastErr ctx method url body timeout s)
    = advance s t (evs ++ [EvDo req])
    /\ attempt_of method url body timeout (credential s) req
    /\ ctx_done ctx t = false
    /\ round_trip w (length (do_calls (trace s ++ evs))) req = DoResp resp
    /\ StatusCode resp < 400 /\ ReadErr resp = None /\ Body resp = res.
Proof.
  induction k as [|k IH]; intros body attempt lastErr s res Hok; [discriminate Hok|].
  destruct (http_NewRequest w method url) as [e|] eqn:Hnew.
  { cbn [doRequest_loop] in Hok. rewrite Hnew in Hok. discriminate Hok. }
  destruct (do_outcome w ctx s (api_request method url body timeout (credential s)))
    as [e|resp] eqn:Hout.
  - rewrite (requests_props.loop_retry w ctx method url body timeout Hnew
               k attempt lastErr s e Hout) in Hok |- *.
    apply IH in Hok.
    destruct Hok as (t & evs & req & resp & Hs & Hreq & Hctx & Hrt & Hst & Hrd & Hb).
    rewrite credential_advance in Hreq.
    cbn [trace advance] in Hrt. rewrite <- app_assoc in Hrt.
    exists t.
    exists ([EvDo (api_request method url body timeout (credential s));
             EvSleep (retryDelay * (attempt + 1))] ++ evs).
    exists req, resp.
    split; [rewrite Hs, advance_advance, app_assoc; reflexivity|].
    split.
    { revert Hreq. apply attempt_of_left. unfold reader_after.
      exact (reader_left_rest w ctx _ _
               (api_request method url body timeout (credential s))). }
    auto.
  - rewrite (requests_props.loop_response w ctx method url body timeout Hnew
               k attempt lastErr s resp Hout) in Hok |- *.
    cbn [fst snd] in Hok |- *.
    unfold do_outcome in Hout.
    destruct (ctx_done ctx (clock s)) eqn:Hctx; [discriminate Hout|].
    exists (clock s), [], (api_request method url body timeout (credential s)), resp.
    split; [reflexivity|]. split; [apply attempt_of_self|]. split; [exact Hctx|].
    rewrite app_nil_r. split; [exact Hout|].
    destruct (ReadErr resp); [discriminate Hok|].
    destruct (400 <=? StatusCode resp) eqn:Hst.
    + destruct (json_Unmarshal_APIError w (Body resp)); discriminate Hok.
    + apply Z.leb_gt in Hst. injection Hok as <-. auto.
Qed.

(** X3: doRequest returns a string with a nil error only when the last
    thing it did was a client.Do call, made with the context not done,
    that was answered with a status below 400 and a body read without
    error; the string is that body. The call is an attempt built from
    the arguments, and nothing is slept after it. *)
Theorem doRequest_ok_is_response_body w ctx method path body params timeout s res :
  fst (doRequest w ctx method path body params timeout s) = Ok res ->
  exists url t evs req resp,
    buildURL w path params = Ok url
    /\ snd (doRequest w ctx method path body params timeout s)
       = advance s t (evs ++ [EvDo req])
    /\ attempt_of method url body timeout (credential s) req
    /\ ctx_done ctx t = false
    /\ round_trip w (length (do_calls (trace s ++ evs))) req = DoResp resp
    /\ StatusCode resp < 400 /\ ReadErr resp = None /\ Body resp = res.
Proof.
  unfold doRequest. destruct (buildURL w path params) as [url|e]; [|discriminate].
  intros Hok. apply loop_ok_inv in Hok.
  destruct Hok as (t & evs & req & resp & H).
  now exists url, t, evs, req, resp.
Qed.

Lemma doRequest_ok_is_response_body_witness :
  exists url t evs req resp,
    buildURL Scenarios.w_recovers "/ping" [] = Ok url
    /\ snd (doRequest Scenarios.w_recovers context_Background "GET" "/ping" None []
              timeoutGet Scenarios.s0)
       = advance Scenarios.s0 t (evs ++ [EvDo req])
    /\ attempt_of "GET" url None timeoutGet (credential Scenarios.s0) req
    /\ ctx_done context_Background t = false
    /\ round_trip Scenarios.w_recovers (length (do_calls (trace Scenarios.s0 ++ evs))) req
       = DoResp resp
    /\ StatusCode resp < 400 /\ ReadErr resp = None /\ Body resp = "pong".
Proof.
  apply (doRequest_ok_is_response_body Scenarios.w_recovers context_Background "GET" "/ping"
           None [] timeoutGet Scenarios.s0 "pong").
  reflexivity.
Defined.

(** X4: when the first [j] calls fail ([j] being 0, 1 or 2) and the next
    one is answered with a status below 400, doRequest, under a context
    that is never done, returns the body of that answer after [j + 1]
    calls, having slept 1s, ..., [j] s in between and nothing after the
    answer. The second and third calls carry what the failed calls left
    of the body. *)
Theorem doRequest_retry_then_success w ctx method path body params timeout s url j e resp :
  buildURL w path params = Ok url ->
  http_NewRequest w method url = None ->
  ctx_done_at ctx = None ->
  (j <= 2)%nat ->
  let n := length (do_calls (trace s)) in
  let r1 := api_request method url body timeout (credential s) in
  let r2 := api_request method url (reader_rest w ctx (clock s) n r1) timeout
              (credential s) in
  let r3 := api_request method url (reader_rest w ctx (clock s + 1 * second) (n + 1) r2)
              timeout (credential s) in
  let req i := nth i [r1; r2; r3] r1 in
  (forall i, (i < j)%nat -> round_trip w (n + i) (req i) = DoErr (e i)) ->
  round_trip w (n + j) (req j) = DoResp resp ->
  ReadErr resp = None ->
  StatusCode resp < 400 ->
  doRequest w ctx method path body params timeout s
  = (Ok (Body resp),
     advance s (clock s + retry_time j 0)
       (firstn (2 * j) [EvDo r1; EvSleep (1 * second); EvDo r2; EvSleep (2 * second)]
        ++ [EvDo (req j)])).
Proof.
  intros Hurl Hnew Hctx Hj n r1 r2 r3 req Hfail Hresp Hread Hstatus.
  apply Z.leb_gt in Hstatus.
  unfold doRequest. rewrite Hurl.
  change (Z.to_nat maxRetries) with 3%nat.
  destruct j as [|[|[|j]]]; [| | |lia].
  - rewrite (requests_props.loop_response w ctx method url body timeout Hnew _ _ _ _ resp).
    2:{ unfold do_outcome. rewrite (never_done ctx _ Hctx).
        rewrite <- Hresp. unfold req, n. now rewrite Nat.add_0_r. }
    rewrite Hread, Hstatus. cbn [retry_time]. rewrite Z.add_0_r. reflexivity.
  - rewrite (requests_props.loop_retry w ctx method url body timeout Hnew _ _ _ _ (e 0%nat)).
    2:{ unfold do_outcome. rewrite (never_done ctx _ Hctx).
        rewrite <- (Hfail 0%nat) by lia. unfold req, n. now rewrite Nat.add_0_r. }
    unfold reader_after. fold n. fold r1.
    rewrite (requests_props.loop_response w ctx method url _ timeout Hnew _ _ _ _ resp).
    2:{ unfold do_outcome. cbn [clock advance]. rewrite (never_done ctx _ Hctx).
        rewrite credential_advance. cbn [trace advance].
        rewrite do_calls_app, length_app. cbn [do_calls length]. fold n.
        exact Hresp. }
    rewrite Hread, Hstatus, advance_advance, credential_advance.
    cbn [clock advance retry_time]. rewrite Z.add_0_r. reflexivity.
  - rewrite (requests_props.loop_retry w ctx method url body timeout Hnew _ _ _ _ (e 0%nat)).
    2:{ unfold do_outcome. rewrite (never_done ctx _ Hctx).
        rewrite <- (Hfail 0%nat) by lia. unfold req, n. now rewrite Nat.add_0_r. }
    unfold reader_after. fold n. fold r1.
    rewrite (requests_props.loop_retry w ctx method url _ timeout Hnew _ _ _ _ (e 1%nat)).
    2:{ unfold do_outcome. cbn [clock advance]. rewrite (never_done ctx _ Hctx).
        rewrite credential_advance. cbn [trace advance].
        rewrite do_calls_app, length_app. cbn [do_calls length]. fold n.
        apply (Hfail 1%nat). lia. }
    rewrite !credential_advance. unfold reader_after.
    cbn [clock trace advance]. rewrite do_calls_app, length_app. cbn [do_calls length].
    fold n.
    change (Z.max 0 (retryDelay * (0 + 1))) with (1 * second). fold r2.
    rewrite (requests_props.loop_response w ctx method url _ timeout Hnew _ _ _ _ resp).
    2:{ unfold do_outcome. rewrite advance_advance. cbn [clock advance].
        rewrite (never_done ctx _ Hctx).
        rewrite credential_advance. cbn [trace advance].
        rewrite do_calls_app, length_app. cbn [do_calls length app]. fold n. fold r3.
        exact Hresp. }
    rewrite Hread, Hstatus, !advance_advance, !credential_advance.
    cbn [clock advance retry_time app]. fold r3.
    rewrite Z.add_0_r, Z.add_assoc. reflexivity.
Qed.

Lemma doRequest_retry_then_success_witness :
  let req := api_request "GET" "https://api.apillon.io/ping" None timeoutGet "key-1" in
  doRequest Scenarios.w_recovers context_Background "GET" "/ping" None [] timeoutGet
    Scenarios.s0
  = (Ok "pong",
     advance Scenarios.s0 (3 * second)
       [EvDo req; EvSleep (1 * second); EvDo req; EvSleep (2 * second); EvDo req]).
Proof.
  apply (doRequest_retry_then_success Scenarios.w_recovers context_Background "GET" "/ping"
           None [] timeoutGet Scenarios.s0 "https://api.apillon.io/ping" 2
           (fun _ => ELib "connection refused")
           {| StatusCode := 200; Body := "pong"; ReadErr := None |}).
  - reflexivity.
  - reflexivity.
  - reflexivity.
  - lia.
  - intros i Hi. destruct i as [|[|i]]; [reflexivity | reflexivity | lia].
  - reflexivity.
  - reflexivity.
  - cbn. lia.
Defined.

(** X24: a POST is retried on the reader it was given, not on a fresh
    copy of the body. When the first call of a PostReq fails and the
    second is answered with a status below 400 (context never done),
    the second request carries only the part of the body that the first
    call did not read; when the first call had read all of it, the
    second request is sent with an empty body, and its answer is what
    PostReq returns. *)
Theorem PostReq_retry_sends_rest w ctx path body s url e resp :
  buildURL w path [] = Ok url ->
  http_NewRequest w "POST" url = None ->
  ctx_done_at ctx = None ->
  let n := length (do_calls (trace s)) in
  let r1 := api_request "POST" url (Some body) timeoutPost (credential s) in
  let r2 := api_request "POST" url (Some (string_drop (body_read w n r1) body)) timeoutPost
              (credential s) in
  round_trip w n r1 = DoErr e ->
  round_trip w (n + 1) r2 = DoResp resp ->
  ReadErr resp = None ->
  StatusCode resp < 400 ->
  PostReq w ctx path (Some body) s
  = (Ok (Body resp),
     advance s (clock s + 1 * second) [EvDo r1; EvSleep (1 * second); EvDo r2])
  /\ ((String.length body <= body_read w n r1)%nat -> req_body r2 = Some "").
Proof.
  intros Hurl Hnew Hctx n r1 r2 Hfail Hresp Hread Hstatus.
  apply Z.leb_gt in Hstatus. split.
  - unfold PostReq, doRequest. rewrite Hurl.
    change (Z.to_nat maxRetries) with 3%nat.
    rewrite (requests_props.loop_retry w ctx "POST" url (Some body) timeoutPost Hnew
               _ _ _ _ e).
    2:{ unfold do_outcome. rewrite (never_done ctx _ Hctx). exact Hfail. }
    unfold reader_after, reader_rest. rewrite (never_done ctx _ Hctx).
    fold n. fold r1. cbn [req_body r1 api_request option_map].
    rewrite (requests_props.loop_response w ctx "POST" url _ timeoutPost Hnew _ _ _ _ resp).
    2:{ unfold do_outcome. cbn [clock advance]. rewrite (never_done ctx _ Hctx).
        rewrite credential_advance. cbn [trace advance].
        rewrite do_calls_app, length_app. cbn [do_calls length]. fold n.
        exact Hresp. }
    rewrite Hread, Hstatus, advance_advance, credential_advance.
    reflexivity.
  - intros Hall. cbn [req_body r2 api_request]. now rewrite string_drop_all.
Qed.

Lemma PostReq_retry_sends_rest_witness :
  PostReq Scenarios.w_reset_after_send context_Background "/x" (Some "{}") Scenarios.s0
  = (Ok "{}",
     advance Scenarios.s0 (1 * second)
       [EvDo (api_request "POST" "https://api.apillon.io/x" (Some "{}") timeoutPost "key-1");
        EvSleep (1 * second);
        EvDo (api_request "POST" "https://api.apillon.io/x" (Some "") timeoutPost "key-1")])
  /\ ((String.length "{}" <= 2)%nat -> Some "" = Some "").
Proof.
  apply (PostReq_retry_sends_rest Scenarios.w_reset_after_send context_Background "/x" "{}"
           Scenarios.s0 "https://api.apillon.io/x" (ELib "connection reset by peer")
           {| StatusCode := 200; Body := "{}"; ReadErr := None |}).
  - reflexivity.
  - reflexivity.
  - reflexivity.
  - reflexivity.
  - reflexivity.
  - reflexivity.
  - cbn. lia.
Defined.

(** X5: a response whose body cannot be read to the end is an error
    whatever its status, a 200 included; the attempt is not retried and
    the part of the body that was read is dropped. *)
Theorem doRequest_read_error_terminal w ctx method path body params timeout s url resp e :
  buildURL w path params = Ok url ->
  http_NewRequest w method url = None ->
  let req := api_request method url body timeout (credential s) in
  do_outcome w ctx s req = DoResp resp ->
  ReadErr resp = Some e ->
  doRequest w ctx method path body params timeout s
  = (Err (EWrap "failed to read response body: " e), advance s (clock s) [EvDo req]).
Proof.
  intros Hurl Hnew req Hout Hread. unfold doRequest. rewrite Hurl.
  change (Z.to_nat maxRetries) with 3%nat.
  rewrite (requests_props.loop_response w ctx method url body timeout Hnew _ _ _ _ resp Hout).
  now rewrite Hread.
Qed.

Lemma doRequest_read_error_terminal_witness :
  doRequest Scenarios.w_broken_body context_Background "GET" "/ping" None [] timeoutGet
    Scenarios.s0
  = (Err (EWrap "failed to read response body: " (ELib "unexpected EOF")),
     advance Scenarios.s0 0
       [EvDo (api_request "GET" "https://api.apillon.io/ping" None timeoutGet "key-1")]).
Proof.
  apply (doRequest_read_error_terminal Scenarios.w_broken_body context_Background "GET"
           "/ping" None [] timeoutGet Scenarios.s0 "https://api.apillon.io/ping"
           {| StatusCode := 200; Body := "po"; ReadErr := Some (ELib "unexpected EOF") |}
           (ELib "unexpected EOF")); reflexivity.
Defined.

(** X7: what each verb sends, whatever the servers answer. Every call
    of GetReq, PostReq and DeleteReq carries "Basic " followed by the
    credential as Authorization; only POST declares a Content-Type
    (application/json); GET and DELETE have no body and a 30s client
    timeout, POST a 60s one and as body what is left of the body it was
    given. *)
Theorem verbs_headers_and_timeouts w ctx path params body s :
  (exists t evs,
     snd (GetReq w ctx path params s) = advance s t evs
     /\ Forall (fun r => req_method r = "GET"
                         /\ authorization r = Some ("Basic " +++ credential s)
                         /\ header_get "Content-Type" (req_header r) = None
                         /\ req_body r = None /\ req_timeout r = 30 * second)
          (do_calls evs))
  /\ (exists t evs,
        snd (PostReq w ctx path body s) = advance s t evs
        /\ Forall (fun r => req_method r = "POST"
                            /\ authorization r = Some ("Basic " +++ credential s)
                            /\ header_get "Content-Type" (req_header r)
                               = Some "application/json"
                            /\ reader_left (req_body r) body
                            /\ req_timeout r = 60 * second)
             (do_calls evs))
  /\ (exists t evs,
        snd (DeleteReq w ctx path s) = advance s t evs
        /\ Forall (fun r => req_method r = "DELETE"
                            /\ authorization r = Some ("Basic " +++ credential s)
                            /\ header_get "Content-Type" (req_header r) = None
                            /\ req_body r = None /\ req_timeout r = 30 * second)
             (do_calls evs)).
Proof.
  unfold GetReq, PostReq, DeleteReq. repeat split.
  - destruct (requests_props.doRequest_frame w ctx "GET" path None params timeoutGet s)
      as (t & evs & Hs & Hall).
    exists t, evs. split; [exact Hs|].
    eapply Forall_impl; [|exact Hall]. intros r (url & _ & Hr).
    rewrite (attempt_of_None _ _ _ _ _ Hr). repeat split.
  - destruct (requests_props.doRequest_frame w ctx "POST" path body [] timeoutPost s)
      as (t & evs & Hs & Hall).
    exists t, evs. split; [exact Hs|].
    eapply Forall_impl; [|exact Hall]. intros r (url & _ & b & Hb & ->).
    repeat split. exact Hb.
  - destruct (requests_props.doRequest_frame w ctx "DELETE" path None [] timeoutGet s)
      as (t & evs & Hs & Hall).
    exists t, evs. split; [exact Hs|].
    eapply Forall_impl; [|exact Hall]. intros r (url & _ & Hr).
    rewrite (attempt_of_None _ _ _ _ _ Hr). repeat split.
Qed.

(** The first call answered with a readable body and a status below 400. *)
Lemma doRequest_first_response w ctx method path body params timeout s url resp :
  buildURL w path params = Ok url ->
  http_NewRequest w method url = None ->
  do_outcome w ctx s (api_request method url body timeout (credential s)) = DoResp resp ->
  ReadErr resp = None ->
  StatusCode resp < 400 ->
  doRequest w ctx method path body params timeout s
  = (Ok (Body resp),
     advance s (clock s) [EvDo (api_request method url body timeout (credential s))]).
Proof.
  intros Hurl Hnew Hout Hread Hstatus. unfold doRequest. rewrite Hurl.
  change (Z.to_nat maxRetries) with 3%nat.
  rewrite (requests_props.loop_response w ctx method url body timeout Hnew _ _ _ _ resp Hout).
  rewrite Hread. apply Z.leb_gt in Hstatus. now rewrite Hstatus.
Qed.

(** X6: when the URL does not parse, or no request can be built for
    it, doRequest returns the wrapped error at once: no call is made,
    nothing is slept, and the failure is not retried. *)
Theorem doRequest_construction_failure w ctx method path body params timeout s err :
  (exists e, url_Parse w (baseURL +++ path) = Err e /\ err = EWrap "invalid base URL: " e)
  \/ (exists url e, buildURL w path params = Ok url
                    /\ http_NewRequest w method url = Some e
                    /\ err = EWrap "failed to create request: " e) ->
  doRequest w ctx method path body params timeout s = (Err err, s).
Proof.
  intros [(e & Hparse & ->) | (url & e & Hurl & Hnew & ->)]; unfold doRequest.
  - unfold buildURL. rewrite Hparse. reflexivity.
  - rewrite Hurl. change (Z.to_nat maxRetries) with 3%nat.
    cbn [doRequest_loop]. rewrite Hnew. reflexivity.
Qed.

Lemma doRequest_construction_failure_witness :
  doRequest Scenarios.w_strict context_Background "GET" "/storage/buckets/%zz/content"
    None [] timeoutGet Scenarios.s0
  = (Err (EWrap "invalid base URL: " (ELib "invalid URL escape")), Scenarios.s0).
Proof.
  apply (doRequest_construction_failure Scenarios.w_strict context_Background "GET"
           "/storage/buckets/%zz/content" None [] timeoutGet Scenarios.s0).
  left. exists (ELib "invalid URL escape"). split; reflexivity.
Defined.

End requests_more.

(** ** The bucket, file, directory and IPFS wrappers *)

Module storage_more.
Import storage.

Section WrapperProps.

Variable w : World.
Variable ctx : Context.

Variable ListFilesResponse : Type.
Variable json_Unmarshal_ListFilesResponse : string -> result ListFilesResponse.
Variable FileDetails : Type.
Variable json_Unmarshal_FileDetails : string -> result FileDetails.
Variable DeleteDirectoryResponse : Type.
Variable DeleteDirectoryResponse_zero : DeleteDirectoryResponse.
Variable DeleteDirectoryResponse_Status : DeleteDirectoryResponse -> Z.
Variable json_Unmarshal_DeleteDirectoryResponse : string -> result DeleteDirectoryResponse.
Variable IPFSLinkResponse : Type.
Variable IPFSLinkResponse_Data_Link : IPFSLinkResponse -> string.
Variable json_Unmarshal_IPFSLinkResponse : string -> result IPFSLinkResponse.
Variable IPFSClusterInfoResponse : Type.
Variable json_Unmarshal_IPFSClusterInfoResponse : string -> result IPFSClusterInfoResponse.
Variable ListBucketsResponse : Type.
Variable json_Unmarshal_ListBucketsResponse : string -> result ListBucketsResponse.
Variable json_Marshal_CreateBucketRequest : string -> string -> result string.

Let invalid (msg : string) : error := EStorage ErrCodeInvalidInput msg ENil.

(** X8: every function that takes an identifier rejects the empty one
    with ErrCodeInvalidInput and leaves the state as it was: no call is
    made. For the functions with two identifiers either empty one is
    enough; DeleteDirectory returns the zero response with the error. *)
Theorem empty_identifiers_rejected s (a b : string) files :
  GetBucketContent w ctx "" s = (Err (invalid "bucket UUID cannot be empty"), s)
  /\ ListFilesInBucket w ListFilesResponse json_Unmarshal_ListFilesResponse ctx "" s
     = (Err (invalid "bucket UUID cannot be empty"), s)
  /\ GetFileDetails w FileDetails json_Unmarshal_FileDetails ctx "" b s
     = (Err (invalid "bucket UUID and file UUID cannot be empty"), s)
  /\ GetFileDetails w FileDetails json_Unmarshal_FileDetails ctx a "" s
     = (Err (invalid "bucket UUID and file UUID cannot be empty"), s)
  /\ DeleteFile w ctx "" b s = (Err (invalid "bucket UUID and file UUID cannot be empty"), s)
  /\ DeleteFile w ctx a "" s = (Err (invalid "bucket UUID and file UUID cannot be empty"), s)
  /\ DeleteDirectory w DeleteDirectoryResponse DeleteDirectoryResponse_zero
       DeleteDirectoryResponse_Status json_Unmarshal_DeleteDirectoryResponse ctx "" b s
     = ((DeleteDirectoryResponse_zero,
         invalid "bucket UUID and directory UUID cannot be empty"), s)
  /\ DeleteDirectory w DeleteDirectoryResponse DeleteDirectoryResponse_zero
       DeleteDirectoryResponse_Status json_Unmarshal_DeleteDirectoryResponse ctx a "" s
     = ((DeleteDirectoryResponse_zero,
         invalid "bucket UUID and directory UUID cannot be empty"), s)
  /\ GetOrGenerateIPFSLink w IPFSLinkResponse IPFSLinkResponse_Data_Link
       json_Unmarshal_IPFSLinkResponse ctx "" s
     = (Err (invalid "CID cannot be empty"), s)
  /\ CreateBucket w json_Marshal_CreateBucketRequest ctx "" b s
     = (Err (invalid "bucket name cannot be empty"), s)
  /\ StartUploadFilesToBucket w ctx "" files s
     = (Err (invalid "bucket UUID cannot be empty"), s)
  /\ StartUploadFilesToBucket w ctx a [] s
     = (Err (invalid (if (a =? "")%string then "bucket UUID cannot be empty"
                      else "no files provided for upload")), s)
  /\ UploadFiles w ctx "" b s = (Err (invalid "signed URL cannot be empty"), s)
  /\ UploadFiles w ctx a "" s
     = (Err (invalid (if (a =? "")%string then "signed URL cannot be empty"
                      else "file content cannot be empty")), s)
  /\ EndSession w ctx "" b s
     = (Err (invalid "bucket UUID and session ID cannot be empty"), s)
  /\ EndSession w ctx a "" s
     = (Err (invalid "bucket UUID and session ID cannot be empty"), s).
Proof.
  unfold GetBucketContent, ListFilesInBucket, GetFileDetails, DeleteFile, DeleteDirectory,
    GetOrGenerateIPFSLink, CreateBucket, StartUploadFilesToBucket, UploadFiles, EndSession.
  cbn [String.eqb orb length Nat.eqb]. rewrite !orb_true_r.
  repeat split; try reflexivity; destruct (a =? "")%string; reflexivity.
Qed.

(** X10: what DeleteDirectory makes of a response that was received
    and decoded: the decoded response is returned in every case; its
    status 40406003 comes with the error "directory does not exist" of
    that code, 40006007 with "directory is already marked for deletion",
    and any other status with a nil error. *)
Theorem DeleteDirectory_status_mapping s s1 bucketUuid directoryUuid res resp :
  (bucketUuid =? "")%string = false ->
  (directoryUuid =? "")%string = false ->
  requests.DeleteReq w ctx
    ("/storage/buckets/" +++ bucketUuid +++ "/directories/" +++ directoryUuid) s
  = (Ok res, s1) ->
  json_Unmarshal_DeleteDirectoryResponse res = Ok resp ->
  let run := DeleteDirectory w DeleteDirectoryResponse DeleteDirectoryResponse_zero
               DeleteDirectoryResponse_Status json_Unmarshal_DeleteDirectoryResponse
               ctx bucketUuid directoryUuid s in
  let status := DeleteDirectoryResponse_Status resp in
  snd run = s1
  /\ fst (fst run) = resp
  /\ (status = ErrCodeDirectoryNotFound ->
      snd (fst run) = EStorage ErrCodeDirectoryNotFound "directory does not exist" ENil)
  /\ (status = ErrCodeDirectoryDeleting ->
      snd (fst run) = EStorage ErrCodeDirectoryDeleting
                        "directory is already marked for deletion" ENil)
  /\ (status <> ErrCodeDirectoryNotFound -> status <> ErrCodeDirectoryDeleting ->
      snd (fst run) = ENil).
Proof.
  intros Hb Hd Hreq Hdec run status. subst run. unfold DeleteDirectory.
  rewrite Hb, Hd. cbn [orb]. unfold bind. rewrite Hreq, Hdec. fold status.
  destruct (Z.eqb_spec status ErrCodeDirectoryNotFound) as [E1|E1].
  - cbn. repeat split; try reflexivity; intros; try contradiction.
    rewrite E1 in H. discriminate H.
  - destruct (Z.eqb_spec status ErrCodeDirectoryDeleting) as [E2|E2].
    + cbn. repeat split; try reflexivity; intros; contradiction.
    + cbn. repeat split; try reflexivity; intros; contradiction.
Qed.

(** X11: the two directory codes are looked for in the body of a
    response that doRequest accepted only. When the server reports an
    error through an HTTP status of 400 or more with a decodable
    envelope, whatever status the envelope carries (40406003 included),
    DeleteDirectory returns the zero response and an error of code 500
    that wraps the APIError, after a single DELETE call. *)
Theorem DeleteDirectory_http_error_is_500 s bucketUuid directoryUuid url resp apiErr :
  (bucketUuid =? "")%string = false ->
  (directoryUuid =? "")%string = false ->
  requests.buildURL w
    ("/storage/buckets/" +++ bucketUuid +++ "/directories/" +++ directoryUuid) [] = Ok url ->
  http_NewRequest w "DELETE" url = None ->
  let req := requests.api_request "DELETE" url None requests.timeoutGet (credential s) in
  do_outcome w ctx s req = DoResp resp ->
  ReadErr resp = None ->
  400 <= StatusCode resp ->
  json_Unmarshal_APIError w (Body resp) = Ok apiErr ->
  DeleteDirectory w DeleteDirectoryResponse DeleteDirectoryResponse_zero
    DeleteDirectoryResponse_Status json_Unmarshal_DeleteDirectoryResponse
    ctx bucketUuid directoryUuid s
  = ((DeleteDirectoryResponse_zero,
      EStorage 500
        ("failed to delete directory " +++ directoryUuid +++ " in bucket " +++ bucketUuid)
        (EAPI apiErr)),
     advance s (clock s) [EvDo req]).
Proof.
  intros Hb Hd Hurl Hnew req Hout Hread Hstatus Hdec. unfold DeleteDirectory.
  rewrite Hb, Hd. cbn [orb]. unfold bind, requests.DeleteReq, requests.doRequest.
  rewrite Hurl. change (Z.to_nat requests.maxRetries) with 3%nat.
  rewrite (requests_props.loop_response w ctx "DELETE" url None requests.timeoutGet Hnew
             _ _ _ _ resp Hout).
  rewrite Hread, Hdec. apply Z.leb_le in Hstatus. rewrite Hstatus. reflexivity.
Qed.

(** X12: GetOrGenerateIPFSLink never returns an empty link with a nil
    error. A link it returns is the non-empty link of the decoded body
    of what GetReq returned; when that decoded link is empty the result
    is the error of code 404 "no IPFS link found for CID <cid>", with
    no wrapped error, in the state GetReq left. *)
Theorem IPFS_link_never_empty s cid :
  (forall link,
     fst (GetOrGenerateIPFSLink w IPFSLinkResponse IPFSLinkResponse_Data_Link
            json_Unmarshal_IPFSLinkResponse ctx cid s) = Ok link ->
     link <> ""
     /\ cid <> ""
     /\ exists res decoded,
          fst (requests.GetReq w ctx ("/storage/link-on-ipfs/" +++ cid) [] s) = Ok res
          /\ json_Unmarshal_IPFSLinkResponse res = Ok decoded
          /\ IPFSLinkResponse_Data_Link decoded = link)
  /\ (forall res s1 decoded,
        (cid =? "")%string = false ->
        requests.GetReq w ctx ("/storage/link-on-ipfs/" +++ cid) [] s = (Ok res, s1) ->
        json_Unmarshal_IPFSLinkResponse res = Ok decoded ->
        IPFSLinkResponse_Data_Link decoded = "" ->
        GetOrGenerateIPFSLink w IPFSLinkResponse IPFSLinkResponse_Data_Link
          json_Unmarshal_IPFSLinkResponse ctx cid s
        = (Err (EStorage 404 ("no IPFS link found for CID " +++ cid) ENil), s1)).
Proof.
  split.
  - intros link. unfold GetOrGenerateIPFSLink.
    destruct (cid =? "")%string eqn:Hcid; [discriminate|].
    unfold bind.
    destruct (requests.GetReq w ctx ("/storage/link-on-ipfs/" +++ cid) [] s)
      as [[res|e] s1]; [|discriminate].
    destruct (json_Unmarshal_IPFSLinkResponse res) as [decoded|e] eqn:Hdec; [|discriminate].
    destruct (IPFSLinkResponse_Data_Link decoded =? "")%string eqn:Hlink; [discriminate|].
    cbn. intros [= <-]. repeat split.
    + now apply String.eqb_neq.
    + now apply String.eqb_neq.
    + exists res, decoded. auto.
  - intros res s1 decoded Hcid Hreq Hdec Hlink. unfold GetOrGenerateIPFSLink.
    rewrite Hcid. unfold bind. rewrite Hreq, Hdec, Hlink. reflexivity.
Qed.

(** X13: GetBucket does not reject an empty name. When the bucket URL
    parses and a request can be built for it, the first thing GetBucket
    does is a GET with the credential, for the bucket path without any
    query when the name is empty and with the single parameter
    name=<name> otherwise; at most two more calls follow, and they are
    the same request. Whatever the library and the servers do, every
    call is such a GET. *)
Theorem GetBucket_name_filter s name :
  (exists t evs,
     snd (GetBucket w ListBucketsResponse json_Unmarshal_ListBucketsResponse ctx name s)
     = advance s t evs
     /\ Forall (fun r =>
                  req_method r = "GET"
                  /\ authorization r = Some ("Basic " +++ credential s)
                  /\ exists base,
                       url_Parse w (requests.baseURL +++ "/storage/buckets/") = Ok base
                       /\ req_url r = if (name =? "")%string then base
                                      else url_with_query w base [("name", name)])
          (do_calls evs))
  /\ (forall base,
        url_Parse w (requests.baseURL +++ "/storage/buckets/") = Ok base ->
        let url := if (name =? "")%string then base
                   else url_with_query w base [("name", name)] in
        http_NewRequest w "GET" url = None ->
        let req := requests.api_request "GET" url None requests.timeoutGet (credential s) in
        exists t evs,
          snd (GetBucket w ListBucketsResponse json_Unmarshal_ListBucketsResponse ctx name s)
          = advance s t (EvDo req :: evs)
          /\ do_calls evs = repeat req (length (do_calls evs))
          /\ (length (do_calls evs) <= 2)%nat).
Proof.
  split.
  - unfold GetBucket, bind, requests.GetReq.
    set (params := if negb (name =? "")%string then [("name", name)] else []).
    destruct (requests_props.doRequest_frame w ctx "GET" "/storage/buckets/" None params
                requests.timeoutGet s) as (t & evs & Hs & Hall).
    destruct (requests.doRequest w ctx "GET" "/storage/buckets/" None params
                requests.timeoutGet s) as [r s1].
    cbn [snd] in Hs. subst s1. exists t, evs. split.
    + destruct r as [res|e]; [|reflexivity].
      destruct (json_Unmarshal_ListBucketsResponse res); reflexivity.
    + eapply Forall_impl; [|exact Hall]. intros r0 (url & Hurl & Hr).
      rewrite (attempt_of_None _ _ _ _ _ Hr).
      split; [reflexivity|]. split; [reflexivity|].
      unfold requests.buildURL in Hurl.
      destruct (url_Parse w (requests.baseURL +++ "/storage/buckets/")) as [base|e];
        [|discriminate Hurl].
      exists base. split; [reflexivity|]. subst params.
      destruct (name =? "")%string; cbn in Hurl; now injection Hurl as <-.
  - intros base Hparse url Hnew req.
    assert (Hurl : requests.buildURL w "/storage/buckets/"
                     (if negb (name =? "")%string then [("name", name)] else []) = Ok url).
    { unfold requests.buildURL. rewrite Hparse. subst url.
      destruct (name =? "")%string; reflexivity. }
    unfold GetBucket, bind, requests.GetReq, requests.doRequest. rewrite Hurl.
    destruct (requests_more.loop_shape w ctx "GET" url requests.timeoutGet
                (Z.to_nat requests.maxRetries) None 0 ENil s)
      as (j & evs & _ & Hs & _ & Hlen & Hall & _ & Hfirst).
    change (Z.to_nat requests.maxRetries) with 3%nat in *.
    destruct (Hfirst Hnew ltac:(lia)) as (evs' & ->).
    destruct (requests.doRequest_loop w 3 0 ENil ctx "GET" url None requests.timeoutGet s)
      as [r s1].
    cbn [snd] in Hs. subst s1. eexists _, evs'. split.
    + destruct r as [res|e]; [|reflexivity].
      destruct (json_Unmarshal_ListBucketsResponse res); reflexivity.
    + cbn [do_calls length] in Hlen, Hall. apply Forall_inv_tail in Hall.
      split; [|lia].
      apply requests_more.Forall_eq_repeat.
      eapply Forall_impl; [|exact Hall]. intros r0. apply attempt_of_None.
Qed.

Lemma one_request_stay verb s : one_request verb s s.
Proof.
  exists (clock s), []. rewrite advance_nil. repeat split; [cbn; lia | constructor].
Qed.

Lemma one_request_doRequest method path body params timeout s :
  one_request method s (snd (requests.doRequest w ctx method path body params timeout s)).
Proof.
  destruct (requests_more.doRequest_frame_bounded w ctx method path body params timeout s)
    as (t & evs & Hs & Hall & Hlen).
  exists t, evs. split; [exact Hs|]. split; [exact Hlen|].
  eapply Forall_impl; [|exact Hall]. intros r (url & _ & b & _ & ->). split; reflexivity.
Qed.

Ltac wrapper_frame :=
  unfold bind, requests.GetReq, requests.DeleteReq, requests.PostReq;
  match goal with
  | |- context [requests.doRequest ?w0 ?c ?m ?p ?b ?ps ?to ?s0] =>
      pose proof (one_request_doRequest m p b ps to s0) as Hone;
      destruct (requests.doRequest w0 c m p b ps to s0) as [[res|e] s1];
      cbn [snd] in Hone;
      repeat match goal with
             | |- context [match ?d with Ok _ => _ | Err _ => _ end] => destruct d
             | |- context [if ?c0 then _ else _] => destruct c0
             end;
      exact Hone
  end.

(** X23: every wrapper is one doRequest at most: whatever the servers
    answer it makes at most 3 calls, all with its own verb (GET for the
    reads, DELETE for the two deletions, POST for CreateBucket) and the
    credential, and changes nothing else. *)
Theorem wrappers_one_request s (a b : string) :
  one_request "GET" s (snd (GetBucketContent w ctx a s))
  /\ one_request "GET" s
       (snd (ListFilesInBucket w ListFilesResponse json_Unmarshal_ListFilesResponse ctx a s))
  /\ one_request "GET" s
       (snd (GetFileDetails w FileDetails json_Unmarshal_FileDetails ctx a b s))
  /\ one_request "DELETE" s (snd (DeleteFile w ctx a b s))
  /\ one_request "DELETE" s
       (snd (DeleteDirectory w DeleteDirectoryResponse DeleteDirectoryResponse_zero
               DeleteDirectoryResponse_Status json_Unmarshal_DeleteDirectoryResponse
               ctx a b s))
  /\ one_request "GET" s
       (snd (GetOrGenerateIPFSLink w IPFSLinkResponse IPFSLinkResponse_Data_Link
               json_Unmarshal_IPFSLinkResponse ctx a s))
  /\ one_request "GET" s
       (snd (GetIPFSClusterInfo w IPFSClusterInfoResponse
               json_Unmarshal_IPFSClusterInfoResponse ctx s))
  /\ one_request "POST" s (snd (CreateBucket w json_Marshal_CreateBucketRequest ctx a b s))
  /\ one_request "GET" s
       (snd (GetBucket w ListBucketsResponse json_Unmarshal_ListBucketsResponse ctx a s)).
Proof.
  repeat split.
  - unfold GetBucketContent. destruct (a =? "")%string; [apply one_request_stay|].
    wrapper_frame.
  - unfold ListFilesInBucket. destruct (a =? "")%string; [apply one_request_stay|].
    wrapper_frame.
  - unfold GetFileDetails. destruct ((a =? "") || (b =? ""))%string;
      [apply one_request_stay|].
    wrapper_frame.
  - unfold DeleteFile. destruct ((a =? "") || (b =? ""))%string; [apply one_request_stay|].
    wrapper_frame.
  - unfold DeleteDirectory. destruct ((a =? "") || (b =? ""))%string;
      [apply one_request_stay|].
    wrapper_frame.
  - unfold GetOrGenerateIPFSLink. destruct (a =? "")%string; [apply one_request_stay|].
    wrapper_frame.
  - unfold GetIPFSClusterInfo. wrapper_frame.
  - unfold CreateBucket. destruct (a =? "")%string; [apply one_request_stay|].
    destruct (json_Marshal_CreateBucketRequest a b); [|apply one_request_stay].
    wrapper_frame.
  - unfold GetBucket. wrapper_frame.
Qed.

(** X20: CreateBucket does not look at the body of the response: when
    the first call is answered with a status below 400 it returns nil,
    whatever the body, after that single POST of the marshalled name and
    description to /storage/buckets. *)
Theorem CreateBucket_ignores_response_body s name description bodyBytes url resp :
  (name =? "")%string = false ->
  json_Marshal_CreateBucketRequest name description = Ok bodyBytes ->
  requests.buildURL w "/storage/buckets" [] = Ok url ->
  http_NewRequest w "POST" url = None ->
  let req := requests.api_request "POST" url (Some bodyBytes) requests.timeoutPost
               (credential s) in
  do_outcome w ctx s req = DoResp resp ->
  ReadErr resp = None ->
  StatusCode resp < 400 ->
  CreateBucket w json_Marshal_CreateBucketRequest ctx name description s
  = (Ok tt, advance s (clock s) [EvDo req]).
Proof.
  intros Hname Hmarshal Hurl Hnew req Hout Hread Hstatus.
  unfold CreateBucket. rewrite Hname, Hmarshal. unfold bind, requests.PostReq.
  rewrite (requests_more.doRequest_first_response w ctx "POST" "/storage/buckets"
             (Some bodyBytes) [] requests.timeoutPost s url resp Hurl Hnew Hout Hread Hstatus).
  reflexivity.
Qed.

(** X21: GetFileDetails, when its first call is answered with a status
    below 400, makes that one GET of /storage/buckets/<bucket>/files/<file>
    and returns the decoded body; a body that does not decode is an error
    of code 500 that wraps the decoding error, and is not asked for
    again. *)
Theorem GetFileDetails_decodes_first_response s bucketUuid fileUuid url resp :
  (bucketUuid =? "")%string = false ->
  (fileUuid =? "")%string = false ->
  requests.buildURL w ("/storage/buckets/" +++ bucketUuid +++ "/files/" +++ fileUuid) []
  = Ok url ->
  http_NewRequest w "GET" url = None ->
  let req := requests.api_request "GET" url None requests.timeoutGet (credential s) in
  do_outcome w ctx s req = DoResp resp ->
  ReadErr resp = None ->
  StatusCode resp < 400 ->
  GetFileDetails w FileDetails json_Unmarshal_FileDetails ctx bucketUuid fileUuid s
  = (match json_Unmarshal_FileDetails (Body resp) with
     | Ok fileDetails => Ok fileDetails
     | Err e =>
         Err (EStorage 500
                ("failed to unmarshal get file details response for file " +++ fileUuid
                 +++ " in bucket " +++ bucketUuid) e)
     end, advance s (clock s) [EvDo req]).
Proof.
  intros Hb Hf Hurl Hnew req Hout Hread Hstatus.
  unfold GetFileDetails. rewrite Hb, Hf. cbn [orb]. unfold bind, requests.GetReq.
  rewrite (requests_more.doRequest_first_response w ctx "GET" _ None [] requests.timeoutGet
             s url resp Hurl Hnew Hout Hread Hstatus).
  destruct (json_Unmarshal_FileDetails (Body resp)); reflexivity.
Qed.

End WrapperProps.

Lemma CreateBucket_ignores_response_body_witness :
  CreateBucket Scenarios.w_garbled Scenarios.sample_Marshal_bucket context_Background
    "photos" "" Scenarios.s0
  = (Ok tt,
     advance Scenarios.s0 0
       [EvDo (requests.api_request "POST" "https://api.apillon.io/storage/buckets"
                (Some ("{" +++ Scenarios.quoted "name" +++ ":" +++ Scenarios.quoted "photos"
                       +++ "}"))
                requests.timeoutPost "key-1")]).
Proof.
  apply (CreateBucket_ignores_response_body Scenarios.w_garbled context_Background
           Scenarios.sample_Marshal_bucket Scenarios.s0 "photos" "" _
           "https://api.apillon.io/storage/buckets"
           {| StatusCode := 200; Body := "<html>"; ReadErr := None |});
    reflexivity.
Defined.

Lemma GetFileDetails_decodes_first_response_witness :
  GetFileDetails Scenarios.w_garbled unit Scenarios.sample_Unmarshal_unit context_Background
    "b1" "f1" Scenarios.s0
  = (Err (EStorage 500
            "failed to unmarshal get file details response for file f1 in bucket b1"
            (ELib "invalid character")),
     advance Scenarios.s0 0
       [EvDo (requests.api_request "GET"
                "https://api.apillon.io/storage/buckets/b1/files/f1" None
                requests.timeoutGet "key-1")]).
Proof.
  apply (GetFileDetails_decodes_first_response Scenarios.w_garbled context_Background unit
           Scenarios.sample_Unmarshal_unit Scenarios.s0 "b1" "f1"
           "https://api.apillon.io/storage/buckets/b1/files/f1"
           {| StatusCode := 200; Body := "<html>"; ReadErr := None |});
    reflexivity.
Defined.

Lemma DeleteDirectory_status_mapping_witness :
  let run := DeleteDirectory Scenarios.w_dir_gone_body Z 0 (fun status => status)
               Scenarios.sample_Unmarshal_DeleteDirectory context_Background "b1" "d1"
               Scenarios.s0 in
  snd run
  = snd (requests.DeleteReq Scenarios.w_dir_gone_body context_Background
           "/storage/buckets/b1/directories/d1" Scenarios.s0)
  /\ fst (fst run) = 40406003
  /\ (40406003 = ErrCodeDirectoryNotFound ->
      snd (fst run) = EStorage ErrCodeDirectoryNotFound "directory does not exist" ENil)
  /\ (40406003 = ErrCodeDirectoryDeleting ->
      snd (fst run) = EStorage ErrCodeDirectoryDeleting
                        "directory is already marked for deletion" ENil)
  /\ (40406003 <> ErrCodeDirectoryNotFound -> 40406003 <> ErrCodeDirectoryDeleting ->
      snd (fst run) = ENil).
Proof.
  apply (DeleteDirectory_status_mapping Scenarios.w_dir_gone_body context_Background Z 0
           (fun status => status) Scenarios.sample_Unmarshal_DeleteDirectory
           Scenarios.s0 _ "b1" "d1" (Scenarios.dir_body "40406003") 40406003);
    reflexivity.
Defined.

Lemma DeleteDirectory_http_error_is_500_witness :
  DeleteDirectory Scenarios.w_dir_gone_http Z 0 (fun status => status)
    Scenarios.sample_Unmarshal_DeleteDirectory context_Background "b1" "d1" Scenarios.s0
  = ((0, EStorage 500 "failed to delete directory d1 in bucket b1"
           (EAPI {| Status := 40406003; Message := "gone" |})),
     advance Scenarios.s0 0
       [EvDo (requests.api_request "DELETE"
                "https://api.apillon.io/storage/buckets/b1/directories/d1" None
                requests.timeoutGet "key-1")]).
Proof.
  apply (DeleteDirectory_http_error_is_500 Scenarios.w_dir_gone_http context_Background Z 0
           (fun status => status) Scenarios.sample_Unmarshal_DeleteDirectory
           Scenarios.s0 "b1" "d1" "https://api.apillon.io/storage/buckets/b1/directories/d1"
           {| StatusCode := 404; Body := Scenarios.body_dir_gone; ReadErr := None |}
           {| Status := 40406003; Message := "gone" |});
    try reflexivity.
  cbn. lia.
Defined.

Lemma IPFS_link_never_empty_witness :
  ("https://ipfs.example/ipfs/cid-1" <> ""
   /\ "cid-1" <> ""
   /\ exists res decoded,
        fst (requests.GetReq Scenarios.w_link context_Background
               ("/storage/link-on-ipfs/" +++ "cid-1") [] Scenarios.s0) = Ok res
        /\ Scenarios.sample_Unmarshal_IPFSLink res = Ok decoded
        /\ decoded = "https://ipfs.example/ipfs/cid-1")
  /\ GetOrGenerateIPFSLink Scenarios.w_no_link string (fun link => link)
       Scenarios.sample_Unmarshal_IPFSLink context_Background "cid-1" Scenarios.s0
     = (Err (EStorage 404 "no IPFS link found for CID cid-1" ENil),
        advance Scenarios.s0 0
          [EvDo (requests.api_request "GET"
                   "https://api.apillon.io/storage/link-on-ipfs/cid-1" None
                   requests.timeoutGet "key-1")]).
Proof.
  split.
  - apply (proj1 (IPFS_link_never_empty Scenarios.w_link context_Background string
                    (fun link => link) Scenarios.sample_Unmarshal_IPFSLink Scenarios.s0
                    "cid-1")).
    reflexivity.
  - apply (proj2 (IPFS_link_never_empty Scenarios.w_no_link context_Background string
                    (fun link => link) Scenarios.sample_Unmarshal_IPFSLink Scenarios.s0
                    "cid-1") (Scenarios.link_body "") _ "");
      reflexivity.
Defined.

Lemma GetBucket_name_filter_witness :
  let req := requests.api_request "GET" "https://api.apillon.io/storage/buckets/" None
               requests.timeoutGet "key-1" in
  exists t evs,
    snd (GetBucket Scenarios.w_garbled unit Scenarios.sample_Unmarshal_unit
           context_Background "" Scenarios.s0)
    = advance Scenarios.s0 t (EvDo req :: evs)
    /\ do_calls evs = repeat req (length (do_calls evs))
    /\ (length (do_calls evs) <= 2)%nat.
Proof.
  apply (proj2 (GetBucket_name_filter Scenarios.w_garbled context_Background unit
                  Scenarios.sample_Unmarshal_unit Scenarios.s0 "")
           "https://api.apillon.io/storage/buckets/"); reflexivity.
Defined.

(** *** Session start *)

Lemma FileName_with_default m : FileName (with_default_content_type m) = FileName m.
Proof. unfold with_default_content_type. destruct (ContentType m =? "")%string; reflexivity. Qed.

Lemma ensure_content_types_named files : forall i,
  forallb named files = true ->
  ensure_content_types i files = Ok (map with_default_content_type files).
Proof.
  induction files as [|m files IH]; intros i Hall; [reflexivity|].
  cbn [forallb] in Hall. apply andb_true_iff in Hall. destruct Hall as [Hm Hall].
  cbn [ensure_content_types map]. fold (with_default_content_type m).
  rewrite FileName_with_default. unfold named in Hm. apply negb_true_iff in Hm.
  rewrite Hm, (IH (i + 1) Hall). reflexivity.
Qed.

Lemma ensure_content_types_nameless pre m post : forall i,
  forallb named pre = true ->
  FileName m = "" ->
  ensure_content_types i (pre ++ m :: post)
  = Err (EStorage ErrCodeInvalidInput
           ("file at index " +++ string_of_Z (i + Z.of_nat (length pre)) +++ " has no name")
           ENil).
Proof.
  induction pre as [|p pre IH]; intros i Hall Hm.
  - cbn [app ensure_content_types length Z.of_nat]. fold (with_default_content_type m).
    rewrite FileName_with_default, Hm, Z.add_0_r. reflexivity.
  - cbn [forallb] in Hall. apply andb_true_iff in Hall. destruct Hall as [Hp Hall].
    cbn [app ensure_content_types]. fold (with_default_content_type p).
    rewrite FileName_with_default. unfold named in Hp. apply negb_true_iff in Hp.
    rewrite Hp, (IH (i + 1) Hall Hm). cbn [length].
    replace (i + 1 + Z.of_nat (length pre)) with (i + Z.of_nat (S (length pre))) by lia.
    reflexivity.
Qed.

(** X9: StartUploadFilesToBucket with a file that has no name returns
    ErrCodeInvalidInput with the index (from 0) of the first such file
    in its message, and makes no call. *)
Theorem StartUpload_reports_first_nameless w ctx bucketUuid pre m post s :
  (bucketUuid =? "")%string = false ->
  forallb named pre = true ->
  FileName m = "" ->
  StartUploadFilesToBucket w ctx bucketUuid (pre ++ m :: post) s
  = (Err (EStorage ErrCodeInvalidInput
            ("file at index " +++ string_of_Z (Z.of_nat (length pre)) +++ " has no name")
            ENil), s).
Proof.
  intros Hb Hpre Hm. unfold StartUploadFilesToBucket. rewrite Hb.
  destruct (length (pre ++ m :: post) =? 0)%nat eqn:Hlen.
  { apply Nat.eqb_eq in Hlen. rewrite length_app in Hlen. cbn in Hlen. lia. }
  rewrite (ensure_content_types_nameless pre m post 0 Hpre Hm). reflexivity.
Qed.

Lemma StartUpload_reports_first_nameless_witness :
  StartUploadFilesToBucket Scenarios.w_surplus context_Background "b1"
    ([Metadata Scenarios.file_a; Metadata Scenarios.file_b]
     ++ {| FileName := ""; ContentType := "text/plain"; Path := "" |}
        :: [Metadata Scenarios.file_c]) Scenarios.s0
  = (Err (EStorage ErrCodeInvalidInput "file at index 2 has no name" ENil), Scenarios.s0).
Proof.
  apply (StartUpload_reports_first_nameless Scenarios.w_surplus context_Background "b1"
           [Metadata Scenarios.file_a; Metadata Scenarios.file_b]
           {| FileName := ""; ContentType := "text/plain"; Path := "" |}
           [Metadata Scenarios.file_c] Scenarios.s0); reflexivity.
Defined.

(** X14: with a bucket id and named files, StartUploadFilesToBucket
    posts the marshalled list of the files in which every missing
    content type is replaced by "text/plain": names, paths, order and the
    content types that were given are kept, and no file is sent without
    a content type. Its result is that of the POST, an error being
    wrapped with code 500. *)
Theorem StartUpload_defaults_content_type w ctx bucketUuid files s bodyBytes :
  (bucketUuid =? "")%string = false ->
  files <> [] ->
  forallb named files = true ->
  let sent := map with_default_content_type files in
  json_Marshal_startUploadRequest w sent = Ok bodyBytes ->
  let post := requests.PostReq w ctx ("/storage/buckets/" +++ bucketUuid +++ "/upload")
                (Some bodyBytes) s in
  StartUploadFilesToBucket w ctx bucketUuid files s
  = (match fst post with
     | Err e => Err (EStorage 500 "failed to start upload session" e)
     | Ok res => Ok res
     end, snd post)
  /\ map FileName sent = map FileName files
  /\ map Path sent = map Path files
  /\ Forall (fun m => ContentType m <> "") sent
  /\ Forall (fun m => ContentType m <> "" -> with_default_content_type m = m) files.
Proof.
  intros Hb Hne Hnamed sent Hmarshal post. split.
  - unfold StartUploadFilesToBucket. rewrite Hb.
    destruct files as [|m files']; [contradiction|]. cbn [length Nat.eqb].
    rewrite (ensure_content_types_named (m :: files') 0 Hnamed). fold sent.
    rewrite Hmarshal. unfold bind. fold post. destruct post as [[res|e] s1]; reflexivity.
  - subst sent. rewrite !map_map. repeat split.
    + apply map_ext. intros m. apply FileName_with_default.
    + apply map_ext. intros m. unfold with_default_content_type.
      destruct (ContentType m =? "")%string; reflexivity.
    + apply Forall_map, Forall_forall. intros m _. unfold with_default_content_type.
      destruct (ContentType m =? "")%string eqn:E; [discriminate|].
      now apply String.eqb_neq.
    + apply Forall_forall. intros m _ Hct. unfold with_default_content_type.
      apply String.eqb_neq in Hct. now rewrite Hct.
Qed.

Lemma StartUpload_defaults_content_type_witness :
  let files := [Metadata Scenarios.file_a; Metadata Scenarios.file_b] in
  let sent := [Metadata Scenarios.file_a;
               {| FileName := "b.txt"; ContentType := "text/plain"; Path := "" |}] in
  let post := requests.PostReq Scenarios.w_surplus context_Background
                "/storage/buckets/b1/upload"
                (Some (Scenarios.json_process_request sent)) Scenarios.s0 in
  StartUploadFilesToBucket Scenarios.w_surplus context_Background "b1" files Scenarios.s0
  = (match fst post with
     | Err e => Err (EStorage 500 "failed to start upload session" e)
     | Ok res => Ok res
     end, snd post)
  /\ map FileName sent = map FileName files
  /\ map Path sent = map Path files
  /\ Forall (fun m => ContentType m <> "") sent
  /\ Forall (fun m => ContentType m <> "" -> with_default_content_type m = m) files.
Proof.
  apply (StartUpload_defaults_content_type Scenarios.w_surplus context_Background "b1"
           [Metadata Scenarios.file_a; Metadata Scenarios.file_b] Scenarios.s0);
    [reflexivity | discriminate | reflexivity | reflexivity].
Defined.

(** *** The orchestration, whatever the servers answer *)

Section Orchestration.

Variable w : World.
Variable ctx : Context.

Lemma PostReq_frame path body s :
  exists t evs,
    snd (requests.PostReq w ctx path body s) = advance s t evs
    /\ Forall (api_post (credential s)) (do_calls evs)
    /\ (length (do_calls evs) <= 3)%nat.
Proof.
  destruct (requests_more.doRequest_frame_bounded w ctx "POST" path body []
              requests.timeoutPost s) as (t & evs & Hs & Hall & Hlen).
  exists t, evs. split; [exact Hs|]. split; [|exact Hlen].
  eapply Forall_impl; [|exact Hall]. intros r (url & _ & b & _ & ->). split; reflexivity.
Qed.

Lemma stay_frame (P : Request -> Prop) n s :
  exists t evs, s = advance s t evs /\ Forall P (do_calls evs)
                /\ (length (do_calls evs) <= n)%nat.
Proof.
  exists (clock s), []. rewrite advance_nil. repeat split; [constructor | cbn; lia].
Qed.

Lemma StartUpload_frame_auth bucketUuid metas s :
  exists t evs,
    snd (StartUploadFilesToBucket w ctx bucketUuid metas s) = advance s t evs
    /\ Forall (api_post (credential s)) (do_calls evs)
    /\ (length (do_calls evs) <= 3)%nat.
Proof.
  unfold StartUploadFilesToBucket.
  destruct (bucketUuid =? "")%string; [apply stay_frame|].
  destruct (length metas =? 0)%nat; [apply stay_frame|].
  destruct (ensure_content_types 0 metas) as [metas'|e]; [|apply stay_frame].
  destruct (json_Marshal_startUploadRequest w metas') as [bodyBytes|e]; [|apply stay_frame].
  unfold bind.
  destruct (PostReq_frame ("/storage/buckets/" +++ bucketUuid +++ "/upload")
              (Some bodyBytes) s) as (t & evs & Hs & Hall).
  destruct (requests.PostReq w ctx _ (Some bodyBytes) s) as [r s1].
  cbn [snd] in Hs. subst s1. exists t, evs. split; [destruct r; reflexivity | exact Hall].
Qed.

Lemma EndSession_frame bucketUuid sessionId s :
  exists t evs,
    snd (EndSession w ctx bucketUuid sessionId s) = advance s t evs
    /\ Forall (api_post (credential s)) (do_calls evs)
    /\ (length (do_calls evs) <= 3)%nat.
Proof.
  unfold EndSession.
  destruct ((bucketUuid =? "") || (sessionId =? ""))%string; [apply stay_frame|].
  unfold bind.
  destruct (PostReq_frame ("/storage/buckets/" +++ bucketUuid +++ "/upload/" +++ sessionId
                           +++ "/end") None s) as (t & evs & Hs & Hall).
  destruct (requests.PostReq w ctx _ None s) as [r s1].
  cbn [snd] in Hs. subst s1. exists t, evs. split; [destruct r; reflexivity | exact Hall].
Qed.

Lemma UploadFiles_frame signedURL rawFile s :
  exists reqs,
    snd (UploadFiles w ctx signedURL rawFile s) = advance s (clock s) (map EvDo reqs)
    /\ Forall bare_put reqs /\ (length reqs <= 1)%nat.
Proof.
  assert (Hstay : exists reqs, s = advance s (clock s) (map EvDo reqs)
                               /\ Forall bare_put reqs /\ (length reqs <= 1)%nat).
  { exists []. cbn. rewrite advance_nil. repeat split; [constructor | lia]. }
  unfold UploadFiles.
  destruct (signedURL =? "")%string; [exact Hstay|].
  destruct (rawFile =? "")%string; [exact Hstay|].
  destruct (http_NewRequest w "PUT" signedURL); [exact Hstay|].
  unfold bind. rewrite client_Do_eq.
  exists [put_request signedURL rawFile]. split; [|split].
  - destruct (do_outcome w ctx s (put_request signedURL rawFile)) as [e|resp]; [reflexivity|].
    destruct ((StatusCode resp <? 200) || (300 <=? StatusCode resp)); reflexivity.
  - constructor; [split; reflexivity | constructor].
  - cbn. lia.
Qed.

Lemma upload_loop_frame urls files : forall i s,
  exists reqs,
    snd (upload_loop w ctx urls i files s) = advance s (clock s) (map EvDo reqs)
    /\ Forall bare_put reqs /\ (length reqs <= length files)%nat.
Proof.
  induction files as [|f files IH]; intros i s.
  - exists []. cbn. rewrite advance_nil. repeat split; [constructor | lia].
  - cbn [upload_loop]. unfold bind at 1.
    destruct (UploadFiles_frame (nth i urls "") (Content f) s) as (reqs & Hs & Hall & Hlen).
    destruct (UploadFiles w ctx (nth i urls "") (Content f) s) as [[u|e] s1];
      cbn [snd] in Hs; subst s1.
    + destruct (IH (S i) (advance s (clock s) (map EvDo reqs)))
        as (reqs' & Hs' & Hall' & Hlen').
      exists (reqs ++ reqs'). rewrite Hs', advance_advance, map_app. cbn [clock advance].
      repeat split; [now apply Forall_app | rewrite length_app; cbn [length]; lia].
    + exists reqs. cbn [snd ret]. repeat split; [exact Hall | cbn [length]; lia].
Qed.

Lemma UploadFileProcess_frame bucketUuid files s :
  exists t evs,
    snd (UploadFileProcess w ctx bucketUuid files s) = advance s t evs
    /\ Forall (process_call (credential s)) (do_calls evs)
    /\ (length (do_calls evs) <= 6 + length files)%nat.
Proof.
  assert (Hweaken : forall n evs,
            Forall (api_post (credential s)) (do_calls evs)
            /\ (length (do_calls evs) <= n)%nat ->
            (n <= 6 + length files)%nat ->
            Forall (process_call (credential s)) (do_calls evs)
            /\ (length (do_calls evs) <= 6 + length files)%nat).
  { intros n evs [Hall Hlen] Hn. split; [|lia].
    eapply Forall_impl; [|exact Hall]. intros r0 H. now left. }
  unfold UploadFileProcess.
  destruct (bucketUuid =? "")%string; [apply stay_frame|].
  destruct (length files =? 0)%nat; [apply stay_frame|].
  destruct (extract_metadata files) as [onlyMetadata|e]; [|apply stay_frame].
  unfold bind at 1.
  destruct (StartUpload_frame_auth bucketUuid onlyMetadata s)
    as (t1 & evs1 & Hs1 & Hall1 & Hlen1).
  destruct (StartUploadFilesToBucket w ctx bucketUuid onlyMetadata s) as [r s1].
  cbn [snd] in Hs1. subst s1.
  assert (Hstart : exists t evs,
            advance s t1 evs1 = advance s t evs
            /\ Forall (process_call (credential s)) (do_calls evs)
            /\ (length (do_calls evs) <= 6 + length files)%nat).
  { exists t1, evs1. split; [reflexivity|]. apply (Hweaken 3%nat); [auto | lia]. }
  destruct r as [res|e]; [|exact Hstart].
  destruct (json_Unmarshal_ProcessAPIResponse w res) as [apiResp|e]; [|exact Hstart].
  destruct (length (extract_urls (Files (Data apiResp))) =? 0)%nat; [exact Hstart|].
  destruct (length (extract_urls (Files (Data apiResp))) <? length files)%nat;
    [exact Hstart|].
  unfold bind at 1, time_Sleep. rewrite advance_advance. unfold bind at 1.
  destruct (upload_loop_frame (extract_urls (Files (Data apiResp))) files 0%nat
              (advance s (clock (advance s t1 evs1) + Z.max 0 urlReadyDelay)
                 (evs1 ++ [EvSleep urlReadyDelay])))
    as (reqs & Hs2 & Hall2 & Hlen2).
  destruct (upload_loop w ctx (extract_urls (Files (Data apiResp))) 0 files _) as [r2 s2].
  cbn [snd] in Hs2. subst s2. rewrite advance_advance.
  assert (Huploads :
            Forall (process_call (credential s))
              (do_calls ((evs1 ++ [EvSleep urlReadyDelay]) ++ map EvDo reqs))
            /\ (length (do_calls ((evs1 ++ [EvSleep urlReadyDelay]) ++ map EvDo reqs))
                <= 3 + length files)%nat).
  { rewrite !do_calls_app, do_calls_map_EvDo. cbn [do_calls]. rewrite app_nil_r. split.
    - apply Forall_app. split.
      + eapply Forall_impl; [|exact Hall1]. intros r0 H. now left.
      + eapply Forall_impl; [|exact Hall2]. intros r0 H. now right.
    - rewrite length_app. lia. }
  destruct Huploads as [Hup1 Hup2].
  destruct r2 as [u|e]; [|eexists _, _; split; [reflexivity | split; [exact Hup1 | lia]]].
  unfold bind.
  destruct (EndSession_frame bucketUuid (SessionUUID (Data apiResp))
              (advance s
                 (clock (advance s (clock (advance s t1 evs1) + Z.max 0 urlReadyDelay)
                           (evs1 ++ [EvSleep urlReadyDelay])))
                 ((evs1 ++ [EvSleep urlReadyDelay]) ++ map EvDo reqs)))
    as (t3 & evs3 & Hs3 & Hall3 & Hlen3).
  destruct (EndSession w ctx bucketUuid (SessionUUID (Data apiResp)) _) as [r3 s3].
  cbn [snd] in Hs3. subst s3. rewrite advance_advance. rewrite credential_advance in Hall3.
  eexists _, _. split; [destruct r3; reflexivity|].
  rewrite do_calls_app. split.
  - apply Forall_app. split; [exact Hup1|].
    eapply Forall_impl; [|exact Hall3]. intros r0 H. now left.
  - rewrite length_app. lia.
Qed.


(** X22: one UploadFileProcess makes at most 6 client.Do calls more
    than there are files (3 for session start, one per file, 3 for
    session end), whatever the servers answer. *)
Theorem UploadFileProcess_call_budget bucketUuid files s :
  exists t evs,
    snd (UploadFileProcess w ctx bucketUuid files s) = advance s t evs
    /\ (length (do_calls evs) <= 6 + length files)%nat.
Proof.
  destruct (UploadFileProcess_frame bucketUuid files s) as (t & evs & Hs & _ & Hlen).
  now exists t, evs.
Qed.

(** The PUTs of the upload loop are an initial part of the pairing of
    URLs and files, complete when the loop succeeds. *)
Lemma upload_loop_prefix urls : forall files i s,
  Forall (fun u => u <> "") urls ->
  forallb valid_file files = true ->
  (i + length files <= length urls)%nat ->
  exists k,
    (k <= length files)%nat
    /\ snd (upload_loop w ctx urls i files s)
       = advance s (clock s)
           (map EvDo (firstn k (upload_requests (combine (skipn i urls) files))))
    /\ (is_ok (fst (upload_loop w ctx urls i files s)) = true -> k = length files).
Proof.
  induction files as [|f files IH]; intros i s Hurls Hvalid Hlen.
  - exists 0%nat. cbn. rewrite advance_nil. auto.
  - cbn [length] in Hlen. cbn [forallb] in Hvalid.
    apply andb_true_iff in Hvalid. destruct Hvalid as [Hf Hvalid].
    assert (Hu : nth i urls "" <> "").
    { rewrite Forall_forall in Hurls. apply Hurls, nth_In. lia. }
    pose proof (storage_props.valid_file_content f Hf) as Hc.
    rewrite (storage_props.skipn_nth_cons urls i) by lia.
    cbn [combine upload_requests map fst snd].
    destruct (upload_accepted w ctx (clock s) (length (do_calls (trace s)))
                (nth i urls "") (Content f)) eqn:Hacc.
    + assert (Heq : upload_loop w ctx urls i (f :: files) s
                    = upload_loop w ctx urls (S i) files
                        (advance s (clock s)
                           [EvDo (put_request (nth i urls "") (Content f))])).
      { cbn [upload_loop]. unfold bind at 1.
        now rewrite (storage_props.UploadFiles_accepted w ctx _ _ s Hu Hc Hacc). }
      rewrite Heq.
      destruct (IH (S i) (advance s (clock s) [EvDo (put_request (nth i urls "") (Content f))])
                  Hurls Hvalid) as (k & Hk & Hs & Hok); [lia|].
      exists (S k). split; [cbn [length]; lia|]. split.
      * rewrite Hs, advance_advance. reflexivity.
      * intros H. cbn [length]. f_equal. exact (Hok H).
    + destruct (storage_props.UploadFiles_rejected w ctx _ _ s Hu Hc Hacc) as [e He].
      assert (Heq : upload_loop w ctx urls i (f :: files) s
                    = (Err (EWrap ("failed to upload file " +++ FileName (Metadata f) +++ ": ")
                              e),
                       advance s (clock s) (upload_events w (nth i urls "") (Content f)))).
      { cbn [upload_loop]. unfold bind. now rewrite He. }
      rewrite Heq. cbn [fst snd is_ok]. unfold upload_events.
      destruct (http_NewRequest w "PUT" (nth i urls "")).
      * exists 0%nat. split; [lia|]. split; [reflexivity | discriminate].
      * exists 1%nat. split; [cbn [length]; lia|]. split; [reflexivity | discriminate].
Qed.

(** X15: whatever the signed URLs answer, the uploads go out in the
    order of the files, the i-th file to the i-th URL, with no file
    skipped: after session start and the 2s sleep the PUTs are an initial
    part of that pairing, and session-end calls are made only after the
    PUT of the last file. *)
Theorem uploads_in_order_without_gaps bucketUuid files s s1 apiResp :
  let urls := extract_urls (Files (Data apiResp)) in
  session_started w ctx bucketUuid files s s1 apiResp ->
  (length files <= length urls)%nat ->
  exists k t evs_end,
    (k <= length files)%nat
    /\ snd (UploadFileProcess w ctx bucketUuid files s)
       = advance s1 t
           (EvSleep urlReadyDelay
            :: map EvDo (firstn k (upload_requests (combine urls files))) ++ evs_end)
    /\ ((k < length files)%nat -> evs_end = [])
    /\ Forall (api_post (credential s1)) (do_calls evs_end).
Proof.
  intros urls Hstarted Hlen.
  pose proof (storage_props.files_positive w ctx bucketUuid files s s1 apiResp Hstarted)
    as Hpos.
  rewrite (storage_props.process_from_response w ctx bucketUuid files s s1 apiResp Hstarted).
  fold urls.
  destruct (length urls =? 0)%nat eqn:H0; [apply Nat.eqb_eq in H0; lia|].
  destruct (length urls <? length files)%nat eqn:H1; [apply Nat.ltb_lt in H1; lia|].
  destruct Hstarted as (_ & _ & Hvalid & _).
  destruct (upload_loop_prefix urls files 0
              (advance s1 (clock s1 + urlReadyDelay) [EvSleep urlReadyDelay])
              (storage_props.extract_urls_nonempty _) Hvalid Hlen) as (k & Hk & Hs & Hok).
  cbn [skipn] in Hs.
  destruct (upload_loop w ctx urls 0 files _) as [[u|e] s2]; cbn [fst snd is_ok] in *;
    subst s2; rewrite advance_advance.
  - specialize (Hok eq_refl). subst k.
    destruct (EndSession_frame bucketUuid (SessionUUID (Data apiResp))
                (advance s1 (clock (advance s1 (clock s1 + urlReadyDelay)
                                      [EvSleep urlReadyDelay]))
                   ([EvSleep urlReadyDelay]
                    ++ map EvDo (firstn (length files)
                                   (upload_requests (combine urls files))))))
      as (t3 & evs3 & Hs3 & Hall3 & _).
    destruct (EndSession w ctx bucketUuid (SessionUUID (Data apiResp)) _) as [r3 s3].
    cbn [snd] in Hs3. subst s3. rewrite advance_advance. rewrite credential_advance in Hall3.
    exists (length files), t3, evs3. split; [lia|]. split.
    + cbn [snd app]. reflexivity.
    + split; [lia | exact Hall3].
  - exists k, (clock (advance s1 (clock s1 + urlReadyDelay) [EvSleep urlReadyDelay])), [].
    split; [exact Hk|]. split; [cbn [app]; now rewrite app_nil_r|].
    split; [reflexivity | constructor].
Qed.

(** X16: when session start fails, or answers with a body that does
    not decode, UploadFileProcess stops in the state session start left:
    no sleep and no upload follow. The error of session start is wrapped
    as "failed to start upload session: ..."; the decoding error is
    returned with code 500. *)
Theorem session_start_failure_stops bucketUuid files s :
  (bucketUuid =? "")%string = false ->
  files <> [] ->
  forallb valid_file files = true ->
  let start := StartUploadFilesToBucket w ctx bucketUuid (map Metadata files) s in
  (forall e, fst start = Err e ->
     UploadFileProcess w ctx bucketUuid files s
     = (Err (EWrap "failed to start upload session: " e), snd start))
  /\ (forall res e, fst start = Ok res ->
       json_Unmarshal_ProcessAPIResponse w res = Err e ->
       UploadFileProcess w ctx bucketUuid files s
       = (Err (EStorage 500 "failed to unmarshal process upload response" e), snd start))
  /\ exists t evs,
       snd start = advance s t evs /\ Forall (api_post (credential s)) (do_calls evs).
Proof.
  intros Hb Hne Hvalid start. subst start.
  assert (Hlen0 : (length files =? 0)%nat = false)
    by (destruct files; [contradiction | reflexivity]).
  assert (Hframe : exists t evs,
            snd (StartUploadFilesToBucket w ctx bucketUuid (map Metadata files) s)
            = advance s t evs
            /\ Forall (api_post (credential s)) (do_calls evs)).
  { destruct (StartUpload_frame_auth bucketUuid (map Metadata files) s)
      as (t & evs & Hs & Hall & _).
    now exists t, evs. }
  unfold UploadFileProcess, bind.
  rewrite Hb, Hlen0, (storage_props.extract_metadata_valid files Hvalid).
  destruct (StartUploadFilesToBucket w ctx bucketUuid (map Metadata files) s) as [r s1].
  cbn [fst snd] in *. split; [|split].
  - intros e ->. reflexivity.
  - intros res e -> Hdec. rewrite Hdec. reflexivity.
  - exact Hframe.
Qed.

(** X17: the session id of the session-start response is looked at
    only when the session is ended. When every upload is accepted and
    the response carries an empty session id, all the files have been
    uploaded when EndSession rejects the id: UploadFileProcess returns
    that ErrCodeInvalidInput error, wrapped, without a session-end call. *)
Theorem empty_session_id_fails_after_uploads bucketUuid files s s1 apiResp :
  let urls := extract_urls (Files (Data apiResp)) in
  let now := clock s1 + urlReadyDelay in
  session_started w ctx bucketUuid files s s1 apiResp ->
  (length files <= length urls)%nat ->
  uploads_accepted w ctx now (length (do_calls (trace s1))) (combine urls files) = true ->
  SessionUUID (Data apiResp) = "" ->
  UploadFileProcess w ctx bucketUuid files s
  = (Err (EWrap "failed to end upload session: "
            (EStorage ErrCodeInvalidInput "bucket UUID and session ID cannot be empty" ENil)),
     advance s1 now
       (EvSleep urlReadyDelay :: map EvDo (upload_requests (combine urls files)))).
Proof.
  intros urls now Hstarted Hlen Hacc Hsession.
  pose proof (storage_props.files_positive w ctx bucketUuid files s s1 apiResp Hstarted)
    as Hpos.
  rewrite (storage_props.process_from_response w ctx bucketUuid files s s1 apiResp Hstarted).
  fold urls.
  destruct (length urls =? 0)%nat eqn:H0; [apply Nat.eqb_eq in H0; lia|].
  destruct (length urls <? length files)%nat eqn:H1; [apply Nat.ltb_lt in H1; lia|].
  destruct Hstarted as (_ & _ & Hvalid & _).
  rewrite (storage_props.upload_loop_accepted w ctx urls files 0).
  - cbn [skipn]. rewrite advance_advance. cbn [clock advance app]. fold now.
    unfold EndSession. rewrite Hsession. cbn [String.eqb]. rewrite orb_true_r. reflexivity.
  - apply storage_props.extract_urls_nonempty.
  - exact Hvalid.
  - exact Hlen.
  - cbn [clock trace advance skipn]. rewrite do_calls_app, length_app. cbn [do_calls length].
    rewrite Nat.add_0_r. exact Hacc.
Qed.

(** X19: when every upload is accepted and the first session-end call
    is answered with a status below 400, UploadFileProcess returns the
    body of that answer with a nil error, after exactly: session start,
    the 2s sleep, one PUT per file in order, one session-end POST. *)
Theorem upload_returns_session_end_body bucketUuid files s s1 apiResp url resp :
  let urls := extract_urls (Files (Data apiResp)) in
  let now := clock s1 + urlReadyDelay in
  let s2 := advance s1 now
              (EvSleep urlReadyDelay :: map EvDo (upload_requests (combine urls files))) in
  let end_req := requests.api_request "POST" url None requests.timeoutPost (credential s1) in
  session_started w ctx bucketUuid files s s1 apiResp ->
  (length files <= length urls)%nat ->
  uploads_accepted w ctx now (length (do_calls (trace s1))) (combine urls files) = true ->
  (SessionUUID (Data apiResp) =? "")%string = false ->
  requests.buildURL w
    ("/storage/buckets/" +++ bucketUuid +++ "/upload/" +++ SessionUUID (Data apiResp)
     +++ "/end") [] = Ok url ->
  http_NewRequest w "POST" url = None ->
  do_outcome w ctx s2 end_req = DoResp resp ->
  ReadErr resp = None ->
  StatusCode resp < 400 ->
  UploadFileProcess w ctx bucketUuid files s
  = (Ok (Body resp), advance s2 now [EvDo end_req]).
Proof.
  intros urls now s2 end_req Hstarted Hlen Hacc Hsession Hurl Hnew Hout Hread Hstatus.
  pose proof (storage_props.files_positive w ctx bucketUuid files s s1 apiResp Hstarted)
    as Hpos.
  rewrite (storage_props.process_from_response w ctx bucketUuid files s s1 apiResp Hstarted).
  fold urls.
  destruct (length urls =? 0)%nat eqn:H0; [apply Nat.eqb_eq in H0; lia|].
  destruct (length urls <? length files)%nat eqn:H1; [apply Nat.ltb_lt in H1; lia|].
  destruct Hstarted as (Hb & _ & Hvalid & _).
  rewrite (storage_props.upload_loop_accepted w ctx urls files 0).
  - cbn [skipn]. rewrite advance_advance. cbn [clock advance app]. fold now. fold s2.
    unfold EndSession. rewrite Hb, Hsession. cbn [orb].
    unfold bind, requests.PostReq, requests.doRequest. rewrite Hurl.
    change (Z.to_nat requests.maxRetries) with 3%nat.
    assert (Hcred : credential s2 = credential s1) by apply credential_advance.
    rewrite (requests_props.loop_response w ctx "POST" url None requests.timeoutPost Hnew
               _ _ _ _ resp).
    2:{ rewrite Hcred. exact Hout. }
    rewrite Hread, Hcred. apply Z.leb_gt in Hstatus. rewrite Hstatus. reflexivity.
  - apply storage_props.extract_urls_nonempty.
  - exact Hvalid.
  - exact Hlen.
  - cbn [clock trace advance skipn]. rewrite do_calls_app, length_app. cbn [do_calls length].
    rewrite Nat.add_0_r. exact Hacc.
Qed.

End Orchestration.

Lemma uploads_in_order_without_gaps_witness :
  let s1 := snd (StartUploadFilesToBucket Scenarios.w_second_fails context_Background "b1"
                   (map Metadata [Scenarios.file_a; Scenarios.file_b; Scenarios.file_c])
                   Scenarios.s0) in
  exists k t evs_end,
    (k <= 3)%nat
    /\ snd (UploadFileProcess Scenarios.w_second_fails context_Background "b1"
              [Scenarios.file_a; Scenarios.file_b; Scenarios.file_c] Scenarios.s0)
       = advance s1 t
           (EvSleep urlReadyDelay
            :: map EvDo
                 (firstn k [put_request "https://s3/u0" "alpha";
                            put_request "https://s3/u1" "beta";
                            put_request "https://s3/u2" "gamma"]) ++ evs_end)
    /\ ((k < 3)%nat -> evs_end = [])
    /\ Forall (api_post (credential s1)) (do_calls evs_end).
Proof.
  intros s1.
  apply (uploads_in_order_without_gaps Scenarios.w_second_fails context_Background "b1"
           [Scenarios.file_a; Scenarios.file_b; Scenarios.file_c] Scenarios.s0 s1
           (Scenarios.process_response "sess-1"
              ["https://s3/u0"; "https://s3/u1"; "https://s3/u2"])).
  - repeat split; [discriminate|]. exists Scenarios.three_response. split; reflexivity.
  - cbn. lia.
Defined.

Lemma session_start_failure_stops_witness :
  let start := StartUploadFilesToBucket Scenarios.w_garbled context_Background "b1"
                 (map Metadata [Scenarios.file_a]) Scenarios.s0 in
  (forall e, fst start = Err e ->
     UploadFileProcess Scenarios.w_garbled context_Background "b1" [Scenarios.file_a]
       Scenarios.s0
     = (Err (EWrap "failed to start upload session: " e), snd start))
  /\ (forall res e, fst start = Ok res ->
       json_Unmarshal_ProcessAPIResponse Scenarios.w_garbled res = Err e ->
       UploadFileProcess Scenarios.w_garbled context_Background "b1" [Scenarios.file_a]
         Scenarios.s0
       = (Err (EStorage 500 "failed to unmarshal process upload response" e), snd start))
  /\ exists t evs,
       snd start = advance Scenarios.s0 t evs
       /\ Forall (api_post (credential Scenarios.s0)) (do_calls evs).
Proof.
  apply (session_start_failure_stops Scenarios.w_garbled context_Background "b1"
           [Scenarios.file_a] Scenarios.s0); [reflexivity | discriminate | reflexivity].
Defined.

Lemma empty_session_id_fails_after_uploads_witness :
  let s1 := snd (StartUploadFilesToBucket Scenarios.w_no_session context_Background "b1"
                   (map Metadata [Scenarios.file_a; Scenarios.file_b]) Scenarios.s0) in
  UploadFileProcess Scenarios.w_no_session context_Background "b1"
    [Scenarios.file_a; Scenarios.file_b] Scenarios.s0
  = (Err (EWrap "failed to end upload session: "
            (EStorage ErrCodeInvalidInput "bucket UUID and session ID cannot be empty" ENil)),
     advance s1 (2 * second)
       [EvSleep urlReadyDelay;
        EvDo (put_request "https://s3/u0" "alpha");
        EvDo (put_request "https://s3/u1" "beta")]).
Proof.
  intros s1.
  apply (empty_session_id_fails_after_uploads Scenarios.w_no_session context_Background "b1"
           [Scenarios.file_a; Scenarios.file_b] Scenarios.s0 s1
           (Scenarios.process_response "" ["https://s3/u0"; "https://s3/u1"])).
  - repeat split; [discriminate|]. exists Scenarios.no_session_response. split; reflexivity.
  - cbn. lia.
  - reflexivity.
  - reflexivity.
Defined.

Lemma upload_returns_session_end_body_witness :
  let s1 := snd (StartUploadFilesToBucket Scenarios.w_surplus context_Background "b1"
                   (map Metadata [Scenarios.file_a; Scenarios.file_b]) Scenarios.s0) in
  UploadFileProcess Scenarios.w_surplus context_Background "b1"
    [Scenarios.file_a; Scenarios.file_b] Scenarios.s0
  = (Ok "{}",
     advance
       (advance s1 (2 * second)
          [EvSleep urlReadyDelay;
           EvDo (put_request "https://s3/u1" "alpha");
           EvDo (put_request "https://s3/u2" "beta")])
       (2 * second)
       [EvDo (requests.api_request "POST"
                "https://api.apillon.io/storage/buckets/b1/upload/sess-1/end" None
                requests.timeoutPost "key-1")]).
Proof.
  intros s1.
  apply (upload_returns_session_end_body Scenarios.w_surplus context_Background "b1"
           [Scenarios.file_a; Scenarios.file_b] Scenarios.s0 s1
           (Scenarios.process_response "sess-1"
              [""; "https://s3/u1"; "https://s3/u2"; "https://s3/u3"])
           "https://api.apillon.io/storage/buckets/b1/upload/sess-1/end"
           {| StatusCode := 200; Body := "{}"; ReadErr := None |}).
  - repeat split; [discriminate|]. exists Scenarios.surplus_response. split; reflexivity.
  - cbn. lia.
  - reflexivity.
  - reflexivity.
  - reflexivity.
  - reflexivity.
  - reflexivity.
  - reflexivity.
  - cbn. lia.
Defined.

End storage_more.
